(** * Mobiflight X-Plane snippets: CDU decoders and the display relay

    A shallow embedding of the four Python scripts that bridge X-Plane's
    dataref feed to a WinWing CDU display:

      - [ToLiss_a3xx.py]        (module [ToLiss])
      - [zibo_737_800x.py]      (module [Zibo])
      - [flightfactor_75_76.py] (module [FlightFactor])
      - [xcrafts_ejets.py]      (module [XCrafts])

    Python values are modelled as they are at run time: a [str] is a list
    of code points, a [dict] is an insertion-ordered association list, an
    exception is a [Raise] result, and dict objects that are shared between
    the feed loop and the queue live in an explicit store. *)

From Stdlib Require Import ZArith NArith String Ascii Lia.
From stdpp Require Import base decidable option numbers list.

(** ** Python values *)

Module Py.

(** A character is a Unicode code point; a [str] is a sequence of them. *)
Definition char := N.
Definition str := list char.

Definition chr (a : ascii) : char := N_of_ascii a.
Arguments chr a%_char : simpl never.

(** A literal of the source (all literals of the scripts are ASCII, apart
    from the glyph constants, which are given by code point). *)
Definition lit (s : string) : str := map N_of_ascii (list_ascii_of_string s).
Arguments lit s%_string : simpl never.

Inductive exn :=
  | KeyError | IndexError | ValueError | TypeError | AttributeError
  | StopIteration.

Inductive result (A : Type) :=
  | Ok (a : A)
  | Raise (e : exn).
Arguments Ok {A} a.
Arguments Raise {A} e.

#[global] Instance result_ret : MRet result := fun A a => Ok a.
#[global] Instance result_bind : MBind result := fun A B f m =>
  match m with
  | Ok a => f a
  | Raise e => Raise e
  end.

#[global] Instance result_fmap : FMap result := fun A B f m =>
  match m with
  | Ok a => Ok (f a)
  | Raise e => Raise e
  end.

#[global] Instance exn_eq_dec : EqDecision exn.
Proof. solve_decision. Defined.

(** [for x in l: acc = f(acc, x)], stopping at the first exception. *)
Fixpoint foldM {A B : Type} (f : B -> A -> result B) (l : list A) (b : B)
  : result B :=
  match l with
  | [] => Ok b
  | x :: rest => b' ← f b x; foldM f rest b'
  end.

(** A value held in a snapshot: the feed stores decoded text, or passes a
    JSON number or null through unchanged. *)
Inductive pyval :=
  | PStr (s : str)
  | PInt (n : Z)
  | PNone.

#[global] Instance pyval_eq_dec : EqDecision pyval.
Proof. solve_decision. Defined.

(** Truthiness, as tested by [not x]. *)
Definition truthy (v : pyval) : bool :=
  match v with
  | PStr s => negb (bool_decide (s = []))
  | PInt n => negb (bool_decide (n = 0%Z))
  | PNone => false
  end.

(** *** str methods *)

(** [str.isspace] on one character: the code points CPython classifies as
    whitespace. *)
Definition isspace_char (c : char) : bool :=
  ((9 <=? c) && (c <=? 13) || (28 <=? c) && (c <=? 32)
   || (c =? 133) || (c =? 160) || (c =? 5760)
   || (8192 <=? c) && (c <=? 8202)
   || (c =? 8232) || (c =? 8233) || (c =? 8239) || (c =? 8287)
   || (c =? 12288))%N.

Definition isspace (s : str) : bool :=
  negb (bool_decide (s = [])) && forallb isspace_char s.

Fixpoint lstrip (s : str) : str :=
  match s with
  | [] => []
  | c :: rest => if isspace_char c then lstrip rest else s
  end.

Definition rstrip (s : str) : str := rev (lstrip (rev s)).

Definition strip (s : str) : str := rstrip (lstrip s).

Fixpoint startswith (p s : str) : bool :=
  match p, s with
  | [], _ => true
  | _ :: _, [] => false
  | a :: p', b :: s' => bool_decide (a = b) && startswith p' s'
  end.

Definition endswith (suffix s : str) : bool :=
  startswith (rev suffix) (rev s).

(** [sub in s] *)
Fixpoint str_in (sub s : str) : bool :=
  match s with
  | [] => bool_decide (sub = [])
  | _ :: rest => startswith sub s || str_in sub rest
  end.

(** [s[a:b]] for constant bounds [0 <= a <= b]: slices never raise. *)
Definition slice {A : Type} (a b : nat) (s : list A) : list A :=
  take (b - a) (drop a s).

(** [s[i]] for a constant [i >= 0]. *)
Definition getitem {A : Type} (s : list A) (i : nat) : result A :=
  match s !! i with
  | Some x => Ok x
  | None => Raise IndexError
  end.

(** [s[-1]] *)
Definition getitem_last {A : Type} (s : list A) : result A :=
  match last s with
  | Some x => Ok x
  | None => Raise IndexError
  end.

(** [s.rindex(c)] for a one-character [c]: the highest index holding [c]. *)
Fixpoint rindex (c : char) (s : str) : result nat :=
  match s with
  | [] => Raise ValueError
  | x :: rest =>
      match rindex c rest with
      | Ok i => Ok (S i)
      | Raise e => if decide (x = c) then Ok 0 else Raise e
      end
  end.

(** [s.rjust(n)]: pad with spaces on the left. *)
Definition rjust (n : nat) (s : str) : str :=
  replicate (n - length s) (chr " ") ++ s.

(** [s.replace("\x00", " ")] *)
Definition replace_nul (s : str) : str :=
  map (fun c => if decide (c = 0%N) then chr " " else c) s.

(** *** int() and isdigit

    [int(s)] on a [str]: CPython first turns every whitespace character
    above U+007E into a space and every decimal digit above it into its
    ASCII digit, then skips the ASCII whitespace at both ends, takes an
    optional sign and reads decimal digits, between which single
    underscores may stand.  The control characters U+001C to U+001F are
    whitespace for [str.strip] but not for [int].  A literal of more than
    4300 digits is refused (the default of [sys.int_max_str_digits]).
    The tables are those of CPython 3.11 (Unicode 14.0). *)

(** The decimal digits (category Nd): every range starts at a digit zero
    and holds whole runs of the ten digits. *)
Definition decimal_ranges : list (N * N) :=
  [(48, 57); (1632, 1641); (1776, 1785); (1984, 1993); (2406, 2415);
   (2534, 2543); (2662, 2671); (2790, 2799); (2918, 2927); (3046, 3055);
   (3174, 3183); (3302, 3311); (3430, 3439); (3558, 3567); (3664, 3673);
   (3792, 3801); (3872, 3881); (4160, 4169); (4240, 4249); (6112, 6121);
   (6160, 6169); (6470, 6479); (6608, 6617); (6784, 6793); (6800, 6809);
   (6992, 7001); (7088, 7097); (7232, 7241); (7248, 7257); (42528, 42537);
   (43216, 43225); (43264, 43273); (43472, 43481); (43504, 43513);
   (43600, 43609); (44016, 44025); (65296, 65305); (66720, 66729);
   (68912, 68921); (69734, 69743); (69872, 69881); (69942, 69951);
   (70096, 70105); (70384, 70393); (70736, 70745); (70864, 70873);
   (71248, 71257); (71360, 71369); (71472, 71481); (71904, 71913);
   (72016, 72025); (72784, 72793); (73040, 73049); (73120, 73129);
   (92768, 92777); (92864, 92873); (93008, 93017); (120782, 120831);
   (123200, 123209); (123632, 123641); (125264, 125273); (130032, 130041)]%N.

(** The characters with a digit value: the decimal digits and with them
    the superscripts, subscripts, circled digits and the like. *)
Definition digit_ranges : list (N * N) :=
  [(48, 57); (178, 179); (185, 185); (1632, 1641); (1776, 1785);
   (1984, 1993); (2406, 2415); (2534, 2543); (2662, 2671); (2790, 2799);
   (2918, 2927); (3046, 3055); (3174, 3183); (3302, 3311); (3430, 3439);
   (3558, 3567); (3664, 3673); (3792, 3801); (3872, 3881); (4160, 4169);
   (4240, 4249); (4969, 4977); (6112, 6121); (6160, 6169); (6470, 6479);
   (6608, 6618); (6784, 6793); (6800, 6809); (6992, 7001); (7088, 7097);
   (7232, 7241); (7248, 7257); (8304, 8304); (8308, 8313); (8320, 8329);
   (9312, 9320); (9332, 9340); (9352, 9360); (9450, 9450); (9461, 9469);
   (9471, 9471); (10102, 10110); (10112, 10120); (10122, 10130);
   (42528, 42537); (43216, 43225); (43264, 43273); (43472, 43481);
   (43504, 43513); (43600, 43609); (44016, 44025); (65296, 65305);
   (66720, 66729); (68160, 68163); (68912, 68921); (69216, 69224);
   (69714, 69722); (69734, 69743); (69872, 69881); (69942, 69951);
   (70096, 70105); (70384, 70393); (70736, 70745); (70864, 70873);
   (71248, 71257); (71360, 71369); (71472, 71481); (71904, 71913);
   (72016, 72025); (72784, 72793); (73040, 73049); (73120, 73129);
   (92768, 92777); (92864, 92873); (93008, 93017); (120782, 120831);
   (123200, 123209); (123632, 123641); (125264, 125273); (127232, 127242);
   (130032, 130041)]%N.

Definition in_ranges (ranges : list (N * N)) (c : char) : option (N * N) :=
  List.find (fun r => (r.1 <=? c) && (c <=? r.2))%N ranges.

(** [Py_UNICODE_TODECIMAL] *)
Definition digit_val (c : char) : option Z :=
  r ← in_ranges decimal_ranges c;
  Some (Z.of_N ((c - r.1) mod 10)).

(** The whitespace [int] skips at both ends. *)
Definition int_space (c : char) : bool :=
  if (c <? 127)%N then ((9 <=? c) && (c <=? 13) || (c =? 32))%N
  else isspace_char c.

Fixpoint int_lstrip (s : str) : str :=
  match s with
  | [] => []
  | c :: rest => if int_space c then int_lstrip rest else s
  end.

Definition int_strip (s : str) : str := rev (int_lstrip (rev (int_lstrip s))).

Fixpoint int_digits (acc : Z) (s : str) : option Z :=
  match s with
  | [] => Some acc
  | c :: rest =>
      if decide (c = chr "_") then
        match rest with
        | d :: rest' =>
            match digit_val d with
            | Some v => int_digits (10 * acc + v)%Z rest'
            | None => None
            end
        | [] => None
        end
      else
        match digit_val c with
        | Some v => int_digits (10 * acc + v)%Z rest
        | None => None
        end
  end.

Definition int_max_str_digits : N := 4300.

(** The digits of a literal, its underscores left out. *)
Definition count_digits (s : str) : N :=
  N.of_nat (length (List.filter (fun c => negb (c =? chr "_")%N) s)).

Definition int_unsigned (s : str) : option Z :=
  match s with
  | d :: rest =>
      match digit_val d with
      | Some v =>
          n ← int_digits v rest;
          if (int_max_str_digits <? count_digits s)%N then None else Some n
      | None => None
      end
  | [] => None
  end.

Definition of_option {A : Type} (e : exn) (o : option A) : result A :=
  match o with
  | Some a => Ok a
  | None => Raise e
  end.

Definition int (s : str) : result Z :=
  match int_strip s with
  | c :: rest =>
      if decide (c = chr "+") then of_option ValueError (int_unsigned rest)
      else if decide (c = chr "-") then
        of_option ValueError (Z.opp <$> int_unsigned rest)
      else of_option ValueError (int_unsigned (c :: rest))
  | [] => Raise ValueError
  end.

(** [c.isdigit()] *)
Definition isdigit (c : char) : bool :=
  bool_decide (is_Some (in_ranges digit_ranges c)).

(** *** dict

    Insertion-ordered, as CPython's: assigning to an existing key keeps
    its position, a new key is appended. *)
Definition dict (K V : Type) := list (K * V).

Section Dict.
Context {K V : Type} `{EqDecision K}.

Fixpoint dict_get (d : dict K V) (k : K) : option V :=
  match d with
  | [] => None
  | (k', v) :: rest => if decide (k' = k) then Some v else dict_get rest k
  end.

(** [d[k] = v] *)
Fixpoint dict_set (d : dict K V) (k : K) (v : V) : dict K V :=
  match d with
  | [] => [(k, v)]
  | (k', v') :: rest =>
      if decide (k' = k) then (k, v) :: rest
      else (k', v') :: dict_set rest k v
  end.

(** [k in d] *)
Definition dict_in (k : K) (d : dict K V) : bool :=
  bool_decide (is_Some (dict_get d k)).

(** [d.get(k, default)] *)
Definition dict_get_default (d : dict K V) (k : K) (default : V) : V :=
  match dict_get d k with
  | Some v => v
  | None => default
  end.

(** [d[k]] *)
Definition dict_getitem (d : dict K V) (k : K) : result V :=
  of_option KeyError (dict_get d k).

(** [d1 == d2]: same length and every item of [d1] is in [d2],
    whatever the insertion order. *)
Definition dict_eqb `{EqDecision V} (d1 d2 : dict K V) : bool :=
  bool_decide (length d1 = length d2)
  && forallb (fun kv => bool_decide (dict_get d2 kv.1 = Some kv.2)) d1.

(** The keys of a dict object are pairwise distinct. *)
Definition dict_wf (d : dict K V) : Prop := NoDup (d.*1).
End Dict.

(** [lst[i] = x] for a Python integer [i]: a negative index counts from
    the end, anything outside the list raises IndexError. *)
Definition setitem {A : Type} (l : list A) (i : Z) (x : A) : result (list A) :=
  let n := Z.of_nat (length l) in
  if decide (0 <= i < n)%Z then Ok (<[Z.to_nat i := x]> l)
  else if decide (- n <= i < 0)%Z then Ok (<[Z.to_nat (n + i) := x]> l)
  else Raise IndexError.

(** [lst[a:b] = xs] for [0 <= a <= b]: the slice is replaced by [xs]. *)
Definition setslice {A : Type} (l : list A) (a b : nat) (xs : list A)
  : list A :=
  take a l ++ xs ++ drop (max a b) l.

End Py.
Import Py.

(** ** The cell grid and the wire message *)

(** One entry of the display buffer: Python's [[]] for a blank cell, or a
    [character, color, size] triple (a list or a tuple in the source; both
    serialize to a JSON array). *)
Inductive cell :=
  | EmptyCell
  | Cell (character : char) (color : str) (size : pyval).

#[global] Instance cell_eq_dec : EqDecision cell.
Proof. solve_decision. Defined.

Definition CDU_COLUMNS : nat := 24.
Definition CDU_ROWS : nat := 14.

(** [[[] for _ in range(CDU_ROWS * CDU_COLUMNS)]] *)
Definition empty_display : list cell :=
  replicate (CDU_ROWS * CDU_COLUMNS) EmptyCell.

(** The document handed to [json.dumps]:
    [{"Target": "Display", "Data": display_data}]. *)
Record display_message := { Target : str; Data : list cell }.

Definition display_json (display_data : list cell) : display_message :=
  {| Target := lit "Display"; Data := display_data |}.

(** A snapshot: dataref name to last known value. *)
Definition snapshot := dict str pyval.

(** ** One line of the display

    [process_cdu_line] of ToLiss_a3xx.py and of zibo_737_800x.py are the
    same loop; they differ in the test on the dataref's name and in the
    tuple they store, which are the parameters here. *)

(** [not text or text.isspace()] *)
Definition blank_text (text : pyval) : result bool :=
  if negb (truthy text) then Ok true
  else match text with
       | PStr s => Ok (isspace s)
       | _ => Raise AttributeError
       end.

(** [text[:CDU_COLUMNS]] *)
Definition text_prefix (text : pyval) : result str :=
  match text with
  | PStr s => Ok (slice 0 CDU_COLUMNS s)
  | _ => Raise TypeError
  end.

Section CduLine.
Variable has_target_suffix : nat -> str -> bool.
Variable line_char : str -> char -> result cell.

(** [for i, char in enumerate(text[:CDU_COLUMNS])], from index [i] on. *)
Fixpoint write_chars (dataref : str) (i : nat) (text : str)
    (line_chars : list cell) : result (list cell) :=
  match text with
  | [] => Ok line_chars
  | c :: rest =>
      if decide (c = chr " ") then write_chars dataref (S i) rest line_chars
      else
        entry ← line_char dataref c;
        line_chars' ← setitem line_chars (Z.of_nat i) entry;
        write_chars dataref (S i) rest line_chars'
  end.

(** The body of [for dataref, text in line_datarefs.items()]. *)
Definition render_dataref (row : nat) (line_chars : list cell)
    (item : str * pyval) : result (list cell) :=
  blank ← blank_text item.2;
  if blank : bool then Ok line_chars
  else if bool_decide (row ≠ 0 ∧ row ≠ 14)
          && negb (has_target_suffix row item.1)
  then Ok line_chars
  else
    s ← text_prefix item.2;
    write_chars item.1 0 s line_chars.

Definition render_line (line_datarefs : snapshot) (row : nat)
  : result (list cell) :=
  foldM (render_dataref row) line_datarefs (replicate CDU_COLUMNS EmptyCell).
End CduLine.

(** [if line_num not in grouped_datarefs: grouped_datarefs[line_num] = {}]
    followed by [grouped_datarefs[line_num][dataref] = value]. *)
Definition add_to_line (grouped_datarefs : dict Z snapshot) (line_num : Z)
    (dataref : str) (value : pyval) : dict Z snapshot :=
  let line := dict_get_default grouped_datarefs line_num [] in
  dict_set grouped_datarefs line_num (dict_set line dataref value).

(** ** Label/content row assembly

    [generate_display_json] of ToLiss_a3xx.py and [get_display_json] of
    zibo_737_800x.py are the same text; they differ in the two functions
    they call, which are the parameters here. *)
Section PairedRows.
Variable group_datarefs_by_line : snapshot -> result (dict Z snapshot).
Variable process_cdu_line : snapshot -> nat -> result (list cell).

(** The body of [for row in range(CDU_ROWS + 1)]. *)
Definition render_row (grouped_datarefs : dict Z snapshot)
    (display_data : list cell) (row : nat) : result (list cell) :=
  if decide (row = 1) then Ok display_data
  else
    let dataref_line := if decide (0 < row) then row `div` 2 else 0 in
    let line_datarefs :=
      dict_get_default grouped_datarefs (Z.of_nat dataref_line) [] in
    if decide (line_datarefs = []) then Ok display_data
    else
      line_chars ← process_cdu_line line_datarefs row;
      let start_index :=
        (if decide (0 < row) then row - 1 else row) * CDU_COLUMNS in
      Ok (setslice display_data start_index (start_index + CDU_COLUMNS)
            line_chars).

Definition render_display (values : snapshot) : result (list cell) :=
  grouped_datarefs ← group_datarefs_by_line values;
  foldM (render_row grouped_datarefs) (seq 0 (CDU_ROWS + 1)) empty_display.

Definition render_json (values : snapshot) : result display_message :=
  display_data ← render_display values;
  Ok (display_json display_data).
End PairedRows.

(** ** The feed loop

    One pass of [while True] in [handle_datarefs] for a message that has a
    ["data"] payload.  The snapshots are dict objects: [new_values] is a
    fresh copy of [last_known_values], but after
    [last_known_values = new_values] both names and the queue entry denote
    the same object, so the objects live in a store and the variables and
    the queue hold references into it. *)
Module Feed.

Record state := {
  heap : list snapshot;        (* the dict objects allocated so far *)
  last_known_values : nat;     (* reference held by the variable *)
  queue : list nat;            (* references put on the queue, oldest first *)
  comparisons : nat            (* how often [==] on snapshots was evaluated *)
}.

(** [last_known_values = {}] before the first message. *)
Definition initial : state :=
  {| heap := [[]]; last_known_values := 0; queue := []; comparisons := 0 |}.

Definition deref (st : state) (r : nat) : snapshot := default [] (heap st !! r).

(** A piece of the coroutine: it may raise, and the store it has touched
    stays touched. *)
Definition task (A : Type) : Type := state -> result A * state.

#[global] Instance task_ret : MRet task := fun A a st => (Ok a, st).
#[global] Instance task_bind : MBind task := fun A B k m st =>
  match m st with
  | (Ok a, st') => k a st'
  | (Raise e, st') => (Raise e, st')
  end.

Definition lift {A : Type} (r : result A) : task A := fun st => (r, st).

(** [new_values = dict(last_known_values)] *)
Definition copy_last_known : task nat := fun st =>
  (Ok (length (heap st)),
   {| heap := heap st ++ [deref st (last_known_values st)];
      last_known_values := last_known_values st;
      queue := queue st;
      comparisons := comparisons st |}).

(** [new_values[dataref_name] = value] *)
Definition store (r : nat) (dataref_name : str) (value : pyval) : task unit :=
  fun st =>
    (Ok (),
     {| heap := alter (fun d => dict_set d dataref_name value) r (heap st);
        last_known_values := last_known_values st;
        queue := queue st;
        comparisons := comparisons st |}).

(** [new_values == last_known_values] *)
Definition same_as_last_known (r : nat) : task bool := fun st =>
  (Ok (dict_eqb (deref st r) (deref st (last_known_values st))),
   {| heap := heap st;
      last_known_values := last_known_values st;
      queue := queue st;
      comparisons := S (comparisons st) |}).

(** [last_known_values = new_values] *)
Definition adopt (r : nat) : task unit := fun st =>
  (Ok (),
   {| heap := heap st; last_known_values := r; queue := queue st;
      comparisons := comparisons st |}).

(** [await queue.put(new_values)]: the queue is unbounded, so the put
    completes without suspending the coroutine. *)
Definition queue_put (r : nat) : task unit := fun st =>
  (Ok (),
   {| heap := heap st; last_known_values := last_known_values st;
      queue := queue st ++ [r]; comparisons := comparisons st |}).

Fixpoint for_each {A : Type} (l : list A) (body : A -> task unit) : task unit :=
  match l with
  | [] => mret ()
  | x :: rest => body x;; for_each rest body
  end.

Section Handlers.
(** The catalog, id to name. *)
Variable dataref_map : dict Z str.
(** How the script turns the raw value of a named dataref into the value
    it stores. *)
Variable decode_value : str -> pyval -> result pyval.

(** Comparison and adoption inside the [for] loop, after each key
    (ToLiss_a3xx.py, zibo_737_800x.py). *)
Definition update_and_compare (new_values : nat) (item : str * pyval)
  : task unit :=
  dataref_id ← lift (int item.1);
  match dict_get dataref_map dataref_id with
  | None => mret ()
  | Some dataref_name =>
      value ← lift (decode_value dataref_name item.2);
      store new_values dataref_name value;;
      same ← same_as_last_known new_values;
      if same : bool then mret ()
      else (adopt new_values;; queue_put new_values)
  end.

Definition handle_message_per_key (payload : dict str pyval) : task unit :=
  new_values ← copy_last_known;
  for_each payload (update_and_compare new_values).

(** Comparison and adoption after the [for] loop, once per message
    (flightfactor_75_76.py, xcrafts_ejets.py). *)
Definition update (new_values : nat) (item : str * pyval) : task unit :=
  dataref_id ← lift (int item.1);
  match dict_get dataref_map dataref_id with
  | None => mret ()
  | Some dataref_name =>
      value ← lift (decode_value dataref_name item.2);
      store new_values dataref_name value
  end.

Definition handle_message_once (payload : dict str pyval) : task unit :=
  new_values ← copy_last_known;
  for_each payload (update new_values);;
  same ← same_as_last_known new_values;
  if same : bool then mret ()
  else (adopt new_values;; queue_put new_values).
End Handlers.

(** [base64.b64decode(value).decode().replace("\x00", " ")], given the
    library's [base64.b64decode(value).decode()] on a [str]; a number or
    None is not a bytes-like object. *)
Definition decode_text (b64decode_text : str -> result str) (value : pyval)
  : result pyval :=
  match value with
  | PStr s => t ← b64decode_text s; Ok (PStr (replace_nul t))
  | _ => Raise TypeError
  end.

(** [... if isinstance(value, str) else value] *)
Definition decode_if_str (b64decode_text : str -> result str) (value : pyval)
  : result pyval :=
  match value with
  | PStr _ => decode_text b64decode_text value
  | _ => Ok value
  end.

End Feed.

(** ** The relay queue and the display loop

    The display coroutine and the feed coroutine interleave only where one
    of them is suspended in an [await] that does not complete at once:
    [queue.get()] on an empty queue, [websocket.send], the rate-limit
    sleep, and the reconnect.  The events below are the moments at which
    one of them runs on; an execution is a list of events. *)
Module Relay.
Section Relay.
Context {item wire : Type}.
(** [generate_display_json] of the script. *)
Variable generate : item -> result wire.

Inductive status :=
  | Waiting                        (* in [queue.get()], or reconnecting *)
  | Sending (values : item) (display_json : wire)
                                   (* in [websocket.send(display_json)] *)
  | Sleeping (values : item)       (* in [asyncio.sleep(...)] *)
  | Crashed (e : exn).             (* ended by an uncaught exception *)

Record state := {
  queue : list item;       (* asyncio.Queue: oldest item first *)
  sender : status;
  sent : list wire;        (* frames the display socket took, oldest first *)
  delivered : list item;   (* the snapshots those frames were made from *)
  enqueued : list item;    (* every item ever put, by feed or requeue *)
  dequeued : list item     (* every item [queue.get()] ever returned *)
}.

Definition initial : state :=
  {| queue := []; sender := Waiting; sent := []; delivered := [];
     enqueued := []; dequeued := [] |}.

Inductive event :=
  | Put (values : item)   (* the feed loop runs [await queue.put(new_values)] *)
  | Get                   (* [queue.get()] returns the oldest item *)
  | SendOk                (* [websocket.send] returns *)
  | SendClosed            (* [websocket.send] raises ConnectionClosed *)
  | Wake.                 (* the rate-limit sleep is over *)

(** [await queue.put(values)]: append at the tail. *)
Definition put (values : item) (st : state) : state :=
  {| queue := queue st ++ [values]; sender := sender st; sent := sent st;
     delivered := delivered st;
     enqueued := enqueued st ++ [values]; dequeued := dequeued st |}.

Definition with_sender (s : status) (st : state) : state :=
  {| queue := queue st; sender := s; sent := sent st;
     delivered := delivered st;
     enqueued := enqueued st; dequeued := dequeued st |}.

(** [values = await queue.get()] *)
Definition get (st : state) : option (item * state) :=
  match queue st with
  | values :: rest =>
      Some (values,
            {| queue := rest; sender := sender st; sent := sent st;
               delivered := delivered st;
               enqueued := enqueued st;
               dequeued := dequeued st ++ [values] |})
  | [] => None
  end.

(** [handle_display_update] of ToLiss_a3xx.py, zibo_737_800x.py and
    flightfactor_75_76.py: the frame is generated outside the [try], and
    a closed connection puts [values] back and leaves the inner loop. *)
Definition handle_display_update (ev : event) (st : state) : option state :=
  match ev, sender st with
  | Put values, _ => Some (put values st)
  | Get, Waiting =>
      '(values, st') ← get st;
      match generate values with
      | Ok display_json => Some (with_sender (Sending values display_json) st')
      | Raise e => Some (with_sender (Crashed e) st')
      end
  | SendOk, Sending values display_json =>
      Some {| queue := queue st; sender := Waiting;
              sent := sent st ++ [display_json];
              delivered := delivered st ++ [values];
              enqueued := enqueued st; dequeued := dequeued st |}
  | SendClosed, Sending values _ => Some (put values (with_sender Waiting st))
  | _, _ => None
  end.

(** [handle_device_update] of xcrafts_ejets.py: the frame is generated
    after the rate-limit sleep; the [websocket.send] line is a comment,
    so nothing in the [try] can raise ConnectionClosed. *)
Definition handle_device_update (ev : event) (st : state) : option state :=
  match ev, sender st with
  | Put values, _ => Some (put values st)
  | Get, Waiting =>
      '(values, st') ← get st;
      Some (with_sender (Sleeping values) st')
  | Wake, Sleeping values =>
      match generate values with
      | Ok display_json => Some (with_sender Waiting st)
      | Raise e => Some (with_sender (Crashed e) st)
      end
  | _, _ => None
  end.

(** An execution; [None] when an event cannot happen in the state it
    meets. *)
Fixpoint run (step : event -> state -> option state) (evs : list event)
    (st : state) : option state :=
  match evs with
  | [] => Some st
  | ev :: rest => st' ← step ev st; run step rest st'
  end.
End Relay.
Arguments state : clear implicits.
Arguments status : clear implicits.
Arguments event : clear implicits.
Arguments initial {item wire}.
End Relay.

(** ** ToLiss A3xx *)

Module ToLiss.

Definition BALLOT_BOX : char := 0x2610%N.
Definition UP_ARROW : char := 0x2191%N.
Definition DOWN_ARROW : char := 0x2193%N.
Definition LEFT_ARROW : char := 0x2190%N.
Definition RIGHT_ARROW : char := 0x2192%N.
Definition GREEK_DELTA : char := 0x0394%N.
Definition DEGREES : char := 0x00B0%N.

Definition CONTENT_MAP : dict char char :=
  [(chr "`", DEGREES); (chr "|", GREEK_DELTA)].

Definition SYMBOL_MAP : dict char char :=
  CONTENT_MAP ++
  [(chr "A", chr "["); (chr "B", chr "]"); (chr "E", BALLOT_BOX);
   (chr "0", LEFT_ARROW); (chr "1", RIGHT_ARROW);
   (chr "2", LEFT_ARROW); (chr "3", RIGHT_ARROW);
   (chr "4", LEFT_ARROW); (chr "5", RIGHT_ARROW);
   (chr "C", UP_ARROW); (chr "D", DOWN_ARROW)].

Definition COLOR_MAP : dict char char := [(chr "b", chr "c")].

Definition SYMBOL_COLOR_MAP : dict char char :=
  [(chr "E", chr "a"); (chr "4", chr "a"); (chr "5", chr "a")].

Definition get_color (dataref_name : str) (c : char) : result str :=
  suffix ← getitem_last dataref_name;
  if (str_in (lit "label") dataref_name || str_in (lit "title") dataref_name)
       && bool_decide (suffix = chr "s")
     || endswith (lit "VertSlewKeys") dataref_name
  then Ok (lit "w")
  else if bool_decide (suffix = chr "s")
  then Ok [dict_get_default SYMBOL_COLOR_MAP c (chr "c")]
  else Ok [dict_get_default COLOR_MAP suffix suffix].

Definition get_char (dataref_name : str) (c : char) : result char :=
  suffix ← getitem_last dataref_name;
  if bool_decide (suffix = chr "s")
  then Ok (dict_get_default SYMBOL_MAP c c)
  else Ok (dict_get_default CONTENT_MAP c c).

Definition get_size (dataref_name : str) : Z :=
  if str_in (lit "scont") dataref_name
     || str_in (lit "label") dataref_name
        && negb (str_in (lit "labelL") dataref_name)
  then 1 else 0.

(** The tuple stored for a character of a dataref's text. *)
Definition line_char (dataref : str) (c : char) : result cell :=
  character ← get_char dataref c;
  color ← get_color dataref c;
  Ok (Cell character color (PInt (get_size dataref))).

(** [target_suffix in dataref] *)
Definition has_target_suffix (row : nat) (dataref : str) : bool :=
  str_in (if decide (row `mod` 2 = 0) then lit "label" else lit "cont") dataref.

Definition process_cdu_line : snapshot -> nat -> result (list cell) :=
  render_line has_target_suffix line_char.

(** The first digit met scanning the name from its end. *)
Definition last_digit (dataref : str) : result char :=
  of_option StopIteration (List.find isdigit (rev dataref)).

Definition line_number (dataref : str) : result Z :=
  if str_in (lit "title") dataref then Ok 0%Z
  else if bool_decide
            (dataref ∈ [lit "AirbusFBW/MCDU1spa"; lit "AirbusFBW/MCDU1spw";
                        lit "AirbusFBW/MCDU1VertSlewKeys"])
  then Ok 7%Z
  else d ← last_digit dataref; int [d].

(** The body of the loop is wrapped in [try: ... except Exception: pass]:
    a dataref whose line number cannot be computed is left out. *)
Definition group_datarefs_by_line (values : snapshot)
  : result (dict Z snapshot) :=
  Ok (fold_left
        (fun grouped_datarefs '(dataref, value) =>
           match line_number dataref with
           | Ok line_num => add_to_line grouped_datarefs line_num dataref value
           | Raise _ => grouped_datarefs
           end)
        values []).

Definition display_data :=
  render_display group_datarefs_by_line process_cdu_line.

Definition generate_display_json (values : snapshot) : result display_message :=
  render_json group_datarefs_by_line process_cdu_line values.

Definition process_slew_keys (value : pyval) : str :=
  rjust 24
    match value with
    | PInt 1 => [UP_ARROW; DOWN_ARROW]
    | PInt 2 => [UP_ARROW; chr " "]
    | PInt 3 => [DOWN_ARROW]
    | _ => []
    end.

Section Loops.
(** [base64.b64decode(value).decode()] of the standard library. *)
Variable b64decode_text : str -> result str.
Variable dataref_map : dict Z str.

Definition decode_value (dataref_name : str) (value : pyval) : result pyval :=
  if decide (dataref_name = lit "AirbusFBW/MCDU1VertSlewKeys")
  then Ok (PStr (process_slew_keys value))
  else Feed.decode_text b64decode_text value.

(** One inbound message with a ["data"] payload. *)
Definition handle_datarefs : dict str pyval -> Feed.task unit :=
  Feed.handle_message_per_key dataref_map decode_value.
End Loops.

Definition handle_display_update :=
  Relay.handle_display_update generate_display_json.

End ToLiss.

(** ** Zibo 737-800X *)

Module Zibo.

Definition CHARACTER_MAPPING : dict char char :=
  [(chr "`", 0x00B0%N); (chr "*", 0x2610%N)].

Definition COLOR_MAPPING : dict str str :=
  [(lit "GX", lit "g"); (lit "G", lit "g"); (lit "C", lit "c");
   (lit "I", lit "e"); (lit "M", lit "m")].

(** [dataref[dataref.rindex(c) + 1 :]] *)
Definition after_last (c : char) (dataref : str) : result str :=
  i ← rindex c dataref;
  Ok (drop (i + 1) dataref).

Definition get_color (dataref : str) : result str :=
  dataref_ending ← after_last (chr "_") dataref;
  Ok (if negb (dict_in dataref_ending COLOR_MAPPING) then lit "w"
      else dict_get_default COLOR_MAPPING dataref_ending (lit "w")).

Definition get_size (dataref : str) : Z :=
  if endswith (lit "X") dataref || endswith (lit "S") dataref then 1 else 0.

(** The tuple stored for a character of a dataref's text. *)
Definition line_char (dataref : str) (c : char) : result cell :=
  color ← get_color dataref;
  Ok (Cell (dict_get_default CHARACTER_MAPPING c c) color
        (PInt (get_size dataref))).

(** [any(dataref.endswith(suffix) for suffix in target_suffixes)] *)
Definition has_target_suffix (row : nat) (dataref : str) : bool :=
  existsb (fun suffix => endswith suffix dataref)
    (if decide (row `mod` 2 = 0) then [lit "_X"; lit "_LX"; lit "_GX"]
     else [lit "_G"; lit "_L"; lit "_M"; lit "_S"; lit "_I"; lit "_SI"]).

Definition process_cdu_line : snapshot -> nat -> result (list cell) :=
  render_line has_target_suffix line_char.

Definition line_number (dataref : str) : result Z :=
  dataref_name ← after_last (chr "/") dataref;
  if startswith (lit "Line_entry") dataref_name then Ok 7%Z
  else int (slice 4 6 dataref_name).

(** No exception is handled here: the first dataref whose line number
    cannot be computed ends the grouping with that exception. *)
Definition group_datarefs_by_line (values : snapshot)
  : result (dict Z snapshot) :=
  foldM
    (fun grouped_datarefs '(dataref, value) =>
       line_num ← line_number dataref;
       Ok (add_to_line grouped_datarefs line_num dataref value))
    values [].

Definition display_data :=
  render_display group_datarefs_by_line process_cdu_line.

Definition get_display_json (values : snapshot) : result display_message :=
  render_json group_datarefs_by_line process_cdu_line values.

Section Loops.
(** [base64.b64decode(value).decode()] of the standard library. *)
Variable b64decode_text : str -> result str.
Variable dataref_map : dict Z str.

Definition decode_value (dataref_name : str) (value : pyval) : result pyval :=
  Feed.decode_text b64decode_text value.

(** One inbound message with a ["data"] payload. *)
Definition handle_datarefs : dict str pyval -> Feed.task unit :=
  Feed.handle_message_per_key dataref_map decode_value.
End Loops.

Definition handle_display_update :=
  Relay.handle_display_update get_display_json.

End Zibo.

(** ** FlightFactor 757/767 *)

Module FlightFactor.

Definition BALLOT_BOX : char := 0x2610%N.
Definition DEGREES : char := 0x00B0%N.

Definition CHAR_MAP : dict char char :=
  [(0x1D%N, BALLOT_BOX); (0x1C%N, DEGREES)].

Definition SYMBOLS : str := lit "1-sim/cduL/display/symbols".
Definition SYMBOLS_COLOR : str := lit "1-sim/cduL/display/symbolsColor".
Definition SYMBOLS_SIZE : str := lit "1-sim/cduL/display/symbolsSize".

Record CduLine := { char_ : char; size : char; color : char }.

Definition get_char (c : char) : char := dict_get_default CHAR_MAP c c.

(** Iterating a value: a [str] yields its characters, a number or None is
    not iterable. *)
Definition iter (v : pyval) : result str :=
  match v with
  | PStr s => Ok s
  | _ => Raise TypeError
  end.

Fixpoint zip3 (a b c : str) : list CduLine :=
  match a, b, c with
  | x :: a', y :: b', z :: c' =>
      {| char_ := x; size := y; color := z |} :: zip3 a' b' c'
  | _, _, _ => []
  end.

Definition process_display_datarefs (values : snapshot)
  : result (list CduLine) :=
  symbols ← dict_getitem values SYMBOLS;
  symbol_sizes ← dict_getitem values SYMBOLS_SIZE;
  symbol_colors ← dict_getitem values SYMBOLS_COLOR;
  a ← iter symbols;
  b ← iter symbol_sizes;
  c ← iter symbol_colors;
  Ok (zip3 a b c).

(** The body of the two nested [for] loops, at [index = row * 24 + col]. *)
Definition render_cell (processed_datarefs : list CduLine)
    (display_data : list cell) (index : nat) : result (list cell) :=
  cdu_line ← getitem processed_datarefs index;
  if decide (char_ cdu_line = chr " ") then Ok display_data
  else setitem display_data (Z.of_nat index)
         (Cell (get_char (char_ cdu_line)) (lit "g") (PStr [size cdu_line])).

(** [row * CDU_COLUMNS + col] for [row in range(CDU_ROWS)],
    [col in range(CDU_COLUMNS)], in iteration order. *)
Definition indices : list nat :=
  row ← seq 0 CDU_ROWS; col ← seq 0 CDU_COLUMNS; [row * CDU_COLUMNS + col].

Definition display_data (values : snapshot) : result (list cell) :=
  processed_datarefs ← process_display_datarefs values;
  foldM (render_cell processed_datarefs) indices empty_display.

Definition generate_display_json (values : snapshot) : result display_message :=
  d ← display_data values;
  Ok (display_json d).

Section Loops.
(** [base64.b64decode(value).decode()] of the standard library. *)
Variable b64decode_text : str -> result str.
Variable dataref_map : dict Z str.

Definition decode_value (dataref_name : str) (value : pyval) : result pyval :=
  Feed.decode_if_str b64decode_text value.

(** One inbound message with a ["data"] payload. *)
Definition handle_datarefs : dict str pyval -> Feed.task unit :=
  Feed.handle_message_once dataref_map decode_value.
End Loops.

Definition handle_display_update :=
  Relay.handle_display_update generate_display_json.

End FlightFactor.

(** ** X-Crafts E-Jets *)

Module XCrafts.

Definition BALLOT_BOX : char := 0x2610%N.
Definition DEGREES : char := 0x00B0%N.

Definition CHAR_MAP : dict char char := [(chr "#", BALLOT_BOX); (chr "*", DEGREES)].
Definition COLOR_MAP : dict Z str := [].

Inductive CduDevice := Captain | CoPilot.

Definition get_char (c : char) : char := dict_get_default CHAR_MAP c c.

Definition get_color (color : Z) : str := dict_get_default COLOR_MAP color (lit "w").

(** The packed prefix of a dataref value. *)
Record packed := { row : Z; col : Z; size : Z; color : Z; text : str }.

Definition parse_value (value : str) : result packed :=
  r ← int (slice 0 2 value);
  c ← int (slice 2 4 value);
  s4 ← getitem value 4;
  s ← int [s4];
  c5 ← getitem value 5;
  k ← int [c5];
  Ok {| row := r - 1; col := c - 1; size := s; color := k;
        text := strip (drop 6 value) |}.

(** [for char_index, char in enumerate(text)], from [char_index] on. *)
Fixpoint write_text (index : Z) (p : packed) (char_index : nat) (text : str)
    (display_data : list cell) : result (list cell) :=
  match text with
  | [] => Ok display_data
  | c :: rest =>
      if decide (CDU_COLUMNS - 1 < char_index) then Ok display_data
      else if decide (c = chr " ")
      then write_text index p (S char_index) rest display_data
      else
        display_data' ← setitem display_data (index + Z.of_nat char_index - 1)
                          (Cell c (get_color (color p)) (PInt (size p)));
        write_text index p (S char_index) rest display_data'
  end.

(** [for _, value in values.items()] *)
Fixpoint translate_loop (values : list pyval) (display_data : list cell)
  : result (list cell) :=
  match values with
  | [] => Ok display_data
  | PNone :: _ => Ok display_data
  | PInt _ :: _ => Raise AttributeError
  | PStr value :: rest =>
      if decide (strip value = []) then Ok display_data
      else
        p ← parse_value value;
        if decide (text p = []) then translate_loop rest display_data
        else
          let index := (row p * Z.of_nat CDU_COLUMNS + col p)%Z in
          display_data' ← write_text index p 0 (text p) display_data;
          translate_loop rest display_data'
  end.

Definition translate_values (values : snapshot) : result (list cell) :=
  translate_loop values.*2 empty_display.

(** The function prints the translated grid and ends in a bare [return]. *)
Definition generate_display_json (device : CduDevice) (values : snapshot)
  : result (option display_message) :=
  translated_values ← translate_values values;
  Ok None.

Section Loops.
(** [base64.b64decode(value).decode()] of the standard library. *)
Variable b64decode_text : str -> result str.
Variable dataref_map : dict Z str.

Definition decode_value (dataref_name : str) (value : pyval) : result pyval :=
  Feed.decode_if_str b64decode_text value.

(** One inbound message with a ["data"] payload. *)
Definition handle_dataref_updates : dict str pyval -> Feed.task unit :=
  Feed.handle_message_once dataref_map decode_value.
End Loops.

Definition handle_device_update (device : CduDevice) :=
  Relay.handle_device_update (generate_display_json device).

End XCrafts.

(** * Specification vocabulary *)

(** ** Worked inputs *)

Definition fuel_pred : snapshot :=
  [(lit "AirbusFBW/MCDU1title1", PStr (lit "FUEL PRED "))].

Definition rte : snapshot :=
  [(lit "XCrafts/FMS/CDU_1_03", PStr (lit "011310RTE"))].

Definition blank_then_rte : snapshot :=
  [(lit "XCrafts/FMS/CDU_1_01", PStr (lit "      "));
   (lit "XCrafts/FMS/CDU_1_03", PStr (lit "011310RTE"))].

Definition zibo_title : snapshot :=
  [(lit "laminar/B738/fmc1/Line00_L", PStr (lit "AB*"))].

Definition flightfactor_page : snapshot :=
  [(FlightFactor.SYMBOLS, PStr (replicate 336 (chr "A")));
   (FlightFactor.SYMBOLS_SIZE, PStr (replicate 336 (chr "1")));
   (FlightFactor.SYMBOLS_COLOR, PStr (replicate 336 (chr "g")))].

Definition title_b : snapshot :=
  [(lit "AirbusFBW/MCDU1titlew", PStr (lit "B"))].

(** [base64.b64decode(value).decode()] on the payloads of the worked
    message: "QQ==" is the text "A" and "Qg==" is the text "B". *)
Definition b64decode_sample (s : str) : result str :=
  if decide (s = lit "QQ==") then Ok (lit "A")
  else if decide (s = lit "Qg==") then Ok (lit "B")
  else Raise ValueError.

Definition catalog : dict Z str :=
  [(1%Z, lit "AirbusFBW/MCDU1cont1w"); (2%Z, lit "AirbusFBW/MCDU1cont2w")].

Definition msg : dict str pyval :=
  [(lit "1", PStr (lit "QQ==")); (lit "2", PStr (lit "Qg=="))].

Definition msg_updates : list (str * pyval) :=
  [(lit "AirbusFBW/MCDU1cont1w", PStr (lit "A"));
   (lit "AirbusFBW/MCDU1cont2w", PStr (lit "B"))].

(** ** Cells and their place in the grid *)


(** The row of the script's loop that fills grid row [row]: row 0 fills
    grid row 0, row 1 is skipped, rows 2 to 14 fill grid rows 1 to 13. *)
Definition source_row (row : nat) : nat := if decide (row = 0) then 0 else S row.

(** The dataref line shown on grid row [row]. *)
Definition line_of_row (row : nat) : nat := (row + 1) `div` 2.

Section LineVocabulary.
Variable process_cdu_line : snapshot -> nat -> result (list cell).
Variable line_char : str -> char -> result cell.

(** The entry at [index] is entry [col] of the line rendered for a grid
    row [row], with [index = row * 24 + col]. *)
Definition from_line (grouped : dict Z snapshot) (index : nat) (entry : cell)
  : Prop :=
  exists row col line_chars,
    row < CDU_ROWS ∧ col < CDU_COLUMNS ∧ index = row * CDU_COLUMNS + col
    ∧ process_cdu_line
        (dict_get_default grouped (Z.of_nat (line_of_row row)) [])
        (source_row row) = Ok line_chars
    ∧ line_chars !! col = Some entry.

Definition rendered (grouped : dict Z snapshot) (display_data : list cell)
  : Prop :=
  length display_data = CDU_ROWS * CDU_COLUMNS
  ∧ forall index entry,
      display_data !! index = Some entry -> entry ≠ EmptyCell ->
      from_line grouped index entry.

(** The entry was stored for the character at index [col] of the text of
    a dataref of the line. *)
Definition written_from (line_datarefs : snapshot) (col : nat) (entry : cell)
  : Prop :=
  exists dataref text c,
    (dataref, PStr text) ∈ line_datarefs
    ∧ text !! col = Some c ∧ c ≠ chr " " ∧ line_char dataref c = Ok entry.

End LineVocabulary.

(** Every entry of every line of [grouped] is an item of [values] whose
    line number is the key of the line. *)
Definition grouped_from (line_number : str -> result Z) (values : snapshot)
    (grouped : dict Z snapshot) : Prop :=
  forall n dataref value,
    (dataref, value) ∈ dict_get_default grouped n [] ->
    (dataref, value) ∈ values ∧ line_number dataref = Ok n.

(** The entry at [index] of the grid was stored for the character at
    index [col] of the text of a dataref of [values] whose line is shown
    on grid row [row], and [index = row * 24 + col]. *)
Definition placed (line_number : str -> result Z)
    (line_char : str -> char -> result cell) (values : snapshot)
    (index : nat) (entry : cell) : Prop :=
  exists row col dataref text c,
    row < CDU_ROWS ∧ col < CDU_COLUMNS ∧ index = row * CDU_COLUMNS + col
    ∧ (dataref, PStr text) ∈ values
    ∧ line_number dataref = Ok (Z.of_nat (line_of_row row))
    ∧ text !! col = Some c ∧ c ≠ chr " " ∧ line_char dataref c = Ok entry.

(** The entry at [index] of the FlightFactor grid was stored for the
    symbol at that index, and [index = row * 24 + col]. *)
Definition flightfactor_placed (values : snapshot) (index : nat)
    (entry : cell) : Prop :=
  exists row col symbols symbol_sizes c s,
    row < CDU_ROWS ∧ col < CDU_COLUMNS ∧ index = row * CDU_COLUMNS + col
    ∧ dict_get values FlightFactor.SYMBOLS = Some (PStr symbols)
    ∧ dict_get values FlightFactor.SYMBOLS_SIZE = Some (PStr symbol_sizes)
    ∧ symbols !! index = Some c ∧ symbol_sizes !! index = Some s
    ∧ c ≠ chr " "
    ∧ entry = Cell (FlightFactor.get_char c) (lit "g") (PStr [s]).

(** ** Executions of the display loop *)

(** What has been put and not yet taken is the queue, in order. *)
Definition fifo {item wire : Type} (st : Relay.state item wire) : Prop :=
  Relay.enqueued st = Relay.dequeued st ++ Relay.queue st.

(** The sends that follow, when none of them is closed: one [Get] and one
    [SendOk] per item. *)
Definition deliver_all {item : Type} (items : list item)
  : list (Relay.event item) :=
  items ≫= fun _ => [Relay.Get; Relay.SendOk].

(** ** Messages of the feed *)

Section FeedVocabulary.
Variable dataref_map : dict Z str.
Variable decode_value : str -> pyval -> result pyval.

(** The updates a payload carries: for every key that is a known id, in
    the order of the payload, the dataref's name and its decoded value. *)
Fixpoint decoded_updates (payload : dict str pyval)
  : result (list (str * pyval)) :=
  match payload with
  | [] => Ok []
  | item :: rest =>
      dataref_id ← int item.1;
      match dict_get dataref_map dataref_id with
      | None => decoded_updates rest
      | Some dataref_name =>
          value ← decode_value dataref_name item.2;
          updates ← decoded_updates rest;
          Ok ((dataref_name, value) :: updates)
      end
  end.

End FeedVocabulary.

(** The candidate: the updates laid over a snapshot, in order. *)
Definition overlay (updates : list (str * pyval)) (values : snapshot)
  : snapshot :=
  fold_left (fun d u => dict_set d u.1 u.2) updates values.

(** Whether, laying the updates one by one over [candidate], some
    intermediate snapshot differs from [previous]. *)
Fixpoint first_change (previous candidate : snapshot)
    (updates : list (str * pyval)) : bool :=
  match updates with
  | [] => false
  | u :: rest =>
      let candidate' := dict_set candidate u.1 u.2 in
      negb (dict_eqb candidate' previous)
      || first_change previous candidate' rest
  end.

(** The value the updates assign last to [dataref_name], if any. *)
Fixpoint last_update (updates : list (str * pyval)) (dataref_name : str)
  : option pyval :=
  match updates with
  | [] => None
  | u :: rest =>
      match last_update rest dataref_name with
      | Some v => Some v
      | None => if decide (u.1 = dataref_name) then Some u.2 else None
      end
  end.

(** The store is well formed: the variable holds a live reference and
    every dict object has distinct keys. *)
Definition feed_wf (st : Feed.state) : Prop :=
  Feed.last_known_values st < length (Feed.heap st)
  ∧ Forall dict_wf (Feed.heap st).

(** The store after [new_values[dataref_name] = value]. *)
Definition stored (r : nat) (dataref_name : str) (value : pyval)
    (st : Feed.state) : Feed.state :=
  {| Feed.heap := alter (fun d => dict_set d dataref_name value) r (Feed.heap st);
     Feed.last_known_values := Feed.last_known_values st;
     Feed.queue := Feed.queue st;
     Feed.comparisons := Feed.comparisons st |}.

(** The store after one message, as both loops leave it: a new object
    holding the candidate, adopted and enqueued when [changed]. *)
Definition after_message (st : Feed.state) (updates : list (str * pyval))
    (changed : bool) (compared : nat) : Feed.state :=
  let r := length (Feed.heap st) in
  {| Feed.heap :=
       Feed.heap st
       ++ [overlay updates (Feed.deref st (Feed.last_known_values st))];
     Feed.last_known_values := if changed then r else Feed.last_known_values st;
     Feed.queue := if changed then Feed.queue st ++ [r] else Feed.queue st;
     Feed.comparisons := Feed.comparisons st + compared |}.

(** What one message does in a script that compares once, after the loop:
    the handler returns; it has compared once; the new object [r] holds
    the candidate and older objects are untouched; [r] is adopted and put
    on the queue exactly when the candidate differs from the previous
    snapshot; and the same message once more puts nothing. *)
Definition compares_once (dataref_map : dict Z str)
    (decode_value : str -> pyval -> result pyval)
    (handle : dict str pyval -> Feed.task ()) : Prop :=
  forall payload updates st,
    feed_wf st ->
    decoded_updates dataref_map decode_value payload = Ok updates ->
    let previous := Feed.deref st (Feed.last_known_values st) in
    let candidate := overlay updates previous in
    let r := length (Feed.heap st) in
    exists st',
      handle payload st = (Ok (), st')
      ∧ feed_wf st'
      ∧ Feed.comparisons st' = S (Feed.comparisons st)
      ∧ Feed.deref st' r = candidate
      ∧ (forall r', r' < r -> Feed.deref st' r' = Feed.deref st r')
      ∧ (if dict_eqb candidate previous
         then Feed.queue st' = Feed.queue st
              ∧ Feed.last_known_values st' = Feed.last_known_values st
         else Feed.queue st' = Feed.queue st ++ [r]
              ∧ Feed.last_known_values st' = r)
      ∧ exists st'',
          handle payload st' = (Ok (), st'')
          ∧ Feed.queue st'' = Feed.queue st'.

(** What one message does in a script that compares after each key: the
    handler returns; it has compared once per update; the new object [r]
    ends up holding the whole candidate and older objects are untouched;
    [r] is adopted and put on the queue, once, exactly when some update
    made the candidate so far differ from the previous snapshot; and the
    same message once more puts nothing, provided its updates are for
    distinct datarefs. *)
Definition compares_per_key (dataref_map : dict Z str)
    (decode_value : str -> pyval -> result pyval)
    (handle : dict str pyval -> Feed.task ()) : Prop :=
  forall payload updates st,
    feed_wf st ->
    decoded_updates dataref_map decode_value payload = Ok updates ->
    let previous := Feed.deref st (Feed.last_known_values st) in
    let candidate := overlay updates previous in
    let r := length (Feed.heap st) in
    exists st',
      handle payload st = (Ok (), st')
      ∧ feed_wf st'
      ∧ Feed.comparisons st' = Feed.comparisons st + length updates
      ∧ Feed.deref st' r = candidate
      ∧ (forall r', r' < r -> Feed.deref st' r' = Feed.deref st r')
      ∧ (if first_change previous previous updates
         then Feed.queue st' = Feed.queue st ++ [r]
              ∧ Feed.last_known_values st' = r
         else Feed.queue st' = Feed.queue st
              ∧ Feed.last_known_values st' = Feed.last_known_values st)
      ∧ (NoDup updates.*1 ->
         exists st'',
           handle payload st' = (Ok (), st'')
           ∧ Feed.queue st'' = Feed.queue st').

(** ** Vocabulary of the further properties *)

(** What line [m] of the grouping holds for a name: the item's value when
    the name is in the snapshot and [m] is its line number, and otherwise
    what the line held [before]. *)
Definition line_entry (line_number : str -> result Z) (values : snapshot)
    (m : Z) (dataref : str) (before : option pyval) : option pyval :=
  match dict_get values dataref, line_number dataref with
  | Some value, Ok n => if decide (n = m) then Some value else before
  | _, _ => before
  end.

(** The entry the FlightFactor loop leaves for one symbol. *)
Definition flightfactor_cell (ln : FlightFactor.CduLine) : cell :=
  if decide (FlightFactor.char_ ln = chr " ") then EmptyCell
  else Cell (FlightFactor.get_char (FlightFactor.char_ ln)) (lit "g")
         (PStr [FlightFactor.size ln]).

(** Every value of the snapshot is a text. *)
Definition text_only (values : snapshot) : Prop :=
  forall dataref text, (dataref, text) ∈ values -> exists s, text = PStr s.

(** What the ghost logs of the display loop record: the frames sent are
    the decodings of the delivered snapshots, in order; the snapshot of a
    pending send has been decoded to the frame being sent; and the
    snapshots delivered, the pending one included, were taken from the
    queue in that order. *)
Definition relay_inv {item wire : Type} (generate : item -> result wire)
    (st : Relay.state item wire) : Prop :=
  Forall2 (fun values display_json => generate values = Ok display_json)
    (Relay.delivered st) (Relay.sent st)
  ∧ match Relay.sender st with
    | Relay.Sending values display_json =>
        generate values = Ok display_json
        ∧ (Relay.delivered st ++ [values]) `sublist_of` Relay.dequeued st
    | _ => Relay.delivered st `sublist_of` Relay.dequeued st
    end.

(** Worked inputs of the further properties. *)

Definition label_line : snapshot :=
  [(lit "AirbusFBW/MCDU1label1w", PStr (lit "AB"))].

Definition flightfactor_short : snapshot :=
  [(FlightFactor.SYMBOLS, PStr (lit "A"));
   (FlightFactor.SYMBOLS_SIZE, PStr (lit "1"));
   (FlightFactor.SYMBOLS_COLOR, PStr (lit "g"))].

Definition flightfactor_catalog : dict Z str := [(1%Z, FlightFactor.SYMBOLS)].

(** A message whose second key is not a number. *)
Definition msg_bad_key : dict str pyval :=
  [(lit "1", PStr (lit "QQ=="))] ++ [(lit "x", PStr (lit "Qg=="))].

Definition origin_a : XCrafts.packed :=
  {| XCrafts.row := 0; XCrafts.col := 0; XCrafts.size := 1;
     XCrafts.color := 0; XCrafts.text := lit "A" |}.

(** * Properties *)

(** ** End-to-end scenarios *)

(** The claim of C1 as the spec words it: the prefix of ["011310RTE"] read
    as row 0, column 0, size 1, color 3, with R, T, E in cells 0, 1, 2. *)
Lemma xcrafts_rte_not_at_origin :
  ¬ ∃ p grid,
      XCrafts.parse_value (lit "011310RTE") = Ok p
      ∧ XCrafts.row p = 0%Z ∧ XCrafts.col p = 0%Z
      ∧ XCrafts.size p = 1%Z ∧ XCrafts.color p = 3%Z
      ∧ XCrafts.translate_values rte = Ok grid
      ∧ grid !! 0 = Some (Cell (chr "R") (XCrafts.get_color 3) (PInt 1))
      ∧ grid !! 1 = Some (Cell (chr "T") (XCrafts.get_color 3) (PInt 1))
      ∧ grid !! 2 = Some (Cell (chr "E") (XCrafts.get_color 3) (PInt 1)).
Proof.
  intros (p & grid & Hp & _ & Hcol & _).
  vm_compute in Hp. injection Hp as <-. discriminate Hcol.
Qed.

(** C1 (amended): ["011310RTE"] is read field by field as the docstring
    lays the prefix out: row digits "01", column digits "13", size digit
    "1", color digit "0", the row and the column being 1-based, so row 0,
    column 12, size 1, color 0 and text "RTE"; the color for digit 0 is
    "w". *)
Theorem xcrafts_rte_fields :
  XCrafts.parse_value (lit "011310RTE")
  = Ok {| XCrafts.row := 0; XCrafts.col := 12; XCrafts.size := 1;
          XCrafts.color := 0; XCrafts.text := lit "RTE" |}
  ∧ XCrafts.get_color 0 = lit "w".
Proof. split; vm_compute; reflexivity. Qed.

(** The claim of C3 as the spec words it: the nine characters in the
    leading cells of row 0, every one white. *)
Lemma toliss_fuel_pred_not_white :
  ¬ ∃ grid,
      ToLiss.display_data fuel_pred = Ok grid
      ∧ Forall2 (fun c entry => entry = Cell c (lit "w") (PInt 0))
          (lit "FUEL PRED") (take 9 grid)
      ∧ Forall (fun entry => entry = EmptyCell) (take 14 (drop 10 grid)).
Proof.
  intros (grid & Hg & Hcells & _).
  vm_compute in Hg. injection Hg as <-.
  vm_compute in Hcells. inversion Hcells as [|? ? ? ? Hfirst]. discriminate Hfirst.
Qed.

(** C3 (amended): for the snapshot
    [{"AirbusFBW/MCDU1title1": "FUEL PRED "}] the grid holds F, U, E, L in
    cells 0-3 and P, R, E, D in cells 5-8, each with size 0 and with the
    color code "1", the last character of the dataref name, which
    [COLOR_MAP] leaves as it is; the two spaces write nothing, so cells 4
    and 9 are empty, as is every cell from 10 on.  The same text under
    the name "AirbusFBW/MCDU1titlew" gives the color "w". *)
Theorem toliss_fuel_pred_cells :
  ToLiss.display_data fuel_pred
  = Ok (((fun c => Cell c (lit "1") (PInt 0)) <$> lit "FUEL")
        ++ [EmptyCell]
        ++ ((fun c => Cell c (lit "1") (PInt 0)) <$> lit "PRED")
        ++ replicate 327 EmptyCell)
  ∧ ToLiss.display_data
      [(lit "AirbusFBW/MCDU1titlew", PStr (lit "FUEL PRED "))]
    = Ok (((fun c => Cell c (lit "w") (PInt 0)) <$> lit "FUEL")
          ++ [EmptyCell]
          ++ ((fun c => Cell c (lit "w") (PInt 0)) <$> lit "PRED")
          ++ replicate 327 EmptyCell).
Proof. split; vm_compute; reflexivity. Qed.

(** ** Loops in the [result] monad *)

Lemma bind_Ok {A B : Type} (m : result A) (f : A -> result B) (b : B) :
  m ≫= f = Ok b -> exists a, m = Ok a ∧ f a = Ok b.
Proof. destruct m as [a|e]; [|done]. intros H. by exists a. Qed.

Lemma bind_Ok_l {A B : Type} (a : A) (f : A -> result B) : Ok a ≫= f = f a.
Proof. reflexivity. Qed.

Lemma foldM_invariant {A B : Type} (P : B -> Prop) (f : B -> A -> result B)
    (l : list A) (b b' : B) :
  P b ->
  (forall acc x acc', x ∈ l -> P acc -> f acc x = Ok acc' -> P acc') ->
  foldM f l b = Ok b' ->
  P b'.
Proof.
  revert b. induction l as [|x l IH]; simpl; intros b Hb Hstep Hrun.
  - by injection Hrun as <-.
  - destruct (f b x) as [b1|e] eqn:Hf; simpl in Hrun; [|done].
    apply (IH b1); [| |done].
    + eapply Hstep; [|done|done]. by left.
    + intros acc y acc' Hy. apply Hstep. by right.
Qed.

Lemma setitem_length {A : Type} (l l' : list A) (i : Z) (x : A) :
  setitem l i x = Ok l' -> length l' = length l.
Proof.
  unfold setitem. repeat case_decide; intros [= <-]; by rewrite length_insert.
Qed.


(** ** The frame that is never made (C2, C7) *)

(** C2: [generate_display_json] of xcrafts_ejets.py ends in a bare
    [return], so its result is None for every device and snapshot, and the
    display loop, whose [websocket.send] is commented out, hands nothing to
    the socket; on the snapshot [rte] the result is None while the ToLiss
    function returns a message with 336 entries for its snapshot. *)
Theorem xcrafts_generate_display_json_none :
  XCrafts.generate_display_json XCrafts.Captain rte = Ok None
  ∧ (forall device values m,
       XCrafts.generate_display_json device values ≠ Ok (Some m))
  ∧ (exists m, ToLiss.generate_display_json fuel_pred = Ok m
               ∧ Target m = lit "Display" ∧ length (Data m) = 336).
Proof.
  split; [by vm_compute|]. split.
  - intros device values m. unfold XCrafts.generate_display_json.
    by destruct (XCrafts.translate_values values).
  - eexists. split; [vm_compute; reflexivity|]. by vm_compute.
Qed.

(** C7: in xcrafts_ejets.py a snapshot taken from the queue is neither
    sent nor put back: after the feed has put [rte] and the display loop
    has taken it and woken from its rate-limit sleep, the queue is empty
    and nothing has reached the socket. *)
Theorem xcrafts_dequeued_snapshot_dropped :
  Relay.run (XCrafts.handle_device_update XCrafts.Captain)
    [Relay.Put rte; Relay.Get; Relay.Wake] Relay.initial
  = Some {| Relay.queue := []; Relay.sender := Relay.Waiting;
            Relay.sent := []; Relay.delivered := [];
            Relay.enqueued := [rte]; Relay.dequeued := [rte] |}.
Proof. by vm_compute. Qed.

(** ** Decoders that raise (C5) *)

(** C5: the Zibo grouping has no exception handler, so a catalog name
    whose characters 4-5 after the last "/" are not a number ends
    [get_display_json] with ValueError; the FlightFactor decoder raises
    KeyError on a snapshot that lacks one of its three datarefs, and the
    X-Crafts decoder raises ValueError on a value without a numeric
    prefix.  The ToLiss grouping, which wraps the same computation in
    [try/except], returns for every snapshot. *)
Theorem zibo_unnumbered_dataref_raises :
  Zibo.get_display_json
    [(lit "laminar/B738/fmc1/exec_light", PStr (lit "A"))] = Raise ValueError
  ∧ FlightFactor.generate_display_json
      [(FlightFactor.SYMBOLS, PStr (lit "A"))] = Raise KeyError
  ∧ XCrafts.translate_values
      [(lit "XCrafts/FMS/CDU_1_03", PStr (lit "RTE"))] = Raise ValueError
  ∧ (forall values, exists grouped,
       ToLiss.group_datarefs_by_line values = Ok grouped).
Proof.
  split; [by vm_compute|]. split; [by vm_compute|]. split; [by vm_compute|].
  intros values. by eexists.
Qed.

(** ** Blank values (C8) *)

(** C8: in xcrafts_ejets.py a blank value leaves the loop with [break]:
    the dataref after it is not decoded, and the grid stays empty although
    the same dataref alone populates three cells. *)
Theorem xcrafts_blank_value_ends_decoding :
  XCrafts.translate_values blank_then_rte = Ok empty_display
  ∧ XCrafts.translate_values rte ≠ Ok empty_display.
Proof. split; by vm_compute. Qed.

(** ** Colors (C9) *)









(** ** Facts about dicts and slices *)

Section DictFacts.
Context {K V : Type} `{EqDecision K}.
Implicit Types (d : dict K V) (k : K) (v : V).

Lemma dict_get_set d k v k' :
  dict_get (dict_set d k v) k' = if decide (k = k') then Some v else dict_get d k'.
Proof.
  induction d as [|[k0 v0] d IH]; simpl.
  - by repeat case_decide.
  - repeat (case_decide; simpl; subst); try done.
Qed.

Lemma dict_set_elem_of d k v (x : K * V) :
  x ∈ dict_set d k v -> x = (k, v) ∨ x ∈ d.
Proof.
  induction d as [|[k0 v0] d IH]; simpl.
  - intros ->%list_elem_of_singleton. by left.
  - case_decide.
    + intros [->|Hx]%elem_of_cons; [by left|right; by right].
    + intros [->|Hx]%elem_of_cons; [right; by left|].
      destruct (IH Hx) as [->|Hd]; [by left|right; by right].
Qed.

Lemma dict_set_length_present d k v :
  is_Some (dict_get d k) -> length (dict_set d k v) = length d.
Proof.
  induction d as [|[k0 v0] d IH]; simpl.
  - by intros [? ?].
  - case_decide; simpl; [done|]. intros Hk. by rewrite IH.
Qed.

Lemma dict_set_same d k v :
  dict_get d k = Some v -> dict_set d k v = d.
Proof.
  induction d as [|[k0 v0] d IH]; simpl; [done|].
  case_decide; subst.
  - by intros [= ->].
  - intros Hk. by rewrite IH.
Qed.

Lemma dict_set_wf d k v : dict_wf d -> dict_wf (dict_set d k v).
Proof.
  unfold dict_wf. induction d as [|[k0 v0] d IH]; simpl.
  - intros _. apply NoDup_singleton.
  - intros [Hk0 Hd]%NoDup_cons. case_decide; subst; simpl.
    + by apply NoDup_cons.
    + apply NoDup_cons. split; [|by apply IH].
      intros [[k1 v1] [-> Hin]]%list_elem_of_fmap.
      apply dict_set_elem_of in Hin as [[= -> _]|Hin]; [done|].
      apply Hk0. apply list_elem_of_fmap. by exists (k1, v1).
Qed.

Lemma dict_get_elem_of d k v : dict_wf d -> (k, v) ∈ d -> dict_get d k = Some v.
Proof.
  unfold dict_wf. induction d as [|[k0 v0] d IH]; simpl.
  - by intros _ ?%elem_of_nil.
  - intros [Hk0 Hd]%NoDup_cons [[= -> ->]|Hin]%elem_of_cons.
    + by rewrite decide_True.
    + rewrite decide_False; [by apply IH|].
      intros ->. apply Hk0. apply list_elem_of_fmap. by exists (k, v).
Qed.

Lemma dict_eqb_refl `{EqDecision V} d : dict_wf d -> dict_eqb d d = true.
Proof.
  intros Hwf. unfold dict_eqb. rewrite bool_decide_eq_true_2 by done. simpl.
  apply forallb_forall. intros [k v] Hin%list_elem_of_In.
  apply bool_decide_eq_true. by apply dict_get_elem_of.
Qed.

Lemma dict_eqb_ext `{EqDecision V} d1 d2 :
  dict_wf d1 -> length d1 = length d2 ->
  (forall k, dict_get d1 k = dict_get d2 k) ->
  dict_eqb d1 d2 = true.
Proof.
  intros Hwf Hlen Hext. unfold dict_eqb. rewrite bool_decide_eq_true_2 by done.
  simpl. apply forallb_forall. intros [k v] Hin%list_elem_of_In.
  apply bool_decide_eq_true. simpl. rewrite <- Hext. by apply dict_get_elem_of.
Qed.
End DictFacts.

Lemma setslice_length {A : Type} (l xs : list A) (a : nat) :
  a + length xs <= length l ->
  length (setslice l a (a + length xs) xs) = length l.
Proof.
  intros Hle. unfold setslice.
  rewrite !length_app, length_take, length_drop. lia.
Qed.

Lemma setslice_lookup {A : Type} (l xs : list A) (a i : nat) :
  a + length xs <= length l ->
  setslice l a (a + length xs) xs !! i
  = if decide (a <= i < a + length xs) then xs !! (i - a) else l !! i.
Proof.
  intros Hle. unfold setslice.
  assert (length (take a l) = a) as Htake by (rewrite length_take; lia).
  case_decide as Hi.
  - rewrite lookup_app_r by lia. rewrite Htake.
    rewrite lookup_app_l by lia. done.
  - destruct (decide (i < a)).
    + rewrite lookup_app_l by lia. by rewrite lookup_take_lt.
    + rewrite lookup_app_r by lia. rewrite Htake.
      rewrite lookup_app_r by lia. rewrite lookup_drop.
      f_equal. lia.
Qed.

(** ** The shape of the grid *)

Section PairedRowsFacts.
Variable group_datarefs_by_line : snapshot -> result (dict Z snapshot).
Variable process_cdu_line : snapshot -> nat -> result (list cell).
Hypothesis process_cdu_line_length : forall line_datarefs row line_chars,
  process_cdu_line line_datarefs row = Ok line_chars ->
  length line_chars = CDU_COLUMNS.

Lemma empty_display_rendered grouped :
  rendered process_cdu_line grouped empty_display.
Proof.
  split; [apply length_replicate|].
  intros index entry [-> _]%lookup_replicate. done.
Qed.

Lemma render_row_rendered grouped display_data row display_data' :
  row <= CDU_ROWS ->
  rendered process_cdu_line grouped display_data ->
  render_row process_cdu_line grouped display_data row = Ok display_data' ->
  rendered process_cdu_line grouped display_data'.
Proof.
  intros Hrow [Hlen Hcells]. unfold render_row.
  case_decide as Hrow1; [by intros [= <-]|].
  set (gr := if decide (0 < row) then row - 1 else row).
  assert (gr < CDU_ROWS ∧ source_row gr = row
          ∧ line_of_row gr = if decide (0 < row) then row `div` 2 else 0)
    as (Hgr & Hsrc & Hline_of).
  { unfold gr, source_row, line_of_row, CDU_ROWS in *.
    destruct (decide (0 < row)).
    - split; [lia|]. split; [destruct (decide (row - 1 = 0)); lia|].
      f_equal. lia.
    - assert (row = 0) as -> by lia. split; [lia|]. split; reflexivity. }
  rewrite <- Hline_of. fold gr.
  destruct (decide (dict_get_default grouped (Z.of_nat (line_of_row gr)) [] = []))
    as [Hline|Hline]; [by intros [= <-]|].
  intros (line_chars & Hprocess & [= <-])%bind_Ok.
  pose proof (process_cdu_line_length _ _ _ Hprocess) as Hlc.
  assert (gr * CDU_COLUMNS + length line_chars <= length display_data) as Hfit.
  { rewrite Hlc, Hlen. unfold CDU_ROWS, CDU_COLUMNS in *. lia. }
  replace (gr * CDU_COLUMNS + CDU_COLUMNS)
    with (gr * CDU_COLUMNS + length line_chars) by (by rewrite Hlc).
  split; [by rewrite setslice_length|].
  intros index entry. rewrite setslice_lookup by done.
  destruct (decide (gr * CDU_COLUMNS <= index < gr * CDU_COLUMNS + length line_chars))
    as [Hin|Hout]; [|apply Hcells].
  intros Hentry _.
  exists gr, (index - gr * CDU_COLUMNS), line_chars.
  rewrite Hsrc. rewrite Hlc in Hin.
  repeat split; try done; unfold CDU_COLUMNS in *; lia.
Qed.

Lemma render_display_rendered values display_data :
  render_display group_datarefs_by_line process_cdu_line values = Ok display_data ->
  exists grouped,
    group_datarefs_by_line values = Ok grouped ∧ rendered process_cdu_line grouped display_data.
Proof.
  unfold render_display. intros (grouped & Hgroup & Hrun)%bind_Ok.
  exists grouped. split; [done|]. revert Hrun.
  apply foldM_invariant; [apply empty_display_rendered|].
  intros acc row acc' Hrow%elem_of_seq Hacc.
  apply render_row_rendered; [unfold CDU_ROWS in *; lia|done].
Qed.
End PairedRowsFacts.

Lemma setitem_nat {A : Type} (l l' : list A) (i : nat) (x : A) :
  setitem l (Z.of_nat i) x = Ok l' -> i < length l ∧ l' = <[i := x]> l.
Proof.
  unfold setitem. case_decide as Hin.
  - intros [= <-]. rewrite Nat2Z.id. split; [lia|done].
  - case_decide; [lia|done].
Qed.

Section CduLineFacts.
Variable has_target_suffix : nat -> str -> bool.
Variable line_char : str -> char -> result cell.

Lemma write_chars_spec dataref i text line_chars line_chars' :
  write_chars line_char dataref i text line_chars = Ok line_chars' ->
  length line_chars' = length line_chars
  ∧ forall col entry,
      line_chars' !! col = Some entry ->
      line_chars !! col = Some entry
      ∨ exists c, i <= col ∧ text !! (col - i) = Some c ∧ c ≠ chr " "
                  ∧ line_char dataref c = Ok entry.
Proof.
  revert i line_chars. induction text as [|c text IH]; simpl; intros i lc.
  - intros [= <-]. split; [done|]. intros col entry ?. by left.
  - case_decide as Hspace.
    + intros [Hlen Hcells]%IH. split; [done|].
      intros col entry [?|(c' & Hle & Hc' & ? & ?)]%Hcells; [by left|right].
      exists c'. replace (col - i) with (S (col - S i)) by lia.
      repeat split; try done. lia.
    + intros (entry0 & Hentry0 & (lc1 & Hset & Hrun)%bind_Ok)%bind_Ok.
      apply setitem_nat in Hset as [Hi ->].
      apply IH in Hrun as [Hlen Hcells]. rewrite length_insert in Hlen.
      split; [done|].
      intros col entry [Hold|(c' & Hle & Hc' & ? & ?)]%Hcells.
      * destruct (decide (col = i)) as [->|Hne].
        -- rewrite list_lookup_insert_eq in Hold by done.
           injection Hold as <-. right. exists c.
           rewrite Nat.sub_diag. done.
        -- left. by rewrite list_lookup_insert_ne in Hold.
      * right. exists c'. replace (col - i) with (S (col - S i)) by lia.
        repeat split; try done. lia.
Qed.

Lemma render_line_spec line_datarefs row line_chars :
  render_line has_target_suffix line_char line_datarefs row = Ok line_chars ->
  length line_chars = CDU_COLUMNS
  ∧ forall col entry,
      line_chars !! col = Some entry -> entry ≠ EmptyCell ->
      written_from line_char line_datarefs col entry.
Proof.
  unfold render_line.
  apply (foldM_invariant (fun lc =>
    length lc = CDU_COLUMNS
    ∧ forall col entry, lc !! col = Some entry -> entry ≠ EmptyCell ->
                        written_from line_char line_datarefs col entry)).
  - split; [apply length_replicate|].
    intros col entry [-> _]%lookup_replicate. done.
  - intros lc [dataref text] lc' Hin [Hlen Hcells]. unfold render_dataref. simpl.
    intros (blank & Hblank & Hrun)%bind_Ok.
    destruct blank; [by injection Hrun as <-|].
    destruct (_ && _); [by injection Hrun as <-|].
    apply bind_Ok in Hrun as (s & Hs & Hrun).
    destruct text as [t| |]; try done. injection Hs as <-.
    apply write_chars_spec in Hrun as [Hlen' Hcells'].
    split; [by rewrite Hlen'|].
    intros col entry [Hold|(c & _ & Hc & Hsp & Hentry)]%Hcells' Hne.
    + by apply Hcells.
    + exists dataref, t, c. repeat split; try done.
      rewrite Nat.sub_0_r in Hc. unfold slice in Hc. simpl in Hc.
      by apply lookup_take_Some in Hc as [Hc _].
Qed.
Lemma foldM_app {A B : Type} (f : B -> A -> result B) (l1 l2 : list A) (b : B) :
  foldM f (l1 ++ l2) b = foldM f l1 b ≫= foldM f l2.
Proof.
  revert b. induction l1 as [|x l1 IH]; intros b; simpl; [done|].
  destruct (f b x); simpl; [apply IH|done].
Qed.

(** A dataref whose text is blank is skipped, and only it: the line is
    rendered as if the dataref were not there. *)
Lemma render_line_skips_blank before dataref text after row :
  blank_text text = Ok true ->
  render_line has_target_suffix line_char
    (before ++ (dataref, text) :: after) row
  = render_line has_target_suffix line_char (before ++ after) row.
Proof.
  intros Hblank. unfold render_line. rewrite !foldM_app.
  destruct (foldM _ before _) as [line_chars|e]; simpl; [|done].
  unfold render_dataref. simpl. by rewrite Hblank.
Qed.

(** A line is rendered without an exception when its texts are strings
    and [line_char] returns for its datarefs. *)
Lemma write_chars_total dataref i text line_chars :
  (forall c, exists entry, line_char dataref c = Ok entry) ->
  i + length text <= length line_chars ->
  exists line_chars', write_chars line_char dataref i text line_chars = Ok line_chars'.
Proof.
  intros Hchar. revert i line_chars.
  induction text as [|c text IH]; simpl; intros i lc Hfit; [by eexists|].
  case_decide; [apply IH; lia|].
  destruct (Hchar c) as [entry ->]. simpl.
  unfold setitem. rewrite decide_True by lia. simpl.
  apply IH. rewrite length_insert. lia.
Qed.

Lemma render_line_total line_datarefs row :
  (forall dataref text,
     (dataref, text) ∈ line_datarefs ->
     (exists s, text = PStr s)
     ∧ forall c, exists entry, line_char dataref c = Ok entry) ->
  exists line_chars,
    render_line has_target_suffix line_char line_datarefs row = Ok line_chars.
Proof.
  unfold render_line. intros Hline.
  assert (length (replicate CDU_COLUMNS EmptyCell) = CDU_COLUMNS) as Hlen
    by apply length_replicate.
  revert Hlen. generalize (replicate CDU_COLUMNS EmptyCell).
  induction line_datarefs as [|[dataref text] rest IH]; intros lc Hlen; simpl;
    [by eexists|].
  destruct (Hline dataref text) as [[s ->] Hchar]; [by left|].
  assert (forall lc', length lc' = CDU_COLUMNS ->
            exists line_chars,
              foldM (render_dataref has_target_suffix line_char row) rest lc'
              = Ok line_chars) as Hrest.
  { intros lc' Hlc'. apply IH; [|done]. intros d t Hin. apply Hline. by right. }
  set (continue := foldM (render_dataref has_target_suffix line_char row) rest)
    in *.
  unfold render_dataref, blank_text. simpl.
  destruct (bool_decide (s = [])); simpl; [by apply Hrest|].
  destruct (isspace s); simpl; [by apply Hrest|].
  destruct (_ && _); simpl; [by apply Hrest|].
  destruct (write_chars_total dataref 0 (slice 0 CDU_COLUMNS s) lc Hchar)
    as [lc' Hlc'].
  { unfold slice. rewrite length_take, Hlen. unfold CDU_COLUMNS. lia. }
  rewrite Hlc'. simpl. apply Hrest.
  apply write_chars_spec in Hlc' as [-> _]. done.
Qed.
End CduLineFacts.

Lemma add_to_line_grouped_from line_number values grouped n dataref value :
  grouped_from line_number values grouped ->
  (dataref, value) ∈ values ->
  line_number dataref = Ok n ->
  grouped_from line_number values (add_to_line grouped n dataref value).
Proof.
  intros Hg Hin Hn m d v. unfold add_to_line, dict_get_default at 1.
  rewrite dict_get_set. case_decide as Hm; [subst m|apply Hg].
  intros [[= -> ->]|Hold]%dict_set_elem_of; [done|by apply Hg].
Qed.

Lemma fold_left_invariant {A B : Type} (P : B -> Prop) (f : B -> A -> B)
    (l : list A) (b : B) :
  P b ->
  (forall acc x, x ∈ l -> P acc -> P (f acc x)) ->
  P (fold_left f l b).
Proof.
  revert b. induction l as [|x l IH]; simpl; intros b Hb Hstep; [done|].
  apply IH.
  - apply Hstep; [by left|done].
  - intros acc y Hy. apply Hstep. by right.
Qed.

Lemma toliss_grouped_from values grouped :
  ToLiss.group_datarefs_by_line values = Ok grouped ->
  grouped_from ToLiss.line_number values grouped.
Proof.
  unfold ToLiss.group_datarefs_by_line. intros [= <-].
  apply (fold_left_invariant (grouped_from ToLiss.line_number values)).
  - intros n d v Hin. by apply elem_of_nil in Hin.
  - intros acc [dataref value] Hin Hacc.
    destruct (ToLiss.line_number dataref) as [n|e] eqn:Hn; [|done].
    by apply add_to_line_grouped_from.
Qed.

Lemma zibo_grouped_from values grouped :
  Zibo.group_datarefs_by_line values = Ok grouped ->
  grouped_from Zibo.line_number values grouped.
Proof.
  unfold Zibo.group_datarefs_by_line.
  apply (foldM_invariant (grouped_from Zibo.line_number values)).
  - intros n d v Hin. by apply elem_of_nil in Hin.
  - intros acc [dataref value] acc' Hin Hacc.
    intros (n & Hn & [= <-])%bind_Ok.
    by apply add_to_line_grouped_from.
Qed.

Section LabelContentFacts.
Variable line_number : str -> result Z.
Variable group_datarefs_by_line : snapshot -> result (dict Z snapshot).
Variable has_target_suffix : nat -> str -> bool.
Variable line_char : str -> char -> result cell.
Hypothesis group_spec : forall values grouped,
  group_datarefs_by_line values = Ok grouped ->
  grouped_from line_number values grouped.

Lemma render_display_placed values grid :
  render_display group_datarefs_by_line
    (render_line has_target_suffix line_char) values = Ok grid ->
  length grid = CDU_ROWS * CDU_COLUMNS
  ∧ forall index entry,
      grid !! index = Some entry -> entry ≠ EmptyCell ->
      placed line_number line_char values index entry.
Proof.
  intros (grouped & Hgroup & Hlen & Hcells)%render_display_rendered; last first.
  { intros ? ? ? Hline. by apply render_line_spec in Hline as [? _]. }
  split; [done|]. intros index entry Hentry Hne.
  destruct (Hcells index entry Hentry Hne)
    as (row & col & line_chars & Hrow & Hcol & Hindex & Hline & Hlookup).
  apply render_line_spec in Hline as [_ Hline].
  destruct (Hline col entry Hlookup Hne)
    as (dataref & text & c & Hin & Hc & Hsp & Hchar).
  apply (group_spec _ _ Hgroup) in Hin as [Hin Hn].
  by exists row, col, dataref, text, c.
Qed.
End LabelContentFacts.

Lemma zip3_lookup a b c i ln :
  FlightFactor.zip3 a b c !! i = Some ln ->
  a !! i = Some (FlightFactor.char_ ln) ∧ b !! i = Some (FlightFactor.size ln).
Proof.
  revert b c i. induction a as [|x a IH]; intros [|y b] [|z c] i; try done.
  destruct i as [|i]; simpl.
  - by intros [= <-].
  - apply IH.
Qed.

Lemma indices_elem_of index :
  index ∈ FlightFactor.indices ->
  exists row col,
    row < CDU_ROWS ∧ col < CDU_COLUMNS ∧ index = row * CDU_COLUMNS + col.
Proof.
  unfold FlightFactor.indices.
  intros (row & (col & ->%list_elem_of_singleton & Hcol%elem_of_seq)%list_elem_of_bind
          & Hrow%elem_of_seq)%list_elem_of_bind.
  exists row, col. repeat split; lia.
Qed.

Lemma flightfactor_display_placed values grid :
  FlightFactor.display_data values = Ok grid ->
  length grid = CDU_ROWS * CDU_COLUMNS
  ∧ forall index entry,
      grid !! index = Some entry -> entry ≠ EmptyCell ->
      flightfactor_placed values index entry.
Proof.
  unfold FlightFactor.display_data. intros (ps & Hps & Hrun)%bind_Ok.
  unfold FlightFactor.process_display_datarefs in Hps.
  apply bind_Ok in Hps as (v1 & Hv1 & (v2 & Hv2 & (v3 & Hv3 & Hps)%bind_Ok)%bind_Ok).
  apply bind_Ok in Hps as (a & Ha & (b & Hb & (c & Hc & [= <-])%bind_Ok)%bind_Ok).
  destruct v1 as [a'| |]; try done. injection Ha as ->.
  destruct v2 as [b'| |]; try done. injection Hb as ->.
  unfold dict_getitem in Hv1, Hv2.
  destruct (dict_get values FlightFactor.SYMBOLS) as [w1|] eqn:Hs1; [|done].
  destruct (dict_get values FlightFactor.SYMBOLS_SIZE) as [w2|] eqn:Hs2; [|done].
  injection Hv1 as ->. injection Hv2 as ->.
  revert Hrun.
  apply (foldM_invariant (fun d =>
    length d = CDU_ROWS * CDU_COLUMNS
    ∧ forall index entry, d !! index = Some entry -> entry ≠ EmptyCell ->
                          flightfactor_placed values index entry)).
  - split; [apply length_replicate|].
    intros index entry [-> _]%lookup_replicate. done.
  - intros d i d' Hi [Hlen Hcells]. unfold FlightFactor.render_cell.
    intros (ln & Hln & Hrun)%bind_Ok.
    case_decide as Hsp; [by injection Hrun as <-|].
    apply setitem_nat in Hrun as [Hlt ->].
    split; [by rewrite length_insert|].
    intros index entry Hentry Hne.
    destruct (decide (index = i)) as [->|Hidx].
    + rewrite list_lookup_insert_eq in Hentry by done. injection Hentry as <-.
      apply indices_elem_of in Hi as (row & col & Hrow & Hcol & Hi).
      unfold getitem in Hln.
      destruct (FlightFactor.zip3 a b c !! i) as [ln'|] eqn:Hzip; [|done].
      injection Hln as ->. apply zip3_lookup in Hzip as [Hza Hzb].
      by exists row, col, a, b, (FlightFactor.char_ ln), (FlightFactor.size ln).
    + rewrite list_lookup_insert_ne in Hentry by done. by apply Hcells.
Qed.

Lemma xcrafts_write_text_length index p i t d d' :
  XCrafts.write_text index p i t d = Ok d' -> length d' = length d.
Proof.
  revert i d. induction t as [|c t IH]; simpl; intros i d.
  - by intros [= <-].
  - case_decide; [by intros [= <-]|].
    case_decide; [apply IH|].
    intros (d1 & Hset%setitem_length & Hrun%IH)%bind_Ok. congruence.
Qed.

Lemma xcrafts_translate_loop_length vs d d' :
  XCrafts.translate_loop vs d = Ok d' -> length d' = length d.
Proof.
  revert d. induction vs as [|v vs IH]; simpl; intros d.
  - by intros [= <-].
  - destruct v as [value| |]; [|done|by intros [= <-]].
    case_decide; [by intros [= <-]|].
    intros (p & _ & Hrun)%bind_Ok. revert Hrun.
    case_decide; [apply IH|].
    intros (d1 & Hw%xcrafts_write_text_length & Hrun%IH)%bind_Ok. congruence.
Qed.

Lemma foldM_total {A B : Type} (f : B -> A -> result B) (l : list A) (b : B) :
  (forall acc x, x ∈ l -> exists acc', f acc x = Ok acc') ->
  exists b', foldM f l b = Ok b'.
Proof.
  revert b. induction l as [|x l IH]; intros b Hstep; simpl; [by eexists|].
  destruct (Hstep b x) as [b1 ->]; [by left|]. simpl.
  apply IH. intros acc y Hy. apply Hstep. by right.
Qed.

Lemma toliss_line_char_total dataref c :
  dataref ≠ [] -> exists entry, ToLiss.line_char dataref c = Ok entry.
Proof.
  intros Hne. unfold ToLiss.line_char, ToLiss.get_char, ToLiss.get_color,
    getitem_last.
  destruct (last dataref) as [suffix|] eqn:Hlast; [|by apply last_None in Hlast].
  simpl. destruct (bool_decide (suffix = chr "s")); simpl;
    destruct (_ || _); simpl; by eexists.
Qed.

(** The ToLiss decoder returns a grid for every snapshot of texts: a name
    without a line number is left out by the grouping, and every name
    with one has a last character. *)
Lemma toliss_decoder_total values :
  (forall dataref text, (dataref, text) ∈ values -> exists s, text = PStr s) ->
  exists grid, ToLiss.display_data values = Ok grid.
Proof.
  intros Hvalues. unfold ToLiss.display_data, render_display.
  destruct (ToLiss.group_datarefs_by_line values) as [grouped|e] eqn:Hgroup;
    [|done].
  apply toliss_grouped_from in Hgroup. rewrite bind_Ok_l.
  apply foldM_total. intros acc row _. unfold render_row.
  case_decide; [by eexists|].
  case_decide; [by eexists|].
  edestruct (render_line_total ToLiss.has_target_suffix ToLiss.line_char)
    as [line_chars Hline]; last first.
  { unfold ToLiss.process_cdu_line. rewrite Hline, bind_Ok_l. by eexists. }
  intros dataref text [Hin Hn]%Hgroup. split; [by eapply Hvalues|].
  intros c. apply toliss_line_char_total. intros ->.
  vm_compute in Hn. discriminate Hn.
Qed.

(** C6: [translate_values] of xcrafts_ejets.py writes character [k] of a
    text at list index [row * 24 + col + k - 1], one below the cell of its
    position.  The value ["010110A"] has row 0 and column 0 once its
    1-based fields are converted, and its character is written at index
    -1, which Python counts from the end of the list: it is stored in
    cell 335, the last column of the last row, and cell 0 stays empty.
    The ToLiss and Zibo decoders store the first character of their row 0
    in cell 0. *)
Theorem xcrafts_origin_stored_in_last_cell :
  XCrafts.parse_value (lit "010110A")
  = Ok {| XCrafts.row := 0; XCrafts.col := 0; XCrafts.size := 1;
          XCrafts.color := 0; XCrafts.text := lit "A" |}
  ∧ XCrafts.translate_values
      [(lit "XCrafts/FMS/CDU_1_01", PStr (lit "010110A"))]
    = Ok (replicate 335 EmptyCell ++ [Cell (chr "A") (lit "w") (PInt 1)])
  ∧ ToLiss.display_data [(lit "AirbusFBW/MCDU1titlew", PStr (lit "A"))]
    = Ok (Cell (chr "A") (lit "w") (PInt 0) :: replicate 335 EmptyCell)
  ∧ Zibo.display_data [(lit "laminar/B738/fmc1/Line00_L", PStr (lit "A"))]
    = Ok (Cell (chr "A") (lit "w") (PInt 0) :: replicate 335 EmptyCell).
Proof.
  split; [by vm_compute|]. split; [by vm_compute|].
  split; by vm_compute.
Qed.

(** ** The relay queue (C10) *)

Section RelayFacts.
Context {item wire : Type}.
Variable generate : item -> result wire.
Local Abbreviation step := (Relay.handle_display_update generate).
Implicit Types (st : Relay.state item wire) (evs : list (Relay.event item)).

Lemma step_fifo ev st st' : step ev st = Some st' -> fifo st -> fifo st'.
Proof.
  unfold fifo, Relay.handle_display_update, Relay.get.
  destruct ev, (Relay.sender st) eqn:Hs; try done;
    try (intros [= <-]; simpl; intros ->; by rewrite ?app_assoc).
  destruct (Relay.queue st) as [|values rest] eqn:Hq; simpl; [done|].
  destruct (generate values); intros [= <-]; simpl; intros ->;
    by rewrite <- app_assoc.
Qed.

Lemma run_fifo evs st st' : Relay.run step evs st = Some st' -> fifo st -> fifo st'.
Proof.
  revert st. induction evs as [|ev evs IH]; simpl; intros st.
  - by intros [= <-].
  - destruct (step ev st) as [st1|] eqn:Hstep; simpl; [|done].
    intros Hrun Hst. apply (IH st1); [done|]. by eapply step_fifo.
Qed.

Lemma run_app evs1 evs2 st :
  Relay.run step (evs1 ++ evs2) st
  = Relay.run step evs1 st ≫= Relay.run step evs2.
Proof.
  revert st. induction evs1 as [|ev evs1 IH]; simpl; intros st; [done|].
  destruct (step ev st); simpl; [apply IH|done].
Qed.

(** Items put while a send is pending go behind the queue. *)
Lemma run_puts (newer : list item) st :
  Relay.run step (Relay.Put <$> newer) st
  = Some {| Relay.queue := Relay.queue st ++ newer;
            Relay.sender := Relay.sender st;
            Relay.sent := Relay.sent st;
            Relay.delivered := Relay.delivered st;
            Relay.enqueued := Relay.enqueued st ++ newer;
            Relay.dequeued := Relay.dequeued st |}.
Proof.
  revert st. induction newer as [|b newer IH]; intros st; simpl.
  - rewrite !app_nil_r. by destruct st.
  - rewrite IH. simpl. by rewrite <- !app_assoc.
Qed.

(** A closed send puts the snapshot back at the tail, behind everything
    that was put while the send was pending. *)
Lemma closed_send_requeues st values rest display_json newer :
  Relay.sender st = Relay.Waiting ->
  Relay.queue st = values :: rest ->
  generate values = Ok display_json ->
  exists st',
    Relay.run step (Relay.Get :: (Relay.Put <$> newer) ++ [Relay.SendClosed]) st
    = Some st'
    ∧ Relay.queue st' = rest ++ newer ++ [values]
    ∧ Relay.sender st' = Relay.Waiting
    ∧ Relay.sent st' = Relay.sent st
    ∧ Relay.delivered st' = Relay.delivered st.
Proof.
  intros Hs Hq Hgen. simpl.
  unfold Relay.handle_display_update at 1, Relay.get. rewrite Hs, Hq. simpl.
  rewrite Hgen. simpl. rewrite run_app, run_puts. simpl.
  eexists. split; [reflexivity|]. simpl. by rewrite <- app_assoc.
Qed.

Lemma deliver_all_run items rest st :
  Relay.sender st = Relay.Waiting ->
  Relay.queue st = items ++ rest ->
  Forall (fun values => exists display_json, generate values = Ok display_json)
    items ->
  exists st',
    Relay.run step (deliver_all items) st = Some st'
    ∧ Relay.queue st' = rest
    ∧ Relay.sender st' = Relay.Waiting
    ∧ Relay.delivered st' = Relay.delivered st ++ items.
Proof.
  revert st. induction items as [|values items IH]; intros st Hs Hq Hgen.
  - exists st. by rewrite app_nil_r.
  - apply Forall_cons in Hgen as [[display_json Hgen] Hrest].
    unfold deliver_all. simpl.
    unfold Relay.handle_display_update at 1, Relay.get. rewrite Hs, Hq. simpl.
    rewrite Hgen. simpl.
    edestruct IH as (st' & Hrun & Hq' & Hs' & Hd'); [| |exact Hrest|].
    3: { exists st'. split; [exact Hrun|]. split; [exact Hq'|].
         split; [exact Hs'|]. rewrite Hd'. simpl. by rewrite <- app_assoc. }
    + done.
    + done.
Qed.
End RelayFacts.

Lemma run_enqueued_grows {item wire : Type} (generate : item -> result wire)
    (evs : list (Relay.event item)) (st st' : Relay.state item wire) :
  Relay.run (Relay.handle_display_update generate) evs st = Some st' ->
  exists later, Relay.enqueued st' = Relay.enqueued st ++ later.
Proof.
  revert st. induction evs as [|ev evs IH]; simpl; intros st.
  - intros [= <-]. exists []. by rewrite app_nil_r.
  - destruct (Relay.handle_display_update generate ev st) as [st1|] eqn:Hstep;
      simpl; [|done].
    intros (later & ->)%IH.
    assert (exists l, Relay.enqueued st1 = Relay.enqueued st ++ l) as [l ->].
    { revert Hstep. unfold Relay.handle_display_update, Relay.get.
      destruct ev, (Relay.sender st); try done;
        try (intros [= <-]; simpl; by eexists [_]);
        try (intros [= <-]; simpl; exists []; by rewrite app_nil_r).
      destruct (Relay.queue st); simpl; [done|].
      destruct (generate _); intros [= <-]; simpl; exists [];
        by rewrite app_nil_r. }
    exists (l ++ later). by rewrite app_assoc.
Qed.

(** The claim of C10 as the spec words it: once the send of [fuel_pred]
    was closed and [title_b] was put meanwhile, [title_b] reaches the
    display first.  It fails when the send of [title_b] is closed too:
    [title_b] goes behind [fuel_pred], which is then delivered first. *)
Lemma retried_frame_delivered_first :
  ¬ (forall evs st,
       Relay.run ToLiss.handle_display_update
         ([Relay.Put fuel_pred; Relay.Get; Relay.Put title_b; Relay.SendClosed]
          ++ evs) Relay.initial = Some st ->
       forall i, Relay.delivered st !! i = Some fuel_pred ->
                 exists j, j < i ∧ Relay.delivered st !! j = Some title_b).
Proof.
  intros H.
  edestruct (H [Relay.Get; Relay.SendClosed; Relay.Get; Relay.SendOk;
                Relay.Get; Relay.SendOk]) as (j & Hj & _).
  - vm_compute. reflexivity.
  - instantiate (1 := 0). reflexivity.
  - lia.
Qed.

(** C10 (amended): the queue is first-in first-out and a requeue appends
    at the tail.  When the display loop takes [values], any [newer]
    snapshots are put while its send is pending, and the send is closed,
    the queue is the older rest, then the newer snapshots, then [values];
    nothing was sent meanwhile; whatever is taken from the queue later is
    taken in that order; and if none of the following sends is closed the
    display receives the rest, the newer snapshots and only then
    [values].  (A newer snapshot whose own send is closed goes behind
    [values] in turn.) *)
Theorem requeue_appends_at_tail :
  forall {item wire : Type} (generate : item -> result wire)
         (st : Relay.state item wire) (values : item) (rest newer : list item)
         (frame : wire),
    fifo st ->
    Relay.sender st = Relay.Waiting ->
    Relay.queue st = values :: rest ->
    generate values = Ok frame ->
    exists st',
      Relay.run (Relay.handle_display_update generate)
        (Relay.Get :: (Relay.Put <$> newer) ++ [Relay.SendClosed]) st = Some st'
      ∧ Relay.queue st' = rest ++ newer ++ [values]
      ∧ Relay.sent st' = Relay.sent st
      ∧ (forall evs st'',
           Relay.run (Relay.handle_display_update generate) evs st' = Some st'' ->
           exists later,
             Relay.dequeued st'' ++ Relay.queue st''
             = Relay.dequeued st' ++ rest ++ newer ++ values :: later)
      ∧ (Forall (fun v => exists f, generate v = Ok f) (rest ++ newer) ->
         exists st'',
           Relay.run (Relay.handle_display_update generate)
             (deliver_all (rest ++ newer ++ [values])) st' = Some st''
           ∧ Relay.delivered st''
             = Relay.delivered st ++ rest ++ newer ++ [values]).
Proof.
  intros item wire generate st values rest newer frame Hfifo Hs Hq Hgen.
  destruct (closed_send_requeues generate st values rest frame newer Hs Hq Hgen)
    as (st' & Hrun & Hq' & Hs' & Hsent & Hdel).
  exists st'. split; [done|]. split; [done|]. split; [done|]. split.
  - intros evs st'' Hrun'.
    pose proof (run_fifo _ _ _ _ Hrun Hfifo) as Hfifo'.
    pose proof (run_fifo _ _ _ _ Hrun' Hfifo') as Hfifo''.
    apply run_enqueued_grows in Hrun' as [later Hlater].
    exists later. unfold fifo in *.
    rewrite <- Hfifo'', Hlater, Hfifo', Hq'. by rewrite <- !app_assoc.
  - intros Hall.
    destruct (deliver_all_run generate (rest ++ newer ++ [values]) [] st')
      as (st'' & Hrun'' & _ & _ & Hdel''); [done|by rewrite app_nil_r| |].
    + rewrite app_assoc. apply Forall_app. split; [done|].
      apply Forall_singleton. by exists frame.
    + exists st''. split; [done|]. by rewrite Hdel'', Hdel.
Qed.

Lemma requeue_appends_at_tail_witness :
  exists st',
    Relay.run ToLiss.handle_display_update
      [Relay.Get; Relay.Put title_b; Relay.SendClosed]
      (Relay.put fuel_pred Relay.initial) = Some st'
    ∧ Relay.queue st' = [title_b; fuel_pred].
Proof.
  destruct (requeue_appends_at_tail ToLiss.generate_display_json
              (Relay.put fuel_pred Relay.initial) fuel_pred [] [title_b]
              (display_json
                 (((fun c => Cell c (lit "1") (PInt 0)) <$> lit "FUEL")
                  ++ [EmptyCell]
                  ++ ((fun c => Cell c (lit "1") (PInt 0)) <$> lit "PRED")
                  ++ replicate 327 EmptyCell)))
    as (st' & Hrun & Hq & _).
  - reflexivity.
  - reflexivity.
  - reflexivity.
  - vm_compute. reflexivity.
  - exists st'. split; [exact Hrun|exact Hq].
Defined.

(** ** Change detection in the feed loop (C4) *)

Section FeedFacts.
Variable dataref_map : dict Z str.
Variable decode_value : str -> pyval -> result pyval.

Lemma for_each_update payload updates r st :
  decoded_updates dataref_map decode_value payload = Ok updates ->
  Feed.for_each payload (Feed.update dataref_map decode_value r) st
  = (Ok (),
     {| Feed.heap := alter (overlay updates) r (Feed.heap st);
        Feed.last_known_values := Feed.last_known_values st;
        Feed.queue := Feed.queue st;
        Feed.comparisons := Feed.comparisons st |}).
Proof.
  revert updates st. induction payload as [|[key value] payload IH];
    intros updates st; simpl.
  - intros [= <-]. destruct st. simpl. f_equal. f_equal.
    symmetry. apply list_alter_id. done.
  - intros (dataref_id & Hid & Hrest)%bind_Ok.
    unfold mbind at 1, Feed.task_bind, Feed.update at 1.
    unfold mbind at 1, Feed.task_bind, Feed.lift. simpl. rewrite Hid.
    destruct (dict_get dataref_map dataref_id) as [dataref_name|].
    + apply bind_Ok in Hrest as (v & Hv & (us & Hus & [= <-])%bind_Ok).
      unfold mbind at 1, Feed.task_bind. rewrite Hv. simpl.
      rewrite (IH us) by done. simpl. f_equal. f_equal.
      rewrite list_alter_alter_eq. done.
    + unfold mret, Feed.task_ret. by rewrite (IH updates).
Qed.
Lemma for_each_cons {A : Type} (x : A) (rest : list A)
    (body : A -> Feed.task ()) (st : Feed.state) :
  Feed.for_each (x :: rest) body st
  = match body x st with
    | (Ok _, st') => Feed.for_each rest body st'
    | (Raise e, st') => (Raise e, st')
    end.
Proof. reflexivity. Qed.

Lemma update_and_compare_unknown r key value dataref_id st :
  int key = Ok dataref_id ->
  dict_get dataref_map dataref_id = None ->
  Feed.update_and_compare dataref_map decode_value r (key, value) st = (Ok (), st).
Proof.
  intros Hid Hnone. unfold Feed.update_and_compare.
  unfold mbind, Feed.task_bind, Feed.lift. simpl. by rewrite Hid, Hnone.
Qed.

Lemma update_and_compare_known r key value dataref_id dataref_name v st :
  int key = Ok dataref_id ->
  dict_get dataref_map dataref_id = Some dataref_name ->
  decode_value dataref_name value = Ok v ->
  Feed.update_and_compare dataref_map decode_value r (key, value) st
  = let st1 := stored r dataref_name v st in
    (Ok (),
     if dict_eqb (Feed.deref st1 r) (Feed.deref st1 (Feed.last_known_values st))
     then {| Feed.heap := Feed.heap st1;
             Feed.last_known_values := Feed.last_known_values st;
             Feed.queue := Feed.queue st;
             Feed.comparisons := S (Feed.comparisons st) |}
     else {| Feed.heap := Feed.heap st1;
             Feed.last_known_values := r;
             Feed.queue := Feed.queue st ++ [r];
             Feed.comparisons := S (Feed.comparisons st) |}).
Proof.
  intros Hid Hname Hv. unfold Feed.update_and_compare.
  unfold mbind, Feed.task_bind, Feed.lift. simpl. rewrite Hid, Hname, Hv.
  unfold Feed.same_as_last_known, Feed.store, Feed.deref. simpl.
  by destruct (dict_eqb _ _).
Qed.

Lemma deref_stored r dataref_name v st :
  r < length (Feed.heap st) ->
  Feed.deref (stored r dataref_name v st) r
  = dict_set (Feed.deref st r) dataref_name v.
Proof.
  intros Hr. unfold Feed.deref, stored. simpl.
  rewrite list_lookup_alter_eq. unfold snapshot, dict.
  match goal with |- context [fmap _ ?o] => destruct o eqn:Hd end; [done|].
  apply lookup_ge_None in Hd. unfold snapshot, dict in *. lia.
Qed.

Lemma deref_stored_ne r r' dataref_name v st :
  r ≠ r' ->
  Feed.deref (stored r dataref_name v st) r' = Feed.deref st r'.
Proof.
  intros Hr. unfold Feed.deref, stored. simpl.
  by rewrite list_lookup_alter_ne.
Qed.

(** Once [last_known_values] is the object being updated, every further
    comparison compares the object with itself. *)
Lemma for_each_compare_adopted payload updates r st :
  decoded_updates dataref_map decode_value payload = Ok updates ->
  Feed.last_known_values st = r ->
  r < length (Feed.heap st) ->
  dict_wf (Feed.deref st r) ->
  Feed.for_each payload (Feed.update_and_compare dataref_map decode_value r) st
  = (Ok (),
     {| Feed.heap := alter (overlay updates) r (Feed.heap st);
        Feed.last_known_values := r;
        Feed.queue := Feed.queue st;
        Feed.comparisons := Feed.comparisons st + length updates |}).
Proof.
  revert updates st. induction payload as [|[key value] payload IH];
    intros updates st; simpl decoded_updates.
  - intros [= <-] <- Hr Hwf. destruct st. simpl. f_equal. f_equal; [|lia].
    symmetry. by apply list_alter_id.
  - intros (dataref_id & Hid & Hrest)%bind_Ok Hlast Hr Hwf.
    rewrite for_each_cons.
    destruct (dict_get dataref_map dataref_id) as [dataref_name|] eqn:Hname.
    + apply bind_Ok in Hrest as (v & Hv & (us & Hus & [= <-])%bind_Ok).
      rewrite (update_and_compare_known _ _ _ _ _ _ _ Hid Hname Hv).
      cbv zeta. rewrite Hlast, dict_eqb_refl; last first.
      { rewrite deref_stored by done. by apply dict_set_wf. }
      rewrite (IH us); simpl; try done.
      * rewrite list_alter_alter_eq. f_equal. f_equal. lia.
      * by rewrite length_alter.
      * fold (stored r dataref_name v st).
        change (dict_wf (Feed.deref (stored r dataref_name v st) r)).
        rewrite deref_stored by done. by apply dict_set_wf.
    + rewrite (update_and_compare_unknown _ _ _ _ _ Hid Hname).
      by apply IH.
Qed.
(** Until then, each comparison is between the candidate so far and the
    previous snapshot; the first difference adopts and enqueues the
    candidate object. *)
Lemma for_each_compare_fresh payload updates r st :
  decoded_updates dataref_map decode_value payload = Ok updates ->
  Feed.last_known_values st ≠ r ->
  r < length (Feed.heap st) ->
  dict_wf (Feed.deref st r) ->
  Feed.for_each payload (Feed.update_and_compare dataref_map decode_value r) st
  = let changed :=
      first_change (Feed.deref st (Feed.last_known_values st))
        (Feed.deref st r) updates in
    (Ok (),
     {| Feed.heap := alter (overlay updates) r (Feed.heap st);
        Feed.last_known_values :=
          if changed then r else Feed.last_known_values st;
        Feed.queue := if changed then Feed.queue st ++ [r] else Feed.queue st;
        Feed.comparisons := Feed.comparisons st + length updates |}).
Proof.
  revert updates st. induction payload as [|[key value] payload IH];
    intros updates st; simpl decoded_updates.
  - intros [= <-] Hlast Hr Hwf. destruct st. simpl. f_equal. f_equal; [|lia].
    symmetry. by apply list_alter_id.
  - intros (dataref_id & Hid & Hrest)%bind_Ok Hlast Hr Hwf.
    rewrite for_each_cons.
    destruct (dict_get dataref_map dataref_id) as [dataref_name|] eqn:Hname.
    + apply bind_Ok in Hrest as (v & Hv & (us & Hus & [= <-])%bind_Ok).
      rewrite (update_and_compare_known _ _ _ _ _ _ _ Hid Hname Hv).
      cbv zeta. rewrite deref_stored by done.
      rewrite deref_stored_ne by done. simpl first_change.
      assert (dict_wf (dict_set (Feed.deref st r) dataref_name v)) as Hwf'
        by by apply dict_set_wf.
      destruct (dict_eqb _ _) eqn:Heq; simpl negb; simpl orb.
      * rewrite (IH us); simpl; try done.
        -- rewrite list_alter_alter_eq.
           change (Feed.deref {| Feed.heap := ?h |} ?x)
             with (Feed.deref (stored r dataref_name v st) x).
           rewrite deref_stored by done. rewrite deref_stored_ne by done.
           f_equal. f_equal. lia.
        -- by rewrite length_alter.
        -- change (dict_wf (Feed.deref (stored r dataref_name v st) r)).
           by rewrite deref_stored.
      * rewrite (for_each_compare_adopted _ us); simpl; try done.
        -- rewrite list_alter_alter_eq. f_equal. f_equal. lia.
        -- by rewrite length_alter.
        -- change (dict_wf (Feed.deref (stored r dataref_name v st) r)).
           by rewrite deref_stored.
    + rewrite (update_and_compare_unknown _ _ _ _ _ Hid Hname).
      by apply IH.
Qed.
Lemma deref_wf st r : feed_wf st -> dict_wf (Feed.deref st r).
Proof.
  intros [_ Hheap]. unfold Feed.deref.
  destruct (Feed.heap st !! r) as [d|] eqn:Hd; simpl; [|apply NoDup_nil_2].
  by eapply Forall_lookup_1.
Qed.

Lemma overlay_wf updates d : dict_wf d -> dict_wf (overlay updates d).
Proof.
  revert d. induction updates as [|u us IH]; intros d Hd; [done|].
  apply IH. by apply dict_set_wf.
Qed.

Lemma deref_copy_old st d r l q c :
  r < length (Feed.heap st) ->
  Feed.deref {| Feed.heap := Feed.heap st ++ [d]; Feed.last_known_values := l;
                Feed.queue := q; Feed.comparisons := c |} r
  = Feed.deref st r.
Proof. intros Hr. unfold Feed.deref. simpl. by rewrite lookup_app_l. Qed.

Lemma deref_copy_new st (d : snapshot) l q c :
  Feed.deref {| Feed.heap := Feed.heap st ++ [d]; Feed.last_known_values := l;
                Feed.queue := q; Feed.comparisons := c |}
    (length (Feed.heap st))
  = d.
Proof. unfold Feed.deref. simpl. by rewrite list_lookup_middle. Qed.

Lemma alter_copy_new st (f : snapshot -> snapshot) (d : snapshot) :
  alter f (length (Feed.heap st)) (Feed.heap st ++ [d]) = Feed.heap st ++ [f d].
Proof.
  rewrite <- (Nat.add_0_r (length (Feed.heap st))). by rewrite alter_app_r.
Qed.

Lemma handle_message_once_spec payload updates st :
  feed_wf st ->
  decoded_updates dataref_map decode_value payload = Ok updates ->
  Feed.handle_message_once dataref_map decode_value payload st
  = (Ok (),
     after_message st updates
       (negb (dict_eqb
                (overlay updates (Feed.deref st (Feed.last_known_values st)))
                (Feed.deref st (Feed.last_known_values st))))
       1).
Proof.
  intros [Hlast Hheap] Hupdates. unfold Feed.handle_message_once.
  unfold mbind at 1, Feed.task_bind, Feed.copy_last_known.
  unfold mbind at 1, Feed.task_bind.
  rewrite (for_each_update _ updates) by done. simpl.
  unfold mbind, Feed.task_bind, Feed.same_as_last_known, after_message.
  simpl. rewrite alter_copy_new, deref_copy_new, deref_copy_old by done.
  rewrite Nat.add_1_r.
  destruct (dict_eqb _ _); reflexivity.
Qed.

Lemma handle_message_per_key_spec payload updates st :
  feed_wf st ->
  decoded_updates dataref_map decode_value payload = Ok updates ->
  Feed.handle_message_per_key dataref_map decode_value payload st
  = (Ok (),
     after_message st updates
       (first_change (Feed.deref st (Feed.last_known_values st))
          (Feed.deref st (Feed.last_known_values st)) updates)
       (length updates)).
Proof.
  intros Hwf Hupdates. pose proof Hwf as [Hlast Hheap].
  unfold Feed.handle_message_per_key.
  unfold mbind, Feed.task_bind, Feed.copy_last_known.
  rewrite (for_each_compare_fresh _ updates); simpl; try done.
  - unfold after_message. rewrite alter_copy_new.
    rewrite deref_copy_new, deref_copy_old by done. done.
  - lia.
  - rewrite length_app. simpl. lia.
  - rewrite deref_copy_new. by apply deref_wf.
Qed.
End FeedFacts.

Lemma overlay_get updates d dataref_name :
  dict_get (overlay updates d) dataref_name
  = match last_update updates dataref_name with
    | Some v => Some v
    | None => dict_get d dataref_name
    end.
Proof.
  revert d. induction updates as [|[n v] us IH]; intros d; simpl; [done|].
  unfold overlay in *. simpl. rewrite IH, dict_get_set.
  destruct (last_update us dataref_name); [done|]. by case_decide.
Qed.

Lemma last_update_elem_of updates n v :
  (n, v) ∈ updates -> is_Some (last_update updates n).
Proof.
  induction updates as [|[n' v'] us IH]; [by intros ?%elem_of_nil|].
  intros [[= -> ->]|Hin]%elem_of_cons; simpl.
  - destruct (last_update us n'); [done|]. by rewrite decide_True.
  - destruct (IH Hin) as [w ->]. done.
Qed.

Lemma last_update_NoDup updates n v :
  NoDup updates.*1 -> (n, v) ∈ updates -> last_update updates n = Some v.
Proof.
  induction updates as [|[n' v'] us IH]; [by intros _ ?%elem_of_nil|].
  simpl. intros [Hn' Hus]%NoDup_cons [[= -> ->]|Hin]%elem_of_cons.
  - destruct (last_update us n') as [w|] eqn:Hw.
    + exfalso. apply Hn'. clear -Hw.
      induction us as [|[m x] us IH]; [done|]. simpl in *.
      destruct (last_update us n'); [right; by apply IH|].
      case_decide; [subst; by left|done].
    + by rewrite decide_True.
  - by rewrite (IH Hus Hin).
Qed.

Lemma overlay_length_present updates d :
  (forall u, u ∈ updates -> is_Some (dict_get d u.1)) ->
  length (overlay updates d) = length d.
Proof.
  revert d. induction updates as [|[n v] us IH]; intros d Hd; [done|].
  unfold overlay in *. simpl. rewrite IH.
  - apply dict_set_length_present. apply (Hd (n, v)). by left.
  - intros u Hu. rewrite dict_get_set. case_decide; [done|].
    apply Hd. by right.
Qed.

(** Laying the same updates over the candidate again changes nothing. *)
Lemma overlay_idempotent updates d :
  dict_wf d ->
  dict_eqb (overlay updates (overlay updates d)) (overlay updates d) = true.
Proof.
  intros Hd. apply dict_eqb_ext.
  - by do 2 apply overlay_wf.
  - apply overlay_length_present. intros [n v] Hu. simpl. rewrite overlay_get.
    by destruct (last_update_elem_of _ _ _ Hu) as [w ->].
  - intros k. rewrite !overlay_get. by destruct (last_update updates k).
Qed.

Lemma first_change_settled updates d :
  dict_wf d ->
  (forall u, u ∈ updates -> dict_get d u.1 = Some u.2) ->
  first_change d d updates = false.
Proof.
  intros Hd. induction updates as [|[n v] us IH]; intros Hus; [done|].
  simpl. rewrite (dict_set_same d n v) by (apply (Hus (n, v)); by left).
  rewrite dict_eqb_refl by done. simpl. apply IH.
  intros u Hu. apply Hus. by right.
Qed.

Lemma first_change_overlaid updates d :
  dict_wf d -> NoDup updates.*1 ->
  first_change (overlay updates d) (overlay updates d) updates = false.
Proof.
  intros Hd Hnodup. apply first_change_settled; [by apply overlay_wf|].
  intros [n v] Hu. simpl. rewrite overlay_get.
  by rewrite (last_update_NoDup _ _ _ Hnodup Hu).
Qed.

Lemma after_message_wf st updates changed compared :
  feed_wf st -> feed_wf (after_message st updates changed compared).
Proof.
  intros Hwf. pose proof Hwf as [Hlast Hheap]. split; simpl.
  - rewrite length_app. simpl. destruct changed; lia.
  - apply Forall_app. split; [done|]. apply Forall_singleton.
    by apply overlay_wf, deref_wf.
Qed.

Lemma after_message_deref_new st updates changed compared :
  Feed.deref (after_message st updates changed compared) (length (Feed.heap st))
  = overlay updates (Feed.deref st (Feed.last_known_values st)).
Proof. apply deref_copy_new. Qed.

Lemma after_message_deref_old st updates changed compared r :
  r < length (Feed.heap st) ->
  Feed.deref (after_message st updates changed compared) r = Feed.deref st r.
Proof. apply deref_copy_old. Qed.

Lemma after_message_deref_last st updates changed compared :
  feed_wf st ->
  Feed.deref (after_message st updates changed compared)
    (Feed.last_known_values (after_message st updates changed compared))
  = if changed then overlay updates (Feed.deref st (Feed.last_known_values st))
    else Feed.deref st (Feed.last_known_values st).
Proof.
  intros [Hlast _]. simpl. destruct changed.
  - apply deref_copy_new.
  - by apply deref_copy_old.
Qed.

Lemma handle_message_once_compares_once dataref_map decode_value :
  compares_once dataref_map decode_value
    (Feed.handle_message_once dataref_map decode_value).
Proof.
  intros payload updates st Hwf Hupdates previous candidate r.
  set (same := dict_eqb candidate previous).
  exists (after_message st updates (negb same) 1).
  split; [by apply handle_message_once_spec|].
  split; [by apply after_message_wf|].
  split; [simpl; lia|].
  split; [apply after_message_deref_new|].
  split; [intros r' Hr'; by apply after_message_deref_old|].
  split; [by destruct same|].
  eexists. split.
  - apply handle_message_once_spec; [by apply after_message_wf|done].
  - rewrite after_message_deref_last by done. fold previous candidate.
    destruct same eqn:Hsame; simpl negb; cbv iota.
    + fold candidate. change (dict_eqb candidate previous) with same.
      by rewrite Hsame.
    + unfold candidate, previous. rewrite overlay_idempotent; [done|].
      by apply deref_wf.
Qed.

Lemma handle_message_per_key_compares_per_key dataref_map decode_value :
  compares_per_key dataref_map decode_value
    (Feed.handle_message_per_key dataref_map decode_value).
Proof.
  intros payload updates st Hwf Hupdates previous candidate r.
  set (changed := first_change previous previous updates).
  exists (after_message st updates changed (length updates)).
  split; [by apply handle_message_per_key_spec|].
  split; [by apply after_message_wf|].
  split; [done|].
  split; [apply after_message_deref_new|].
  split; [intros r' Hr'; by apply after_message_deref_old|].
  split; [by destruct changed|].
  intros Hnodup. eexists. split.
  - apply handle_message_per_key_spec; [by apply after_message_wf|done].
  - rewrite after_message_deref_last by done. fold previous candidate.
    destruct changed eqn:Hchanged; cbv iota.
    + unfold candidate, previous. rewrite first_change_overlaid; [done| |done].
      by apply deref_wf.
    + change (first_change previous previous updates) with changed.
      by rewrite Hchanged.
Qed.

(** The claim of C4 as the spec words it fails in ToLiss_a3xx.py: for a
    message with two known keys the snapshots are compared twice. *)
Lemma toliss_compares_after_each_key :
  ¬ (forall payload st st',
       ToLiss.handle_datarefs b64decode_sample catalog payload st = (Ok (), st') ->
       Feed.comparisons st' = S (Feed.comparisons st)).
Proof.
  intros H.
  specialize (H msg Feed.initial
                (ToLiss.handle_datarefs b64decode_sample catalog msg Feed.initial).2).
  assert (Feed.comparisons
            (ToLiss.handle_datarefs b64decode_sample catalog msg Feed.initial).2
          = 1) as Hone by (apply H; vm_compute; reflexivity).
  vm_compute in Hone. discriminate Hone.
Qed.

(** C4 (amended): flightfactor_75_76.py and xcrafts_ejets.py build the
    candidate from all updates of a message, compare it with the previous
    snapshot once, and enqueue it only if it differs.  ToLiss_a3xx.py and
    zibo_737_800x.py compare after every known key; the first difference
    adopts and enqueues the candidate object, the later updates of the
    message go into that same object, so a message still produces at most
    one queue entry and the entry holds all its updates.  In every script
    a message whose decoding does not raise is handled to the end, and the
    same message again produces no queue entry (in the per-key scripts:
    when its updates are for distinct datarefs). *)
Theorem feed_change_detection :
  forall (b64decode_text : str -> result str) (dataref_map : dict Z str),
    compares_once dataref_map (FlightFactor.decode_value b64decode_text)
      (FlightFactor.handle_datarefs b64decode_text dataref_map)
    ∧ compares_once dataref_map (XCrafts.decode_value b64decode_text)
        (XCrafts.handle_dataref_updates b64decode_text dataref_map)
    ∧ compares_per_key dataref_map (ToLiss.decode_value b64decode_text)
        (ToLiss.handle_datarefs b64decode_text dataref_map)
    ∧ compares_per_key dataref_map (Zibo.decode_value b64decode_text)
        (Zibo.handle_datarefs b64decode_text dataref_map).
Proof.
  intros b64decode_text dataref_map. repeat split.
  - apply handle_message_once_compares_once.
  - apply handle_message_once_compares_once.
  - apply handle_message_per_key_compares_per_key.
  - apply handle_message_per_key_compares_per_key.
Qed.

Lemma feed_change_detection_witness :
  (exists st' st'',
     ToLiss.handle_datarefs b64decode_sample catalog msg Feed.initial = (Ok (), st')
     ∧ Feed.comparisons st' = 2
     ∧ Feed.queue st' = [1]
     ∧ Feed.deref st' 1 = msg_updates
     ∧ ToLiss.handle_datarefs b64decode_sample catalog msg st' = (Ok (), st'')
     ∧ Feed.queue st'' = [1])
  ∧ (exists st' st'',
       FlightFactor.handle_datarefs b64decode_sample catalog msg Feed.initial
       = (Ok (), st')
       ∧ Feed.comparisons st' = 1
       ∧ Feed.queue st' = [1]
       ∧ Feed.deref st' 1 = msg_updates
       ∧ FlightFactor.handle_datarefs b64decode_sample catalog msg st' = (Ok (), st'')
       ∧ Feed.queue st'' = [1]).
Proof.
  assert (feed_wf Feed.initial) as Hwf.
  { split; [simpl; lia|]. apply Forall_singleton. apply NoDup_nil_2. }
  destruct (feed_change_detection b64decode_sample catalog)
    as (Hff & _ & Htoliss & _).
  split.
  - destruct (Htoliss msg msg_updates Feed.initial Hwf)
      as (st' & Hrun & _ & Hcmp & Hnew & _ & Hq & Hagain);
      [vm_compute; reflexivity|].
    cbv zeta in Hq, Hnew.
    destruct (first_change _ _ _) eqn:Hchanged;
      [|vm_compute in Hchanged; discriminate Hchanged].
    destruct Hq as [Hq _].
    destruct Hagain as (st'' & Hrun' & Hq').
    { apply (bool_decide_unpack _). by vm_compute. }
    exists st', st''. repeat split; try done. by rewrite Hq', Hq.
  - destruct (Hff msg msg_updates Feed.initial Hwf)
      as (st' & Hrun & _ & Hcmp & Hnew & _ & Hq & st'' & Hrun' & Hq');
      [vm_compute; reflexivity|].
    cbv zeta in Hq, Hnew.
    destruct (dict_eqb _ _) eqn:Hsame;
      [vm_compute in Hsame; discriminate Hsame|].
    destruct Hq as [Hq _].
    exists st', st''. repeat split; try done. by rewrite Hq', Hq.
Defined.

(** * Further properties of the decoders *)

(** ** One dataref laid over a line *)

Lemma slice_prefix_lookup {A : Type} (n : nat) (s : list A) (col : nat) :
  slice 0 n s !! col = if decide (col < n) then s !! col else None.
Proof.
  unfold slice. rewrite Nat.sub_0_r. change (drop 0 s) with s. apply lookup_take.
Qed.

Section OverlayFacts.
Variable has_target_suffix : nat -> str -> bool.
Variable line_char : str -> char -> result cell.

(** Where the text has a space, or no character at all, the cell stays
    as it was. *)
Lemma write_chars_keeps dataref i text line_chars line_chars' col :
  write_chars line_char dataref i text line_chars = Ok line_chars' ->
  col < i ∨ text !! (col - i) = None ∨ text !! (col - i) = Some (chr " ") ->
  line_chars' !! col = line_chars !! col.
Proof.
  revert i line_chars. induction text as [|c text IH]; simpl; intros i lc.
  - by intros [= <-].
  - intros Hrun Hcol.
    assert (col < i ∨ col = i ∧ c = chr " "
            ∨ i < col ∧ (text !! (col - S i) = None
                         ∨ text !! (col - S i) = Some (chr " "))) as Hcase.
    { destruct (decide (col < i)); [by left|right].
      destruct (decide (col = i)) as [->|Hne].
      - left. rewrite Nat.sub_diag in Hcol. simpl in Hcol.
        destruct Hcol as [?|[?|[= ->]]]; [lia|done|done].
      - right. split; [lia|].
        replace (col - i) with (S (col - S i)) in Hcol by lia. simpl in Hcol.
        destruct Hcol as [?|?]; [lia|done]. }
    assert (col < S i ∨ text !! (col - S i) = None
            ∨ text !! (col - S i) = Some (chr " ")) as Hnext.
    { destruct Hcase as [?|[[-> _]|[_ ?]]]; [left; lia|left; lia|by right]. }
    case_decide as Hspace.
    + by apply (IH (S i) lc Hrun).
    + apply bind_Ok in Hrun as (entry & _ & (lc1 & Hset & Hrun)%bind_Ok).
      apply setitem_nat in Hset as [Hi ->].
      assert (i ≠ col) as Hne by (destruct Hcase as [?|[[_ ?]|[? _]]]; [lia|done|lia]).
      rewrite <- (list_lookup_insert_ne lc i col entry) by done.
      by apply (IH (S i) _ Hrun).
Qed.

(** X1: in [process_cdu_line] of ToLiss_a3xx.py and zibo_737_800x.py, a
    dataref never blanks a cell: at a column where its text has a space,
    or no character, or which lies past column 24, the cell keeps what
    the datarefs before it left there. *)
Theorem render_dataref_keeps row line_chars dataref s line_chars' col :
  render_dataref has_target_suffix line_char row line_chars (dataref, PStr s)
  = Ok line_chars' ->
  s !! col = None ∨ s !! col = Some (chr " ") ∨ CDU_COLUMNS <= col ->
  line_chars' !! col = line_chars !! col.
Proof.
  unfold render_dataref. simpl.
  intros (blank & _ & Hrun)%bind_Ok Hcol.
  destruct blank; [by injection Hrun as <-|].
  destruct (_ && _); [by injection Hrun as <-|].
  apply (write_chars_keeps _ _ _ _ _ col) in Hrun; [done|].
  right. rewrite Nat.sub_0_r.
  pose proof (slice_prefix_lookup CDU_COLUMNS s col) as Hslice.
  unfold str, char in *. rewrite Hslice.
  case_decide; [|by left].
  destruct Hcol as [?|[?|?]]; [by left|by right|lia].
Qed.


(** On a label or content row only the datarefs with the row's suffix
    leave entries: an entry of the line is the tuple of a character of
    such a dataref, at the entry's column of its text. *)
Lemma render_line_selected line_datarefs row line_chars :
  render_line has_target_suffix line_char line_datarefs row = Ok line_chars ->
  forall col entry,
    line_chars !! col = Some entry -> entry ≠ EmptyCell ->
    exists dataref text c,
      (dataref, PStr text) ∈ line_datarefs
      ∧ (row = 0 ∨ row = 14 ∨ has_target_suffix row dataref = true)
      ∧ text !! col = Some c ∧ c ≠ chr " "
      ∧ line_char dataref c = Ok entry.
Proof.
  unfold render_line.
  apply (foldM_invariant (fun lc =>
    forall col entry, lc !! col = Some entry -> entry ≠ EmptyCell ->
      exists dataref text c,
        (dataref, PStr text) ∈ line_datarefs
        ∧ (row = 0 ∨ row = 14 ∨ has_target_suffix row dataref = true)
        ∧ text !! col = Some c ∧ c ≠ chr " "
        ∧ line_char dataref c = Ok entry)).
  - intros col entry [-> _]%lookup_replicate. done.
  - intros lc [dataref text] lc' Hin Hcells. unfold render_dataref. simpl.
    intros (blank & Hblank & Hrun)%bind_Ok.
    destruct blank; [by injection Hrun as <-|].
    destruct (bool_decide (row ≠ 0 ∧ row ≠ 14)
              && negb (has_target_suffix row dataref)) eqn:Hskip;
      [by injection Hrun as <-|].
    apply bind_Ok in Hrun as (s & Hs & Hrun).
    destruct text as [t| |]; try done. injection Hs as <-.
    apply write_chars_spec in Hrun as [_ Hspec].
    intros col entry [Hold|(c & _ & Hc & Hsp & Hentry)]%Hspec Hne;
      [by eapply Hcells|].
    exists dataref, t, c. split; [done|]. split.
    { apply andb_false_iff in Hskip as [Hrow|Hsuffix].
      - apply bool_decide_eq_false in Hrow.
        destruct (decide (row = 0)); [by left|right].
        destruct (decide (row = 14)); [by left|]. by destruct Hrow.
      - right; right. by apply negb_false_iff in Hsuffix. }
    rewrite Nat.sub_0_r in Hc. unfold slice in Hc. simpl in Hc.
    by apply lookup_take_Some in Hc as [Hc _].
Qed.
End OverlayFacts.

(** ** Label rows and content rows *)

Section SelectedFacts.
Variable line_number : str -> result Z.
Variable group_datarefs_by_line : snapshot -> result (dict Z snapshot).
Variable has_target_suffix : nat -> str -> bool.
Variable line_char : str -> char -> result cell.
Hypothesis group_spec : forall values grouped,
  group_datarefs_by_line values = Ok grouped ->
  grouped_from line_number values grouped.

Lemma render_display_selected values grid row col entry :
  render_display group_datarefs_by_line
    (render_line has_target_suffix line_char) values = Ok grid ->
  row < CDU_ROWS -> col < CDU_COLUMNS ->
  grid !! (row * CDU_COLUMNS + col) = Some entry -> entry ≠ EmptyCell ->
  exists dataref text c,
    (dataref, PStr text) ∈ values
    ∧ line_number dataref = Ok (Z.of_nat (line_of_row row))
    ∧ (source_row row = 0 ∨ source_row row = 14
       ∨ has_target_suffix (source_row row) dataref = true)
    ∧ text !! col = Some c ∧ c ≠ chr " "
    ∧ line_char dataref c = Ok entry.
Proof.
  intros (grouped & Hgroup & _ & Hcells)%render_display_rendered Hrow Hcol
    Hentry Hne; last first.
  { intros ? ? ? Hline. by apply render_line_spec in Hline as [? _]. }
  destruct (Hcells _ _ Hentry Hne)
    as (row' & col' & line_chars & Hrow' & Hcol' & Hindex & Hline & Hlookup).
  assert (row' = row ∧ col' = col) as [-> ->]
    by (unfold CDU_COLUMNS in *; lia).
  destruct (render_line_selected _ _ _ _ _ Hline _ _ Hlookup Hne)
    as (dataref & text & c & Hin & Hsel & Hc & Hsp & Hchar).
  apply (group_spec _ _ Hgroup) in Hin as [Hin Hn].
  by exists dataref, text, c.
Qed.
End SelectedFacts.

(** X3: on grid rows 1 to 12 the ToLiss and Zibo decoders keep labels and
    contents apart: a populated cell at column [col] of grid row [row] is
    the tuple of the character at index [col] of the text of a dataref of
    the snapshot whose line is shown on that row and whose name has the
    suffix the script wants on its row [row + 1] ("label" on even script
    rows and "cont" on odd ones in ToLiss_a3xx.py; _X, _LX, _GX on even
    and _G, _L, _M, _S, _I, _SI on odd ones in zibo_737_800x.py). *)
Theorem labels_and_contents_apart :
  forall (values : snapshot) (grid : list cell) (row col : nat) (entry : cell),
    1 <= row <= 12 -> col < 24 ->
    grid !! (row * 24 + col) = Some entry -> entry ≠ EmptyCell ->
    (ToLiss.display_data values = Ok grid ->
     exists dataref text c,
       (dataref, PStr text) ∈ values
       ∧ ToLiss.line_number dataref = Ok (Z.of_nat (line_of_row row))
       ∧ ToLiss.has_target_suffix (S row) dataref = true
       ∧ text !! col = Some c ∧ c ≠ chr " "
       ∧ ToLiss.line_char dataref c = Ok entry)
    ∧ (Zibo.display_data values = Ok grid ->
       exists dataref text c,
         (dataref, PStr text) ∈ values
         ∧ Zibo.line_number dataref = Ok (Z.of_nat (line_of_row row))
         ∧ Zibo.has_target_suffix (S row) dataref = true
         ∧ text !! col = Some c ∧ c ≠ chr " "
         ∧ Zibo.line_char dataref c = Ok entry).
Proof.
  intros values grid row col entry Hrow Hcol Hentry Hne.
  assert (source_row row = S row) as Hsrc.
  { unfold source_row. case_decide; [lia|done]. }
  split; intros Hrun.
  - destruct (render_display_selected _ _ _ _ toliss_grouped_from
                values grid row col entry Hrun)
      as (dataref & text & c & Hin & Hn & Hsel & Hc); try done;
      [unfold CDU_ROWS; lia|].
    exists dataref, text, c. split; [done|]. split; [done|]. split; [|done].
    rewrite Hsrc in Hsel. destruct Hsel as [?|[?|?]]; [lia|lia|done].
  - destruct (render_display_selected _ _ _ _ zibo_grouped_from
                values grid row col entry Hrun)
      as (dataref & text & c & Hin & Hn & Hsel & Hc); try done;
      [unfold CDU_ROWS; lia|].
    exists dataref, text, c. split; [done|]. split; [done|]. split; [|done].
    rewrite Hsrc in Hsel. destruct Hsel as [?|[?|?]]; [lia|lia|done].
Qed.

(** ** Grouping by line *)

Lemma add_to_line_lookup grouped n dataref value m dataref' :
  dict_get (dict_get_default (add_to_line grouped n dataref value) m []) dataref'
  = if decide (n = m ∧ dataref = dataref') then Some value
    else dict_get (dict_get_default grouped m []) dataref'.
Proof.
  unfold add_to_line, dict_get_default at 1. rewrite dict_get_set.
  destruct (decide (n = m)) as [->|Hn].
  - rewrite dict_get_set. destruct (decide (dataref = dataref')) as [->|Hd].
    + by rewrite decide_True.
    + rewrite decide_False; [done|]. by intros [_ ?].
  - rewrite decide_False; [done|]. by intros [? _].
Qed.

Lemma dict_get_not_elem_of {K V : Type} `{EqDecision K} (d : dict K V) (k : K) :
  k ∉ d.*1 -> dict_get d k = None.
Proof.
  induction d as [|[k0 v0] d IH]; simpl; [done|].
  intros Hk. rewrite decide_False.
  - apply IH. intros ?. apply Hk. by right.
  - intros ->. apply Hk. by left.
Qed.

Lemma toliss_group_lookup values acc m dataref :
  dict_wf values ->
  dict_get
    (dict_get_default
       (fold_left
          (fun grouped_datarefs '(dataref, value) =>
             match ToLiss.line_number dataref with
             | Ok line_num => add_to_line grouped_datarefs line_num dataref value
             | Raise _ => grouped_datarefs
             end) values acc) m []) dataref
  = line_entry ToLiss.line_number values m dataref
      (dict_get (dict_get_default acc m []) dataref).
Proof.
  unfold dict_wf, line_entry. revert acc.
  induction values as [|[d0 v0] values IH]; intros acc; simpl; [done|].
  intros [Hd0 Hwf]%NoDup_cons. rewrite IH by done.
  destruct (decide (d0 = dataref)) as [->|Hne].
  - rewrite (dict_get_not_elem_of values dataref) by done.
    destruct (ToLiss.line_number dataref) as [n|e]; [|done].
    rewrite add_to_line_lookup.
    destruct (decide (n = m)) as [->|Hn].
    + by rewrite decide_True.
    + rewrite decide_False; [done|]. by intros [? _].
  - destruct (ToLiss.line_number d0) as [n0|e0].
    + rewrite add_to_line_lookup. rewrite (decide_False (P := _ ∧ _)); [done|].
      by intros [_ ?].
    + done.
Qed.

Lemma zibo_group_lookup values acc grouped m dataref :
  dict_wf values ->
  foldM
    (fun grouped_datarefs '(dataref, value) =>
       line_num ← Zibo.line_number dataref;
       Ok (add_to_line grouped_datarefs line_num dataref value))
    values acc = Ok grouped ->
  dict_get (dict_get_default grouped m []) dataref
  = line_entry Zibo.line_number values m dataref
      (dict_get (dict_get_default acc m []) dataref).
Proof.
  unfold dict_wf, line_entry. revert acc.
  induction values as [|[d0 v0] values IH]; intros acc; simpl.
  - by intros _ [= <-].
  - intros [Hd0 Hwf]%NoDup_cons
      (acc' & (n0 & Hn0 & [= <-])%bind_Ok & Hrun)%bind_Ok.
    rewrite (IH _ Hwf Hrun).
    destruct (decide (d0 = dataref)) as [->|Hne].
    + rewrite (dict_get_not_elem_of values dataref) by done. rewrite Hn0.
      rewrite add_to_line_lookup.
      destruct (decide (n0 = m)) as [->|Hn].
      * by rewrite decide_True.
      * rewrite decide_False; [done|]. by intros [? _].
    + rewrite add_to_line_lookup. rewrite (decide_False (P := _ ∧ _)); [done|].
      by intros [_ ?].
Qed.

(** X4: grouping loses and duplicates nothing.  In the grouping a
    snapshot item is found under its name in the line of its line number,
    with its value, and in no other line; ToLiss_a3xx.py leaves out the
    names for which the line number cannot be computed, zibo_737_800x.py,
    when it returns, has a line number for every name. *)
Theorem grouping_keeps_items :
  forall (values : snapshot) (grouped : dict Z snapshot) (m : Z) (dataref : str),
    dict_wf values ->
    (ToLiss.group_datarefs_by_line values = Ok grouped ->
     dict_get (dict_get_default grouped m []) dataref
     = line_entry ToLiss.line_number values m dataref None)
    ∧ (Zibo.group_datarefs_by_line values = Ok grouped ->
       dict_get (dict_get_default grouped m []) dataref
       = line_entry Zibo.line_number values m dataref None
       ∧ forall dataref', dataref' ∈ values.*1 ->
                          exists n, Zibo.line_number dataref' = Ok n).
Proof.
  intros values grouped m dataref Hwf. split.
  - unfold ToLiss.group_datarefs_by_line. intros [= <-].
    by rewrite toliss_group_lookup.
  - unfold Zibo.group_datarefs_by_line. intros Hrun. split.
    + by rewrite (zibo_group_lookup _ _ _ _ _ Hwf Hrun).
    + clear Hwf. revert Hrun. generalize (@nil (Z * snapshot)).
      induction values as [|[d0 v0] values IH]; intros acc; simpl.
      * by intros _ ? ?%elem_of_nil.
      * intros (acc' & (n0 & Hn0 & _)%bind_Ok & Hrun)%bind_Ok dataref'
          [->|Hin]%elem_of_cons; [by exists n0|]. by eapply IH.
Qed.

(** ** When the decoders return *)

Lemma rindex_elem_of c s : c ∈ s -> exists i, rindex c s = Ok i.
Proof.
  induction s as [|x s IH]; [by intros ?%elem_of_nil|].
  intros Hin. simpl. destruct (rindex c s) as [i|e] eqn:Hr; [by eexists|].
  apply elem_of_cons in Hin as [->|Hin].
  - rewrite decide_True by done. by eexists.
  - destruct (IH Hin) as [i [=]].
Qed.

Section ReturnFacts.
Variable line_number : str -> result Z.
Variable group_datarefs_by_line : snapshot -> result (dict Z snapshot).
Variable has_target_suffix : nat -> str -> bool.
Variable line_char : str -> char -> result cell.
Hypothesis group_spec : forall values grouped,
  group_datarefs_by_line values = Ok grouped ->
  grouped_from line_number values grouped.

Lemma render_display_total values grouped :
  group_datarefs_by_line values = Ok grouped ->
  (forall dataref text,
     (dataref, text) ∈ values ->
     (exists n, line_number dataref = Ok n) ->
     (exists s, text = PStr s)
     ∧ forall c, exists entry, line_char dataref c = Ok entry) ->
  exists grid,
    render_display group_datarefs_by_line
      (render_line has_target_suffix line_char) values = Ok grid
    ∧ length grid = CDU_ROWS * CDU_COLUMNS.
Proof.
  intros Hgroup Hvalues.
  assert (exists grid,
            render_display group_datarefs_by_line
              (render_line has_target_suffix line_char) values = Ok grid)
    as [grid Hgrid].
  { unfold render_display. rewrite Hgroup, bind_Ok_l.
    apply foldM_total. intros acc row _. unfold render_row.
    case_decide; [by eexists|].
    case_decide; [by eexists|].
    edestruct (render_line_total has_target_suffix line_char)
      as [line_chars Hline]; last first.
    { rewrite Hline, bind_Ok_l. by eexists. }
    intros dataref text [Hin Hn]%(group_spec _ _ Hgroup).
    apply Hvalues; [done|by eexists]. }
  exists grid. split; [done|].
  by apply (render_display_placed _ _ _ _ group_spec) in Hgrid as [? _].
Qed.
End ReturnFacts.

(** X5: [generate_display_json] of ToLiss_a3xx.py returns a message of
    336 entries for every snapshot whose values are texts, whatever the
    names are: a name without a line number is left out by the grouping,
    and every name with one has a last character for [get_char] and
    [get_color]. *)
Theorem toliss_generate_display_json_returns :
  forall values : snapshot,
    (forall dataref text, (dataref, text) ∈ values -> exists s, text = PStr s) ->
    exists message,
      ToLiss.generate_display_json values = Ok message
      ∧ Target message = lit "Display"
      ∧ length (Data message) = 336.
Proof.
  intros values Hvalues.
  destruct (render_display_total ToLiss.line_number
              ToLiss.group_datarefs_by_line ToLiss.has_target_suffix
              ToLiss.line_char toliss_grouped_from values _ eq_refl)
    as (grid & Hgrid & Hlen).
  { intros dataref text Hin [n Hn]. split; [by eapply Hvalues|].
    intros c. apply toliss_line_char_total. intros ->.
    vm_compute in Hn. discriminate Hn. }
  exists (display_json grid). split; [|done].
  unfold ToLiss.generate_display_json, render_json.
  unfold ToLiss.process_cdu_line. by rewrite Hgrid.
Qed.

(** X6: [get_display_json] of zibo_737_800x.py returns a message of 336
    entries when every value is a text and every name has a line number
    and an underscore (which [get_color] looks for). *)
Theorem zibo_get_display_json_returns :
  forall values : snapshot,
    (forall dataref text,
       (dataref, text) ∈ values ->
       (exists s, text = PStr s)
       ∧ (exists n, Zibo.line_number dataref = Ok n)
       ∧ chr "_" ∈ dataref) ->
    exists message,
      Zibo.get_display_json values = Ok message
      ∧ Target message = lit "Display"
      ∧ length (Data message) = 336.
Proof.
  intros values Hvalues.
  assert (exists grouped, Zibo.group_datarefs_by_line values = Ok grouped)
    as [grouped Hgroup].
  { unfold Zibo.group_datarefs_by_line. apply foldM_total.
    intros acc [dataref text] Hin.
    destruct (Hvalues _ _ Hin) as (_ & [n ->] & _). by eexists. }
  destruct (render_display_total Zibo.line_number
              Zibo.group_datarefs_by_line Zibo.has_target_suffix
              Zibo.line_char zibo_grouped_from values _ Hgroup)
    as (grid & Hgrid & Hlen).
  { intros dataref text Hin _. destruct (Hvalues _ _ Hin) as (Hs & _ & Hus).
    split; [done|]. intros c. unfold Zibo.line_char, Zibo.get_color,
      Zibo.after_last.
    destruct (rindex_elem_of _ _ Hus) as [i ->]. by eexists. }
  exists (display_json grid). split; [|done].
  unfold Zibo.get_display_json, render_json.
  unfold Zibo.process_cdu_line. by rewrite Hgrid.
Qed.

(** ** The FlightFactor grid in closed form *)

Lemma flightfactor_indices_seq :
  FlightFactor.indices = seq 0 (CDU_ROWS * CDU_COLUMNS).
Proof. by vm_compute. Qed.

Lemma length_zip3 a b c :
  length (FlightFactor.zip3 a b c)
  = (length a `min` length b) `min` length c.
Proof.
  revert b c. induction a as [|x a IH]; intros [|y b] [|z c]; simpl; try lia.
  rewrite IH. lia.
Qed.

Lemma flightfactor_prefix processed_datarefs n :
  n <= CDU_ROWS * CDU_COLUMNS ->
  n <= length processed_datarefs ->
  foldM (FlightFactor.render_cell processed_datarefs) (seq 0 n) empty_display
  = Ok ((flightfactor_cell <$> take n processed_datarefs)
        ++ replicate (CDU_ROWS * CDU_COLUMNS - n) EmptyCell).
Proof.
  induction n as [|n IH]; intros Hn Hlen.
  - by rewrite take_0, Nat.sub_0_r.
  - rewrite seq_S, foldM_app, IH by lia. rewrite bind_Ok_l.
    destruct (lookup_lt_is_Some_2 processed_datarefs n) as [ln Hln]; [lia|].
    rewrite (take_S_r _ _ _ Hln), fmap_app, <- app_assoc.
    set (pre := flightfactor_cell <$> take n processed_datarefs).
    assert (length pre = n) as Hpre
      by (unfold pre; rewrite length_fmap, length_take; lia).
    replace (CDU_ROWS * CDU_COLUMNS - n)
      with (S (CDU_ROWS * CDU_COLUMNS - S n)) by lia.
    cbn [foldM Nat.add fmap list_fmap app replicate].
    unfold FlightFactor.render_cell, getitem. rewrite Hln, bind_Ok_l.
    unfold flightfactor_cell.
    destruct (decide (FlightFactor.char_ ln = chr " ")) as [Hsp|Hsp]; [done|].
    unfold setitem. rewrite decide_True; last first.
    { rewrite length_app, Hpre. simpl. lia. }
    rewrite Nat2Z.id, bind_Ok_l. f_equal.
    rewrite insert_app_r_alt by lia. by rewrite Hpre, Nat.sub_diag.
Qed.

(** X7: when the three FlightFactor values are texts of at least 336
    characters, [generate_display_json] returns, and entry [i] of the
    message is the empty list where symbol [i] is a space and otherwise
    the mapped symbol, the letter g and size character [i]; characters
    beyond the 336th are not looked at. *)
Theorem flightfactor_grid_closed_form :
  forall (values : snapshot) symbols symbol_sizes symbol_colors,
    dict_get values FlightFactor.SYMBOLS = Some (PStr symbols) ->
    dict_get values FlightFactor.SYMBOLS_SIZE = Some (PStr symbol_sizes) ->
    dict_get values FlightFactor.SYMBOLS_COLOR = Some (PStr symbol_colors) ->
    336 <= length symbols ->
    336 <= length symbol_sizes ->
    336 <= length symbol_colors ->
    FlightFactor.generate_display_json values
    = Ok (display_json
            (flightfactor_cell
               <$> take 336 (FlightFactor.zip3 symbols symbol_sizes
                               symbol_colors))).
Proof.
  intros values a b c Ha Hb Hc Hla Hlb Hlc.
  unfold FlightFactor.generate_display_json, FlightFactor.display_data,
    FlightFactor.process_display_datarefs, dict_getitem.
  unfold snapshot, dict in *. rewrite Ha, Hb, Hc.
  cbn [of_option]. rewrite !bind_Ok_l. cbn [FlightFactor.iter].
  rewrite !bind_Ok_l.
  rewrite flightfactor_indices_seq, flightfactor_prefix; last first.
  { rewrite length_zip3. unfold CDU_ROWS, CDU_COLUMNS. lia. }
  { done. }
  rewrite bind_Ok_l. do 2 f_equal.
  replace (CDU_ROWS * CDU_COLUMNS) with 336 by done.
  by rewrite Nat.sub_diag, app_nil_r.
Qed.

(** X8: when one of the three FlightFactor texts has fewer than 336
    characters, [generate_display_json] raises IndexError: the loop always
    runs over all 336 indices of the grid. *)
Theorem flightfactor_short_text_raises :
  forall (values : snapshot) symbols symbol_sizes symbol_colors,
    dict_get values FlightFactor.SYMBOLS = Some (PStr symbols) ->
    dict_get values FlightFactor.SYMBOLS_SIZE = Some (PStr symbol_sizes) ->
    dict_get values FlightFactor.SYMBOLS_COLOR = Some (PStr symbol_colors) ->
    length symbols < 336 ∨ length symbol_sizes < 336
      ∨ length symbol_colors < 336 ->
    FlightFactor.generate_display_json values = Raise IndexError.
Proof.
  intros values a b c Ha Hb Hc Hshort.
  unfold FlightFactor.generate_display_json, FlightFactor.display_data,
    FlightFactor.process_display_datarefs, dict_getitem.
  unfold snapshot, dict in *. rewrite Ha, Hb, Hc.
  cbn [of_option]. rewrite !bind_Ok_l. cbn [FlightFactor.iter].
  rewrite !bind_Ok_l.
  set (ps := FlightFactor.zip3 a b c).
  assert (length ps < 336) as Hlen by (unfold ps; rewrite length_zip3; lia).
  rewrite flightfactor_indices_seq.
  replace (CDU_ROWS * CDU_COLUMNS)
    with (length ps + S (335 - length ps))
    by (unfold CDU_ROWS, CDU_COLUMNS; lia).
  rewrite seq_app, foldM_app, flightfactor_prefix;
    [|unfold CDU_ROWS, CDU_COLUMNS; lia|done].
  rewrite bind_Ok_l. cbn [seq foldM Nat.add].
  assert (forall d, FlightFactor.render_cell ps d (length ps)
                    = Raise IndexError) as ->; [|done].
  intros d. unfold FlightFactor.render_cell, getitem.
  by rewrite (lookup_ge_None_2 ps (length ps)) by lia.
Qed.

(** ** A message that fails half way *)

Section FeedFailureFacts.
Variable dataref_map : dict Z str.
Variable decode_value : str -> pyval -> result pyval.

Lemma for_each_app {A : Type} (l1 l2 : list A) (body : A -> Feed.task ())
    (st : Feed.state) :
  Feed.for_each (l1 ++ l2) body st
  = match Feed.for_each l1 body st with
    | (Ok _, st') => Feed.for_each l2 body st'
    | (Raise e, st') => (Raise e, st')
    end.
Proof.
  revert st. induction l1 as [|x l1 IH]; intros st; [done|].
  simpl app. rewrite !for_each_cons.
  destruct (body x st) as [[[]|e] st1]; [apply IH|done].
Qed.

Lemma update_raises r item e st :
  decoded_updates dataref_map decode_value [item] = Raise e ->
  Feed.update dataref_map decode_value r item st = (Raise e, st)
  ∧ Feed.update_and_compare dataref_map decode_value r item st = (Raise e, st).
Proof.
  unfold Feed.update, Feed.update_and_compare. simpl.
  unfold mbind at 3 5, Feed.task_bind, Feed.lift.
  destruct (int item.1) as [dataref_id|e'] eqn:Hid; simpl;
    [|by intros [= ->]].
  destruct (dict_get dataref_map dataref_id) as [dataref_name|]; [|done].
  unfold mbind at 3 5, Feed.task_bind.
  destruct (decode_value dataref_name item.2) as [v|e']; simpl;
    [done|by intros [= ->]].
Qed.

(** X9: in the scripts that compare after the loop
    (flightfactor_75_76.py, xcrafts_ejets.py), a message in which a key is
    not an integer or a value does not decode ends the handler with that
    exception before anything is compared: nothing is put on the queue
    and [last_known_values] stays what it was, whatever the keys before
    the failing one had changed. *)
Theorem handle_message_once_raises before item after updates e st :
  feed_wf st ->
  decoded_updates dataref_map decode_value before = Ok updates ->
  decoded_updates dataref_map decode_value [item] = Raise e ->
  Feed.handle_message_once dataref_map decode_value
    (before ++ item :: after) st
  = (Raise e, after_message st updates false 0).
Proof.
  intros [Hlast Hheap] Hbefore Hitem. unfold Feed.handle_message_once.
  unfold mbind at 1, Feed.task_bind, Feed.copy_last_known.
  unfold mbind at 1, Feed.task_bind.
  rewrite for_each_app, (for_each_update _ _ _ updates) by done.
  rewrite for_each_cons.
  destruct (update_raises (length (Feed.heap st)) item e
              {| Feed.heap :=
                   alter (overlay updates) (length (Feed.heap st))
                     (Feed.heap st
                      ++ [Feed.deref st (Feed.last_known_values st)]);
                 Feed.last_known_values := Feed.last_known_values st;
                 Feed.queue := Feed.queue st;
                 Feed.comparisons := Feed.comparisons st |} Hitem)
    as [Hupd _].
  simpl in Hupd |- *. rewrite Hupd. unfold after_message.
  by rewrite alter_copy_new, Nat.add_0_r.
Qed.

(** X10: in the scripts that compare after each key (ToLiss_a3xx.py,
    zibo_737_800x.py), the keys before the failing one have already been
    compared: when one of them changed the snapshot, the object holding
    the updates made so far is adopted and on the queue at the moment the
    handler raises. *)
Theorem handle_message_per_key_raises before item after updates e st :
  feed_wf st ->
  decoded_updates dataref_map decode_value before = Ok updates ->
  decoded_updates dataref_map decode_value [item] = Raise e ->
  Feed.handle_message_per_key dataref_map decode_value
    (before ++ item :: after) st
  = (Raise e,
     after_message st updates
       (first_change (Feed.deref st (Feed.last_known_values st))
          (Feed.deref st (Feed.last_known_values st)) updates)
       (length updates)).
Proof.
  intros Hwf Hbefore Hitem. pose proof Hwf as [Hlast Hheap].
  unfold Feed.handle_message_per_key.
  unfold mbind, Feed.task_bind, Feed.copy_last_known.
  rewrite for_each_app.
  rewrite (for_each_compare_fresh _ _ _ updates);
    cbn [Feed.heap Feed.last_known_values Feed.queue Feed.comparisons];
    try done.
  - cbv zeta. rewrite for_each_cons.
    match goal with
    | |- context [Feed.update_and_compare _ _ ?r item ?s] =>
        destruct (update_raises r item e s Hitem) as [_ ->]
    end.
    unfold after_message. rewrite alter_copy_new.
    by rewrite deref_copy_new, deref_copy_old.
  - lia.
  - rewrite length_app. simpl. lia.
  - rewrite deref_copy_new. by apply deref_wf.
Qed.
End FeedFailureFacts.

(** ** What the feed hands to the decoder *)

Section TextFeedFacts.
Variable dataref_map : dict Z str.
Variable decode_value : str -> pyval -> result pyval.
Hypothesis decode_value_text : forall dataref_name value v,
  decode_value dataref_name value = Ok v -> exists s, v = PStr s.

Lemma dict_set_text_only (d : snapshot) dataref_name s :
  text_only d -> text_only (dict_set d dataref_name (PStr s)).
Proof.
  intros Hd dataref text [[= -> ->]|Hin]%dict_set_elem_of; [by eexists|].
  by eapply Hd.
Qed.

Lemma update_and_compare_texts r item st outcome st' :
  Forall text_only (Feed.heap st) ->
  Feed.update_and_compare dataref_map decode_value r item st = (outcome, st') ->
  Forall text_only (Feed.heap st').
Proof.
  intros Hheap. unfold Feed.update_and_compare, mbind, Feed.task_bind,
    Feed.lift, Feed.store, Feed.same_as_last_known, Feed.adopt,
    Feed.queue_put, mret, Feed.task_ret.
  destruct (int item.1) as [dataref_id|]; [|by intros [= <- <-]].
  destruct (dict_get dataref_map dataref_id) as [dataref_name|];
    [|by intros [= <- <-]].
  destruct (decode_value dataref_name item.2) as [v|] eqn:Hv;
    [|by intros [= <- <-]].
  destruct (decode_value_text _ _ _ Hv) as [s ->].
  assert (Forall text_only
            (alter (fun d => dict_set d dataref_name (PStr s)) r (Feed.heap st)))
    as Hstored.
  { apply Forall_alter; [done|]. intros d _. apply dict_set_text_only. }
  simpl. by destruct (dict_eqb _ _); intros [= <- <-].
Qed.

Lemma handle_message_per_key_texts payload st outcome st' :
  Forall text_only (Feed.heap st) ->
  Feed.handle_message_per_key dataref_map decode_value payload st
  = (outcome, st') ->
  Forall text_only (Feed.heap st').
Proof.
  intros Hheap. unfold Feed.handle_message_per_key.
  unfold mbind, Feed.task_bind, Feed.copy_last_known.
  match goal with
  | |- Feed.for_each _ _ ?s = _ -> _ =>
      assert (Forall text_only (Feed.heap s)) as Hcopy; [|revert Hcopy; generalize s]
  end.
  { simpl. apply Forall_app. split; [done|]. apply Forall_singleton.
    unfold Feed.deref.
    destruct (Feed.heap st !! Feed.last_known_values st) as [d|] eqn:Hd; simpl.
    - by eapply Forall_lookup_1.
    - by intros ? ? ?%elem_of_nil. }
  generalize (length (Feed.heap st)). intros r.
  induction payload as [|item payload IH]; intros s Hs.
  - by intros [= <- <-].
  - rewrite for_each_cons.
    destruct (Feed.update_and_compare _ _ r item s) as [[[]|e] s1] eqn:Hstep.
    + apply IH. by eapply update_and_compare_texts.
    + intros [= <- <-]. by eapply update_and_compare_texts.
Qed.
End TextFeedFacts.

(** X11: every snapshot object of the ToLiss feed holds texts only, also
    when a message ends in an exception, since [process_slew_keys] and the
    decoded base64 payload are both [str]; and on such a snapshot
    [generate_display_json] returns, so the display loop of ToLiss_a3xx.py
    is never ended by the decoder. *)
Theorem toliss_feed_snapshots_decode :
  forall b64decode_text dataref_map payload st outcome st',
    Forall text_only (Feed.heap st) ->
    ToLiss.handle_datarefs b64decode_text dataref_map payload st
    = (outcome, st') ->
    Forall text_only (Feed.heap st')
    ∧ forall r, exists message,
        ToLiss.generate_display_json (Feed.deref st' r) = Ok message.
Proof.
  intros b64decode_text dataref_map payload st outcome st' Hheap Hrun.
  assert (Forall text_only (Feed.heap st')) as Hheap'.
  { revert Hrun. apply handle_message_per_key_texts; [|done].
    intros dataref_name value v. unfold ToLiss.decode_value.
    case_decide; [intros [= <-]; by eexists|].
    destruct value as [s| |]; simpl; try done.
    destruct (b64decode_text s); simpl; [|done]. intros [= <-]. by eexists. }
  split; [done|]. intros r.
  destruct (toliss_decoder_total (Feed.deref st' r)) as [grid Hgrid].
  { unfold Feed.deref.
    destruct (Feed.heap st' !! r) as [d|] eqn:Hd; simpl.
    - by eapply (Forall_lookup_1 text_only).
    - by intros ? ? ?%elem_of_nil. }
  exists (display_json grid).
  unfold ToLiss.generate_display_json, render_json.
  unfold ToLiss.display_data in Hgrid. by rewrite Hgrid.
Qed.

(** ** Frames and snapshots of the display loop *)

Section RelayInvariantFacts.
Context {item wire : Type}.
Variable generate : item -> result wire.
Local Abbreviation step := (Relay.handle_display_update generate).
Implicit Types (st : Relay.state item wire) (evs : list (Relay.event item)).

Lemma step_relay_inv ev st st' :
  step ev st = Some st' -> relay_inv generate st -> relay_inv generate st'.
Proof.
  unfold relay_inv, Relay.handle_display_update, Relay.get.
  destruct ev, (Relay.sender st) as [|pending frame| |] eqn:Hs; try done;
    try (intros [= <-]; simpl; by rewrite ?Hs).
  - destruct (Relay.queue st) as [|values rest]; simpl; [done|].
    destruct (generate values) as [display_json|e] eqn:Hgen;
      intros [= <-]; simpl; intros [Hsent Hsub]; (split; [done|]).
    + split; [done|]. by apply sublist_app.
    + by apply sublist_inserts_r.
  - intros [= <-]. simpl. intros [Hsent [Hgen Hsub]]. split; [|done].
    apply Forall2_app; [done|]. by apply Forall2_cons.
  - intros [= <-]. simpl. intros [Hsent [Hgen Hsub]]. split; [done|].
    etrans; [|exact Hsub]. by apply sublist_inserts_r.
Qed.

Lemma run_relay_inv evs st st' :
  Relay.run step evs st = Some st' ->
  relay_inv generate st -> relay_inv generate st'.
Proof.
  revert st. induction evs as [|ev evs IH]; simpl; intros st.
  - by intros [= <-].
  - destruct (step ev st) as [st1|] eqn:Hstep; simpl; [|done].
    intros Hrun Hst. apply (IH st1); [done|]. by eapply step_relay_inv.
Qed.

(** X12: in every execution of [handle_display_update] (ToLiss_a3xx.py,
    zibo_737_800x.py, flightfactor_75_76.py), whatever the feed puts and
    however often the connection closes, the frames the socket has taken
    are the decodings of the delivered snapshots, one frame each and in
    the same order; these snapshots were taken from the queue in that
    order, and what was taken from the queue was put on it in that
    order. *)
Theorem sent_frames_decode_delivered evs st' :
  Relay.run step evs Relay.initial = Some st' ->
  Forall2 (fun values display_json => generate values = Ok display_json)
    (Relay.delivered st') (Relay.sent st')
  ∧ Relay.delivered st' `sublist_of` Relay.dequeued st'
  ∧ Relay.dequeued st' `prefix_of` Relay.enqueued st'.
Proof.
  intros Hrun.
  assert (relay_inv generate st') as [Hsent Hsub].
  { apply (run_relay_inv _ _ _ Hrun). split; simpl; constructor. }
  split; [done|]. split.
  - destruct (Relay.sender st'); try done.
    destruct Hsub as [_ Hsub]. etrans; [|exact Hsub].
    by apply sublist_inserts_r.
  - exists (Relay.queue st'). by apply (run_fifo generate _ _ _ Hrun).
Qed.

Lemma crashed_stays evs st st' e :
  Relay.sender st = Relay.Crashed e ->
  Relay.run step evs st = Some st' ->
  Relay.sender st' = Relay.Crashed e
  ∧ Relay.sent st' = Relay.sent st
  ∧ Relay.dequeued st' = Relay.dequeued st
  ∧ exists puts, Relay.queue st' = Relay.queue st ++ puts.
Proof.
  revert st. induction evs as [|ev evs IH]; cbn [Relay.run]; intros st Hs.
  - intros [= <-]. repeat split; try done. exists []. by rewrite app_nil_r.
  - destruct (step ev st) as [st1|] eqn:Hstep; [|done].
    unfold Relay.handle_display_update in Hstep. rewrite Hs in Hstep.
    destruct ev; try done. injection Hstep as <-. intros Hrun.
    apply IH in Hrun as (Hs' & Hsent & Hdeq & puts & Hq); [|done].
    repeat split; try done. exists (values :: puts).
    rewrite Hq. simpl. by rewrite <- app_assoc.
Qed.

(** X13: [handle_display_update] calls the decoder outside its [try], so
    when the loop waits and the decoder raises on the snapshot at the
    head of the queue, taking that snapshot ends the loop with the
    decoder's exception: the snapshot is gone from the queue, and
    whatever happens next no frame is sent and nothing more is taken
    from the queue, which only grows by what the feed puts. *)
Theorem crashed_loop_sends_nothing evs st st' values rest e :
  Relay.sender st = Relay.Waiting ->
  Relay.queue st = values :: rest ->
  generate values = Raise e ->
  Relay.run step (Relay.Get :: evs) st = Some st' ->
  Relay.sender st' = Relay.Crashed e
  ∧ Relay.sent st' = Relay.sent st
  ∧ Relay.dequeued st' = Relay.dequeued st ++ [values]
  ∧ exists puts, Relay.queue st' = rest ++ puts.
Proof.
  intros Hs Hq Hgen. cbn [Relay.run].
  destruct (step Relay.Get st) as [st1|] eqn:Hstep; [|done].
  unfold Relay.handle_display_update, Relay.get in Hstep.
  rewrite Hs, Hq in Hstep. simpl in Hstep. rewrite Hgen in Hstep.
  injection Hstep as <-. intros Hrun.
  by apply crashed_stays with (e := e) in Hrun.
Qed.
End RelayInvariantFacts.

(** ** The X-Crafts loop and the first FlightFactor message *)

(** X14: in every execution of [handle_device_update] of xcrafts_ejets.py
    no frame is sent and no snapshot is delivered, and nothing that was
    taken from the queue is put back: the queue's history grows by what
    the feed puts, and by nothing else. *)
Theorem xcrafts_never_sends (device : XCrafts.CduDevice)
    (evs : list (Relay.event snapshot))
    (st st' : Relay.state snapshot (option display_message)) :
  Relay.run (XCrafts.handle_device_update device) evs st = Some st' ->
  Relay.sent st' = Relay.sent st
  ∧ Relay.delivered st' = Relay.delivered st
  ∧ Relay.enqueued st'
    = Relay.enqueued st
      ++ omap (fun ev => match ev with
                         | Relay.Put values => Some values
                         | _ => None
                         end) evs.
Proof.
  revert st. induction evs as [|ev evs IH]; cbn [Relay.run]; intros st.
  - intros [= <-]. by rewrite app_nil_r.
  - destruct (XCrafts.handle_device_update device ev st) as [st1|] eqn:Hstep;
      [|done].
    intros (Hsent & Hdel & Henq)%IH. rewrite Hsent, Hdel, Henq. clear IH.
    unfold XCrafts.handle_device_update, Relay.handle_device_update,
      Relay.get in Hstep.
    destruct ev, (Relay.sender st) eqn:Hs; try done;
      try (injection Hstep as <-; simpl; by rewrite <- ?app_assoc).
    + destruct (Relay.queue st); [done|]. injection Hstep as <-. done.
    + destruct (XCrafts.generate_display_json device values);
        by injection Hstep as <-.
Qed.

Lemma dict_set_length_pos {K V : Type} `{EqDecision K} (d : dict K V) k v :
  0 < length (dict_set d k v) ∧ length d <= length (dict_set d k v).
Proof.
  induction d as [|[k' v'] d IH]; simpl; [lia|].
  case_decide; simpl; lia.
Qed.

Lemma overlay_length_pos updates (d : snapshot) :
  updates ≠ [] -> 0 < length (overlay updates d).
Proof.
  intros Hne.
  assert (forall us (d' : snapshot), length d' <= length (overlay us d'))
    as Hmono.
  { induction us as [|[n v] us IH]; intros d'; [done|].
    unfold overlay in *. simpl. etrans; [|apply IH].
    apply dict_set_length_pos. }
  destruct updates as [|[n v] us]; [done|]. unfold overlay. simpl.
  eapply Nat.lt_le_trans; [|apply Hmono]. apply dict_set_length_pos.
Qed.

Lemma last_update_None updates n :
  n ∉ updates.*1 -> last_update updates n = None.
Proof.
  induction updates as [|[n' v'] us IH]; [done|]. simpl.
  intros [Hn Hus]%not_elem_of_cons. rewrite IH by done.
  by rewrite decide_False.
Qed.

(** X15: the FlightFactor feed starts from an empty snapshot, so a first
    message that carries an update but not all three of the symbols, size
    and color datarefs puts a snapshot on the queue on which
    [generate_display_json] raises KeyError. *)
Theorem flightfactor_partial_first_message :
  forall b64decode_text dataref_map payload updates,
    decoded_updates dataref_map (FlightFactor.decode_value b64decode_text)
      payload = Ok updates ->
    updates ≠ [] ->
    FlightFactor.SYMBOLS ∉ updates.*1
      ∨ FlightFactor.SYMBOLS_SIZE ∉ updates.*1
      ∨ FlightFactor.SYMBOLS_COLOR ∉ updates.*1 ->
    exists st',
      FlightFactor.handle_datarefs b64decode_text dataref_map payload
        Feed.initial = (Ok (), st')
      ∧ Feed.queue st' = [1]
      ∧ FlightFactor.generate_display_json (Feed.deref st' 1) = Raise KeyError.
Proof.
  intros b64decode_text dataref_map payload updates Hupdates Hne Hmissing.
  assert (feed_wf Feed.initial) as Hwf.
  { split; [simpl; lia|]. apply Forall_singleton. apply NoDup_nil_2. }
  eexists. split.
  { unfold FlightFactor.handle_datarefs.
    by apply handle_message_once_spec. }
  change (Feed.deref Feed.initial (Feed.last_known_values Feed.initial))
    with ([] : snapshot).
  assert (dict_eqb (overlay updates []) ([] : snapshot) = false) as ->.
  { unfold dict_eqb. rewrite bool_decide_eq_false_2; [done|].
    pose proof (overlay_length_pos updates [] Hne). simpl. lia. }
  split; [done|].
  rewrite (after_message_deref_new Feed.initial).
  change (Feed.deref Feed.initial (Feed.last_known_values Feed.initial))
    with ([] : snapshot).
  unfold FlightFactor.generate_display_json, FlightFactor.display_data,
    FlightFactor.process_display_datarefs, dict_getitem.
  rewrite !overlay_get.
  destruct Hmissing as [H|[H|H]]; rewrite (last_update_None _ _ H);
    repeat match goal with
           | |- context [last_update updates ?n] =>
               destruct (last_update updates n)
           end; done.
Qed.

(** ** Where the X-Crafts decoder writes *)

Lemma setitem_mod {A : Type} (l l' : list A) (i : Z) (x : A) :
  setitem l i x = Ok l' ->
  (- Z.of_nat (length l) <= i < Z.of_nat (length l))%Z
  ∧ l' = <[Z.to_nat (i `mod` Z.of_nat (length l)) := x]> l.
Proof.
  unfold setitem. case_decide as Hin.
  - intros [= <-]. split; [lia|]. by rewrite Z.mod_small.
  - case_decide as Hneg; [|done]. intros [= <-]. split; [lia|].
    do 2 f_equal.
    rewrite <- (Z.mod_small (Z.of_nat (length l) + i) (Z.of_nat (length l)))
      by lia.
    rewrite <- (Z.mod_add i 1 (Z.of_nat (length l))) by lia.
    f_equal. lia.
Qed.

Lemma xcrafts_write_text_from index p i text d d' :
  length d = 336 ->
  XCrafts.write_text index p i text d = Ok d' ->
  (forall k c,
     i + k < 24 -> text !! k = Some c -> c ≠ chr " " ->
     d' !! Z.to_nat ((index + Z.of_nat (i + k) - 1) `mod` 336)
     = Some (Cell c (XCrafts.get_color (XCrafts.color p))
               (PInt (XCrafts.size p))))
  ∧ (forall j,
       (forall k c,
          i + k < 24 -> text !! k = Some c -> c ≠ chr " " ->
          j ≠ Z.to_nat ((index + Z.of_nat (i + k) - 1) `mod` 336)) ->
       d' !! j = d !! j).
Proof.
  revert i d. induction text as [|c0 text IH]; intros i d Hlen; simpl.
  - intros [= <-]. split; [by intros k c _ ?|done].
  - destruct (decide (23 < i)) as [Hcut|Hcut].
    { intros [= <-]. split; [intros; lia|done]. }
    destruct (decide (c0 = chr " ")) as [->|Hsp].
    + intros [Hw Hk]%IH; [|done]. split.
      * intros [|k] c Hik Hc Hne; [by injection Hc as <-|].
        replace (i + S k) with (S i + k) by lia. by apply Hw; [lia|..].
      * intros j Hj. apply Hk. intros k c Hik Hc Hne.
        replace (S i + k) with (i + S k) by lia. by apply (Hj (S k) c); [lia|..].
    + intros (d1 & [Hrange ->]%setitem_mod & Hrun)%bind_Ok.
      rewrite Hlen in *. change (Z.of_nat 336) with 336%Z in *.
      apply IH in Hrun as [Hw Hk]; [|by rewrite length_insert].
      split.
      * intros [|k] c Hik Hc Hne.
        -- injection Hc as <-. rewrite Hk.
           ++ rewrite Nat.add_0_r. apply list_lookup_insert_eq.
              rewrite Hlen. pose proof (Z.mod_pos_bound
                (index + Z.of_nat i - 1) 336). lia.
           ++ intros k c' Hik' _ _. rewrite Nat.add_0_r.
              assert ((index + Z.of_nat i - 1) `mod` 336
                      ≠ (index + Z.of_nat (S i + k) - 1) `mod` 336)%Z;
                [|pose proof (Z.mod_pos_bound (index + Z.of_nat i - 1) 336);
                  pose proof (Z.mod_pos_bound
                                (index + Z.of_nat (S i + k) - 1) 336); lia].
              Z.to_euclidean_division_equations. lia.
        -- replace (i + S k) with (S i + k) by lia. by apply Hw; [lia|..].
      * intros j Hj. rewrite Hk.
        -- apply list_lookup_insert_ne. intros <-.
           apply (Hj 0 c0); [lia|done|done|]. by rewrite Nat.add_0_r.
        -- intros k c Hik Hc Hne.
           replace (S i + k) with (i + S k) by lia.
           by apply (Hj (S k) c); [lia|..].
Qed.

(** X16: [translate_values] of xcrafts_ejets.py stores character [k] of a
    text, for [k] below 24 and the character not a space, at
    [index + k - 1], which Python counts from the end of the grid when it
    is negative; every cell that is not such a position keeps what it
    held, so spaces and the characters from the 25th on write nothing. *)
Theorem xcrafts_write_text_cells index p text d d' :
  length d = 336 ->
  XCrafts.write_text index p 0 text d = Ok d' ->
  (forall k c,
     k < 24 -> text !! k = Some c -> c ≠ chr " " ->
     d' !! Z.to_nat ((index + Z.of_nat k - 1) `mod` 336)
     = Some (Cell c (XCrafts.get_color (XCrafts.color p))
               (PInt (XCrafts.size p))))
  ∧ (forall j,
       (forall k c,
          k < 24 -> text !! k = Some c -> c ≠ chr " " ->
          j ≠ Z.to_nat ((index + Z.of_nat k - 1) `mod` 336)) ->
       d' !! j = d !! j).
Proof.
  intros Hlen Hrun.
  by apply (xcrafts_write_text_from index p 0 text d d' Hlen) in Hrun.
Qed.

(** ** What a populated cell can hold *)

Lemma toliss_line_char_mapped dataref c character color size :
  c ≠ chr " " ->
  ToLiss.line_char dataref c = Ok (Cell character color size) ->
  (character ∉ [chr " "; chr "`"; chr "|"])
  ∧ size ∈ [PInt 0; PInt 1]
  ∧ length color = 1.
Proof.
  intros Hc. unfold ToLiss.line_char.
  intros (ch & Hch & (col & Hcol & [= <- <- <-])%bind_Ok)%bind_Ok.
  split; [|split].
  - unfold ToLiss.get_char in Hch.
    apply bind_Ok in Hch as (suffix & _ & Hch).
    destruct (bool_decide (suffix = chr "s")); injection Hch as <-;
      unfold dict_get_default, ToLiss.SYMBOL_MAP, ToLiss.CONTENT_MAP;
      simpl; repeat case_decide;
      rewrite !elem_of_cons, elem_of_nil; intros [E|[E|[E|[]]]];
      try (vm_compute in E; discriminate E); congruence.
  - unfold ToLiss.get_size.
    destruct (_ || _); [right; left|left].
  - unfold ToLiss.get_color in Hcol.
    apply bind_Ok in Hcol as (suffix & _ & Hcol).
    destruct (_ || _); [by injection Hcol as <-|].
    destruct (bool_decide _); by injection Hcol as <-.
Qed.

Lemma zibo_line_char_mapped dataref c character color size :
  c ≠ chr " " ->
  Zibo.line_char dataref c = Ok (Cell character color size) ->
  (character ∉ [chr " "; chr "`"; chr "*"])
  ∧ size ∈ [PInt 0; PInt 1]
  ∧ color ∈ [lit "w"; lit "g"; lit "c"; lit "e"; lit "m"].
Proof.
  intros Hc. unfold Zibo.line_char.
  intros (col & Hcol & [= <- <- <-])%bind_Ok.
  split; [|split].
  - unfold dict_get_default, Zibo.CHARACTER_MAPPING. simpl.
    repeat case_decide;
      rewrite !elem_of_cons, elem_of_nil; intros [E|[E|[E|[]]]];
      try (vm_compute in E; discriminate E); congruence.
  - unfold Zibo.get_size.
    destruct (_ || _); [right; left|left].
  - unfold Zibo.get_color in Hcol.
    apply bind_Ok in Hcol as (ending & _ & [= <-]).
    destruct (negb _); [left|].
    unfold dict_get_default, Zibo.COLOR_MAPPING. simpl.
    repeat case_decide; rewrite !elem_of_cons; auto 10.
Qed.

(** X17: a populated cell of the ToLiss or Zibo grid never holds a space
    or one of the characters its decoder replaces (the backquote and the
    bar in ToLiss_a3xx.py, the backquote and the asterisk in
    zibo_737_800x.py), and its size is 0 or 1; a ToLiss color is a single
    character and a Zibo color is one of w, g, c, e, m. *)
Theorem populated_cells_are_mapped :
  forall values grid index character color size,
    grid !! index = Some (Cell character color size) ->
    (ToLiss.display_data values = Ok grid ->
     (character ∉ [chr " "; chr "`"; chr "|"])
     ∧ size ∈ [PInt 0; PInt 1]
     ∧ length color = 1)
    ∧ (Zibo.display_data values = Ok grid ->
       (character ∉ [chr " "; chr "`"; chr "*"])
       ∧ size ∈ [PInt 0; PInt 1]
       ∧ color ∈ [lit "w"; lit "g"; lit "c"; lit "e"; lit "m"]).
Proof.
  intros values grid index character color size Hcell.
  assert (Cell character color size ≠ EmptyCell) as Hne by discriminate.
  split; intros Hgrid.
  - pose proof (render_display_placed ToLiss.line_number
                  ToLiss.group_datarefs_by_line ToLiss.has_target_suffix
                  ToLiss.line_char toliss_grouped_from values grid Hgrid)
      as [_ Hplaced].
    destruct (Hplaced index _ Hcell Hne)
      as (row & col & dataref & text & c & _ & _ & _ & _ & _ & _ & Hc & Hline).
    exact (toliss_line_char_mapped _ _ _ _ _ Hc Hline).
  - pose proof (render_display_placed Zibo.line_number
                  Zibo.group_datarefs_by_line Zibo.has_target_suffix
                  Zibo.line_char zibo_grouped_from values grid Hgrid)
      as [_ Hplaced].
    destruct (Hplaced index _ Hcell Hne)
      as (row & col & dataref & text & c & _ & _ & _ & _ & _ & _ & Hc & Hline).
    exact (zibo_line_char_mapped _ _ _ _ _ Hc Hline).
Qed.

(** ** The slew keys of the ToLiss feed *)

(** X18: [process_slew_keys] of ToLiss_a3xx.py gives a text of 24
    characters for every integer, text or null value: columns 0 to 21 are
    spaces, so the arrows sit in the last two columns, and the whole text
    is blank, which [process_cdu_line] then skips, exactly when the value
    is not 1, 2 or 3. *)
Theorem process_slew_keys_shape (value : pyval) :
  length (ToLiss.process_slew_keys value) = 24
  ∧ (forall col, col < 22 ->
       ToLiss.process_slew_keys value !! col = Some (chr " "))
  ∧ (isspace (ToLiss.process_slew_keys value) = true
     <-> value ∉ [PInt 1; PInt 2; PInt 3]).
Proof.
  assert (forall col, col < 22 ->
            replicate 22 (chr " ") !! col = Some (chr " ")) as Hpad22.
  { intros col Hcol. by apply lookup_replicate_2. }
  assert (forall col (s : str), col < 22 ->
            (replicate 22 (chr " ") ++ s) !! col = Some (chr " ")) as Hpad.
  { intros col s Hcol. rewrite lookup_app_l by (rewrite length_replicate; lia).
    by apply Hpad22. }
  assert (forall (v : pyval),
            ToLiss.process_slew_keys v = replicate 24 (chr " ") ->
            v ∉ [PInt 1; PInt 2; PInt 3] ->
            length (ToLiss.process_slew_keys v) = 24
            ∧ (forall col, col < 22 ->
                 ToLiss.process_slew_keys v !! col = Some (chr " "))
            ∧ (isspace (ToLiss.process_slew_keys v) = true
               <-> v ∉ [PInt 1; PInt 2; PInt 3])) as Hblank.
  { intros v -> Hv. split; [done|]. split; [|done].
    intros col Hcol. apply lookup_replicate_2. lia. }
  assert (forall (v : pyval) (s : str),
            ToLiss.process_slew_keys v = replicate 22 (chr " ") ++ s ->
            length s = 2 -> isspace (replicate 22 (chr " ") ++ s) = false ->
            v ∈ [PInt 1; PInt 2; PInt 3] ->
            length (ToLiss.process_slew_keys v) = 24
            ∧ (forall col, col < 22 ->
                 ToLiss.process_slew_keys v !! col = Some (chr " "))
            ∧ (isspace (ToLiss.process_slew_keys v) = true
               <-> v ∉ [PInt 1; PInt 2; PInt 3])) as Harrows.
  { intros v s -> Hs Hsp Hv. rewrite Hsp.
    split; [rewrite length_app, length_replicate; lia|].
    split; [intros col Hcol; by apply Hpad|]. by split. }
  assert (forall z : Z, z ≠ 1%Z -> z ≠ 2%Z -> z ≠ 3%Z ->
            PInt z ∉ [PInt 1; PInt 2; PInt 3]) as Hother.
  { intros z H1 H2 H3. rewrite !elem_of_cons, elem_of_nil.
    intros [[= ->]|[[= ->]|[[= ->]|[]]]]; done. }
  destruct value as [s|z|].
  - apply Hblank; [done|].
    rewrite !elem_of_cons, elem_of_nil. intros [|[|[|[]]]]; discriminate.
  - destruct (decide (z = 1%Z)) as [->|H1].
    { apply (Harrows _ [ToLiss.UP_ARROW; ToLiss.DOWN_ARROW]); try done.
      left. }
    destruct (decide (z = 2%Z)) as [->|H2].
    { apply (Harrows _ [ToLiss.UP_ARROW; chr " "]); try done.
      right; left. }
    destruct (decide (z = 3%Z)) as [->|H3].
    { apply (Harrows _ [chr " "; ToLiss.DOWN_ARROW]); try done.
      right; right; left. }
    apply Hblank; [|by apply Hother].
    destruct z as [|p|p]; try done.
    destruct p as [[p|p|]|[p|p|]|]; try done.
  - apply Hblank; [done|].
    rewrite !elem_of_cons, elem_of_nil. intros [|[|[|[]]]]; discriminate.
Qed.

(** ** Values the decoders stop at *)

Lemma xcrafts_translate_loop_stops before value after display_data :
  value = PNone ∨ (exists s, value = PStr s ∧ strip s = []) ->
  XCrafts.translate_loop (before ++ value :: after) display_data
  = XCrafts.translate_loop before display_data.
Proof.
  intros Hvalue. revert display_data.
  induction before as [|v before IH]; intros d; simpl.
  - destruct Hvalue as [->|(s & -> & Hs)]; [done|].
    by rewrite decide_True.
  - destruct v as [s| |]; try done.
    case_decide; [done|].
    destruct (XCrafts.parse_value s) as [p|e]; simpl; [|done].
    case_decide; [apply IH|].
    destruct (XCrafts.write_text _ p 0 (XCrafts.text p) d); simpl; [apply IH|done].
Qed.

(** X19: in xcrafts_ejets.py a value that is None or blank ends the loop
    of [translate_values] with [break]: the grid, or the exception, is
    that of the datarefs before it, and no dataref after it is looked
    at. *)
Theorem xcrafts_decoding_stops_at_blank :
  forall (before after : snapshot) (name : str) (value : pyval),
    value = PNone ∨ (exists s, value = PStr s ∧ strip s = []) ->
    XCrafts.translate_values (before ++ (name, value) :: after)
    = XCrafts.translate_values before.
Proof.
  intros before after name value Hvalue. unfold XCrafts.translate_values.
  rewrite fmap_app, fmap_cons. simpl.
  by apply xcrafts_translate_loop_stops.
Qed.

Lemma int_raises s e : int s = Raise e -> e = ValueError.
Proof.
  unfold int. destruct (int_strip s) as [|c rest]; [by intros [= <-]|].
  repeat case_decide;
    match goal with
    | |- of_option _ ?o = _ -> _ => destruct o; simpl; [done|by intros [= <-]]
    end.
Qed.

(** X20: a value of xcrafts_ejets.py that is not blank and has fewer
    than six characters has no complete prefix: [generate_display_json]
    raises ValueError or IndexError on a snapshot that starts with it,
    and the [try] of [handle_device_update] catches neither. *)
Theorem xcrafts_short_value_raises :
  forall device name value (rest : snapshot),
    strip value ≠ [] ->
    length value < 6 ->
    exists e,
      XCrafts.generate_display_json device ((name, PStr value) :: rest)
      = Raise e
      ∧ (e = ValueError ∨ e = IndexError).
Proof.
  intros device name value rest Hblank Hshort.
  assert (exists e, XCrafts.parse_value value = Raise e
                    ∧ (e = ValueError ∨ e = IndexError)) as (e & Hparse & He).
  { unfold XCrafts.parse_value.
    destruct (int (slice 0 2 value)) as [r|e] eqn:Hr; simpl;
      [|exists e; split; [done|left; by eapply int_raises]].
    destruct (int (slice 2 4 value)) as [c|e] eqn:Hc; simpl;
      [|exists e; split; [done|left; by eapply int_raises]].
    unfold getitem, str, char in *.
    destruct (value !! 4) as [s4|] eqn:H4; simpl;
      [|exists IndexError; split; [done|by right]].
    destruct (int [s4]) as [sz|e] eqn:Hs; simpl;
      [|exists e; split; [done|left; by eapply int_raises]].
    rewrite (lookup_ge_None_2 value 5) by lia.
    exists IndexError. split; [done|by right]. }
  exists e. split; [|done].
  unfold XCrafts.generate_display_json, XCrafts.translate_values. simpl.
  rewrite decide_False by done. by rewrite Hparse.
Qed.

Lemma fold_left_app_skip {A B : Type} (f : B -> A -> B) l1 x l2 b :
  (forall acc, f acc x = acc) ->
  fold_left f (l1 ++ x :: l2) b = fold_left f (l1 ++ l2) b.
Proof. intros Hx. rewrite !fold_left_app. simpl. by rewrite Hx. Qed.

(** X21: a dataref whose line number cannot be computed is ignored by
    ToLiss_a3xx.py, where the grouping swallows the exception: the message
    is the one of the snapshot without it.  In zibo_737_800x.py, where
    nothing is caught, [get_display_json] raises that exception when the
    datarefs before it have line numbers. *)
Theorem unnumbered_dataref_skipped_or_raised :
  forall (before after : snapshot) (dataref : str) (value : pyval) (e : exn),
    (ToLiss.line_number dataref = Raise e ->
     ToLiss.generate_display_json (before ++ (dataref, value) :: after)
     = ToLiss.generate_display_json (before ++ after))
    ∧ (Zibo.line_number dataref = Raise e ->
       (forall name v, (name, v) ∈ before ->
                       exists n, Zibo.line_number name = Ok n) ->
       Zibo.get_display_json (before ++ (dataref, value) :: after) = Raise e).
Proof.
  intros before after dataref value e. split.
  - intros Hn.
    assert (ToLiss.group_datarefs_by_line (before ++ (dataref, value) :: after)
            = ToLiss.group_datarefs_by_line (before ++ after)) as Hgroup.
    { unfold ToLiss.group_datarefs_by_line. f_equal.
      apply fold_left_app_skip. intros acc. by rewrite Hn. }
    unfold ToLiss.generate_display_json, render_json, render_display.
    by rewrite Hgroup.
  - intros Hn Hbefore.
    assert (Zibo.group_datarefs_by_line (before ++ (dataref, value) :: after)
            = Raise e) as Hgroup.
    { unfold Zibo.group_datarefs_by_line. rewrite foldM_app.
      edestruct (foldM_total
                   (fun grouped_datarefs '(dataref, value) =>
                      line_num ← Zibo.line_number dataref;
                      Ok (add_to_line grouped_datarefs line_num dataref value))
                   before []) as [grouped ->].
      { intros acc [name v] Hin. destruct (Hbefore _ _ Hin) as [n ->].
        by eexists. }
      rewrite bind_Ok_l. simpl. by rewrite Hn. }
    unfold Zibo.get_display_json, render_json, render_display.
    by rewrite Hgroup.
Qed.

(** * Worked instances of the further properties *)

Lemma render_dataref_keeps_witness :
  exists line_chars',
    render_dataref ToLiss.has_target_suffix ToLiss.line_char 0
      (replicate CDU_COLUMNS EmptyCell)
      (lit "AirbusFBW/MCDU1titlew", PStr (lit "A B")) = Ok line_chars'
    ∧ line_chars' !! 1 = Some EmptyCell.
Proof.
  destruct (render_dataref ToLiss.has_target_suffix ToLiss.line_char 0
              (replicate CDU_COLUMNS EmptyCell)
              (lit "AirbusFBW/MCDU1titlew", PStr (lit "A B")))
    as [line_chars'|e] eqn:Hrun; [|vm_compute in Hrun; discriminate Hrun].
  exists line_chars'. split; [reflexivity|].
  rewrite (render_dataref_keeps _ _ _ _ _ _ _ 1 Hrun); [reflexivity|].
  right; left. reflexivity.
Defined.


Lemma labels_and_contents_apart_witness :
  exists dataref text c,
    (dataref, PStr text) ∈ label_line
    ∧ ToLiss.line_number dataref = Ok (Z.of_nat (line_of_row 1))
    ∧ ToLiss.has_target_suffix 2 dataref = true
    ∧ text !! 0 = Some c ∧ c ≠ chr " "
    ∧ ToLiss.line_char dataref c
      = Ok (Cell (chr "A") (lit "w") (PInt 1)).
Proof.
  destruct (ToLiss.display_data label_line) as [grid|e] eqn:Hgrid;
    [|vm_compute in Hgrid; discriminate Hgrid].
  assert (grid !! (1 * 24 + 0) = Some (Cell (chr "A") (lit "w") (PInt 1)))
    as Hentry.
  { vm_compute in Hgrid. injection Hgrid as <-. reflexivity. }
  destruct (labels_and_contents_apart label_line grid 1 0
              (Cell (chr "A") (lit "w") (PInt 1))) as [Htoliss _];
    [lia|lia|exact Hentry|discriminate|].
  exact (Htoliss Hgrid).
Defined.

Lemma grouping_keeps_items_witness :
  exists grouped,
    ToLiss.group_datarefs_by_line fuel_pred = Ok grouped
    ∧ dict_get (dict_get_default grouped 0%Z [])
        (lit "AirbusFBW/MCDU1title1")
      = Some (PStr (lit "FUEL PRED ")).
Proof.
  destruct (ToLiss.group_datarefs_by_line fuel_pred) as [grouped|e] eqn:Hgroup;
    [|vm_compute in Hgroup; discriminate Hgroup].
  exists grouped. split; [reflexivity|].
  destruct (grouping_keeps_items fuel_pred grouped 0%Z
              (lit "AirbusFBW/MCDU1title1")) as [Htoliss _].
  { apply NoDup_singleton. }
  rewrite (Htoliss Hgroup). reflexivity.
Defined.

Lemma toliss_generate_display_json_returns_witness :
  exists message,
    ToLiss.generate_display_json fuel_pred = Ok message
    ∧ Target message = lit "Display"
    ∧ length (Data message) = 336.
Proof.
  apply (toliss_generate_display_json_returns fuel_pred).
  intros dataref text Hin. apply list_elem_of_singleton in Hin.
  injection Hin as _ ->. eexists. reflexivity.
Defined.

Lemma zibo_get_display_json_returns_witness :
  exists message,
    Zibo.get_display_json zibo_title = Ok message
    ∧ Target message = lit "Display"
    ∧ length (Data message) = 336.
Proof.
  apply (zibo_get_display_json_returns zibo_title).
  intros dataref text Hin. apply list_elem_of_singleton in Hin.
  injection Hin as -> ->. split; [eexists; reflexivity|].
  split; [eexists; vm_compute; reflexivity|].
  apply (bool_decide_unpack _). vm_compute. exact I.
Defined.

Lemma flightfactor_grid_closed_form_witness :
  FlightFactor.generate_display_json flightfactor_page
  = Ok (display_json
          (flightfactor_cell
             <$> take 336
                   (FlightFactor.zip3 (replicate 336 (chr "A"))
                      (replicate 336 (chr "1")) (replicate 336 (chr "g"))))).
Proof.
  apply (flightfactor_grid_closed_form flightfactor_page);
    try reflexivity; rewrite length_replicate; lia.
Defined.

Lemma flightfactor_short_text_raises_witness :
  FlightFactor.generate_display_json flightfactor_short = Raise IndexError.
Proof.
  apply (flightfactor_short_text_raises flightfactor_short
           (lit "A") (lit "1") (lit "g")); try reflexivity.
  left. vm_compute. lia.
Defined.

Lemma feed_initial_wf : feed_wf Feed.initial.
Proof. split; [simpl; lia|]. apply Forall_singleton. apply NoDup_nil_2. Qed.

Lemma handle_message_once_raises_witness :
  exists st',
    FlightFactor.handle_datarefs b64decode_sample catalog msg_bad_key
      Feed.initial = (Raise ValueError, st')
    ∧ Feed.queue st' = []
    ∧ Feed.last_known_values st' = 0.
Proof.
  eexists. split.
  - apply (handle_message_once_raises catalog
             (FlightFactor.decode_value b64decode_sample)
             [(lit "1", PStr (lit "QQ=="))] (lit "x", PStr (lit "Qg==")) []
             [(lit "AirbusFBW/MCDU1cont1w", PStr (lit "A"))] ValueError
             Feed.initial feed_initial_wf); vm_compute; reflexivity.
  - split; reflexivity.
Defined.

Lemma handle_message_per_key_raises_witness :
  exists st',
    ToLiss.handle_datarefs b64decode_sample catalog msg_bad_key
      Feed.initial = (Raise ValueError, st')
    ∧ Feed.queue st' = [1]
    ∧ Feed.last_known_values st' = 1.
Proof.
  eexists. split.
  - apply (handle_message_per_key_raises catalog
             (ToLiss.decode_value b64decode_sample)
             [(lit "1", PStr (lit "QQ=="))] (lit "x", PStr (lit "Qg==")) []
             [(lit "AirbusFBW/MCDU1cont1w", PStr (lit "A"))] ValueError
             Feed.initial feed_initial_wf); vm_compute; reflexivity.
  - split; vm_compute; reflexivity.
Defined.

Lemma toliss_feed_snapshots_decode_witness :
  exists outcome st' message,
    ToLiss.handle_datarefs b64decode_sample catalog msg Feed.initial
    = (outcome, st')
    ∧ ToLiss.generate_display_json (Feed.deref st' 1) = Ok message.
Proof.
  destruct (ToLiss.handle_datarefs b64decode_sample catalog msg Feed.initial)
    as [outcome st'] eqn:Hrun.
  destruct (toliss_feed_snapshots_decode b64decode_sample catalog msg
              Feed.initial outcome st') as [_ Hdecode].
  - apply Forall_singleton. intros dataref text Hin.
    apply elem_of_nil in Hin. destruct Hin.
  - exact Hrun.
  - destruct (Hdecode 1) as [message Hmessage].
    exists outcome, st', message. split; [reflexivity|exact Hmessage].
Defined.

Lemma sent_frames_decode_delivered_witness :
  exists st',
    Relay.run ToLiss.handle_display_update
      [Relay.Put fuel_pred; Relay.Get; Relay.SendOk] Relay.initial = Some st'
    ∧ Forall2
        (fun values display_json =>
           ToLiss.generate_display_json values = Ok display_json)
        (Relay.delivered st') (Relay.sent st')
    ∧ Relay.delivered st' `sublist_of` Relay.dequeued st'
    ∧ Relay.dequeued st' `prefix_of` Relay.enqueued st'.
Proof.
  destruct (Relay.run ToLiss.handle_display_update
              [Relay.Put fuel_pred; Relay.Get; Relay.SendOk] Relay.initial)
    as [st'|] eqn:Hrun; [|vm_compute in Hrun; discriminate Hrun].
  exists st'. split; [reflexivity|].
  exact (sent_frames_decode_delivered ToLiss.generate_display_json _ _ Hrun).
Defined.

Lemma crashed_loop_sends_nothing_witness :
  exists st',
    Relay.run FlightFactor.handle_display_update
      [Relay.Put flightfactor_short; Relay.Get; Relay.Put flightfactor_page]
      Relay.initial = Some st'
    ∧ Relay.sender st' = Relay.Crashed IndexError
    ∧ Relay.sent st' = []
    ∧ Relay.dequeued st' = [flightfactor_short]
    ∧ Relay.queue st' = [flightfactor_page].
Proof.
  destruct (Relay.run FlightFactor.handle_display_update
              [Relay.Get; Relay.Put flightfactor_page]
              (Relay.put flightfactor_short Relay.initial))
    as [st'|] eqn:Hrun; [|vm_compute in Hrun; discriminate Hrun].
  exists st'. split; [exact Hrun|].
  destruct (crashed_loop_sends_nothing FlightFactor.generate_display_json
              [Relay.Put flightfactor_page]
              (Relay.put flightfactor_short Relay.initial) st'
              flightfactor_short [] IndexError)
    as (Hsender & Hsent & Hdequeued & puts & Hqueue).
  - reflexivity.
  - reflexivity.
  - vm_compute. reflexivity.
  - exact Hrun.
  - split; [exact Hsender|]. split; [exact Hsent|].
    split; [exact Hdequeued|].
    vm_compute in Hrun. injection Hrun as <-. reflexivity.
Defined.

Lemma xcrafts_never_sends_witness :
  exists st',
    Relay.run (XCrafts.handle_device_update XCrafts.Captain)
      [Relay.Put rte; Relay.Get; Relay.Wake] Relay.initial = Some st'
    ∧ Relay.sent st' = []
    ∧ Relay.delivered st' = []
    ∧ Relay.enqueued st' = [rte].
Proof.
  destruct (Relay.run (XCrafts.handle_device_update XCrafts.Captain)
              [Relay.Put rte; Relay.Get; Relay.Wake] Relay.initial)
    as [st'|] eqn:Hrun; [|vm_compute in Hrun; discriminate Hrun].
  exists st'. split; [reflexivity|].
  exact (xcrafts_never_sends XCrafts.Captain _ _ _ Hrun).
Defined.

Lemma flightfactor_partial_first_message_witness :
  exists st',
    FlightFactor.handle_datarefs b64decode_sample flightfactor_catalog
      [(lit "1", PStr (lit "QQ=="))] Feed.initial = (Ok (), st')
    ∧ Feed.queue st' = [1]
    ∧ FlightFactor.generate_display_json (Feed.deref st' 1) = Raise KeyError.
Proof.
  apply (flightfactor_partial_first_message b64decode_sample
           flightfactor_catalog [(lit "1", PStr (lit "QQ=="))]
           [(FlightFactor.SYMBOLS, PStr (lit "A"))]).
  - vm_compute. reflexivity.
  - discriminate.
  - right; left. intros Hin. apply list_elem_of_singleton in Hin.
    vm_compute in Hin. discriminate Hin.
Defined.

Lemma xcrafts_write_text_cells_witness :
  exists d',
    XCrafts.write_text 0 origin_a 0 (lit "A") empty_display = Ok d'
    ∧ d' !! 335
      = Some (Cell (chr "A") (XCrafts.get_color 0) (PInt 1)).
Proof.
  destruct (XCrafts.write_text 0 origin_a 0 (lit "A") empty_display)
    as [d'|e] eqn:Hrun; [|vm_compute in Hrun; discriminate Hrun].
  exists d'. split; [reflexivity|].
  destruct (xcrafts_write_text_cells 0 origin_a (lit "A") empty_display d')
    as [Hwritten _].
  - reflexivity.
  - exact Hrun.
  - apply (Hwritten 0 (chr "A")); [lia|reflexivity|discriminate].
Defined.

Lemma populated_cells_are_mapped_witness :
  exists grid character color size,
    ToLiss.display_data fuel_pred = Ok grid
    ∧ grid !! 0 = Some (Cell character color size)
    ∧ (character ∉ [chr " "; chr "`"; chr "|"])
    ∧ size ∈ [PInt 0; PInt 1]
    ∧ length color = 1.
Proof.
  destruct (ToLiss.display_data fuel_pred) as [grid|e] eqn:Hgrid;
    [|vm_compute in Hgrid; discriminate Hgrid].
  assert (exists character color size,
            grid !! 0 = Some (Cell character color size))
    as (character & color & size & Hcell).
  { vm_compute in Hgrid. injection Hgrid as <-.
    eexists _, _, _. reflexivity. }
  exists grid, character, color, size. split; [reflexivity|].
  split; [exact Hcell|].
  destruct (populated_cells_are_mapped fuel_pred grid 0 character color size
              Hcell) as [Htoliss _].
  exact (Htoliss Hgrid).
Defined.

Lemma xcrafts_decoding_stops_at_blank_witness :
  XCrafts.translate_values blank_then_rte = XCrafts.translate_values [].
Proof.
  apply (xcrafts_decoding_stops_at_blank []
           [(lit "XCrafts/FMS/CDU_1_03", PStr (lit "011310RTE"))]
           (lit "XCrafts/FMS/CDU_1_01") (PStr (lit "      "))).
  right. eexists. split; reflexivity.
Defined.

Lemma xcrafts_short_value_raises_witness :
  exists e,
    XCrafts.generate_display_json XCrafts.Captain
      [(lit "XCrafts/FMS/CDU_1_03", PStr (lit "RTE"))] = Raise e
    ∧ (e = ValueError ∨ e = IndexError).
Proof.
  apply (xcrafts_short_value_raises XCrafts.Captain
           (lit "XCrafts/FMS/CDU_1_03") (lit "RTE") []).
  - vm_compute. discriminate.
  - vm_compute. lia.
Defined.

Lemma unnumbered_dataref_skipped_or_raised_witness :
  ToLiss.generate_display_json (fuel_pred ++ [(lit "x", PStr (lit "A"))])
  = ToLiss.generate_display_json (fuel_pred ++ [])
  ∧ Zibo.get_display_json
      (zibo_title
       ++ [(lit "laminar/B738/fmc1/exec_light", PStr (lit "A"))])
    = Raise ValueError.
Proof.
  split.
  - destruct (unnumbered_dataref_skipped_or_raised fuel_pred []
                (lit "x") (PStr (lit "A")) StopIteration) as [Htoliss _].
    apply Htoliss. reflexivity.
  - destruct (unnumbered_dataref_skipped_or_raised zibo_title []
                (lit "laminar/B738/fmc1/exec_light") (PStr (lit "A"))
                ValueError) as [_ Hzibo].
    apply Hzibo; [reflexivity|].
    intros name v Hin. apply list_elem_of_singleton in Hin.
    injection Hin as -> _. eexists. vm_compute. reflexivity.
Defined.
